(** * aiorest-framework: fields, validators, serializers and pagination

    A shallow embedding of [aiorest_framework/validators.py], [fields.py],
    [serializers.py] and [pagination.py], and the properties of the
    specification that are stated about them.

    Conventions of the embedding.
    - Python values are the inductive [value]: [None], booleans, integers,
      text, lists, dicts (insertion-ordered association lists), dates and
      date-times (carried by their ISO rendering) and plain objects with
      instance attributes.  Binary floating point values are outside the
      modelled universe; the one floating point computation of the code,
      [hits / float(per_page)] in [num_pages], is carried out on integers
      with the rounding of binary64.
    - A Python [str] is represented by its UTF-8 encoding, so [len] counts
      code points and the byte-wise order is the code point order.
    - A raised exception is the [Raise] case of [result]; code that mutates
      [self] is written in a state monad over the object store whose state
      survives a raise, as attribute writes do in Python.
    - [await f(x)] runs [f x]; a call of an [async def] that is not awaited
      only builds a coroutine object.
    - What belongs to the language runtime and not to the repository
      ([int] on text, [is], [str.format], ...) is the class [Builtins]. *)

From Stdlib Require Import ZArith List String Ascii Bool Lia DecimalString.
From stdpp Require Import base list.
Import ListNotations.
Local Open Scope string_scope.
Local Open Scope Z_scope.

(** ** Values *)

#[local] Set Warnings "-register-all".

Inductive value : Type :=
| VNone
| VBool (b : bool)
| VInt (z : Z)
| VStr (s : string)
| VList (l : list value)
| VDict (d : list (value * value))
| VDate (iso : string)
| VDateTime (iso : string)
| VObj (id : nat) (attrs : list (string * value)).

(** Modelled from the spec: [exceptions.py], which defines
    [ValidationError] and [NotFound], is not among the sources.  After the
    specification a [ValidationError] carries the structured detail it was
    raised with, read back as [exc.detail], and [NotFound] carries its
    message.  The other cases are Python's own exceptions and the
    [InvalidPage] classes of pagination.py with their messages. *)
Inductive exn : Type :=
| ValidationError (detail : value)
| TypeError
| ValueError
| KeyError
| AttributeError
| AssertionError
| ZeroDivisionError
| OverflowError
| IndexError
| PageNotAnInteger (msg : string)
| EmptyPage (msg : string)
| NotFound (msg : string).

Inductive result (A : Type) : Type :=
| Ok (a : A)
| Raise (e : exn).

Arguments Ok {A} a.
Arguments Raise {A} e.

Definition rbind {A B} (r : result A) (k : A -> result B) : result B :=
  match r with
  | Ok a => k a
  | Raise e => Raise e
  end.

(** [bool(v)]: the truth value Python tests in [if v], [not v], [a and b]. *)
Definition truthy (v : value) : bool :=
  match v with
  | VNone => false
  | VBool b => b
  | VInt z => negb (z =? 0)
  | VStr s => negb (String.eqb s "")
  | VList l => match l with [] => false | _ => true end
  | VDict d => match d with [] => false | _ => true end
  | VDate _ | VDateTime _ | VObj _ _ => true
  end.

Definition falsy (v : value) : bool := negb (truthy v).

(** [a and b] and [a or b] return one of their operands. *)
Definition py_and (a b : value) : value := if truthy a then b else a.
Definition py_or (a b : value) : value := if truthy a then a else b.

(** [a == b].  [True == 1] and [False == 0]; dicts compare without order;
    plain objects compare by identity. *)
Fixpoint py_eq (a b : value) {struct a} : bool :=
  match a, b with
  | VNone, VNone => true
  | VBool x, VBool y => Bool.eqb x y
  | VBool x, VInt y => Z.b2z x =? y
  | VInt x, VBool y => x =? Z.b2z y
  | VInt x, VInt y => x =? y
  | VStr x, VStr y => String.eqb x y
  | VList x, VList y =>
      (fix go (x y : list value) {struct x} : bool :=
         match x, y with
         | [], [] => true
         | a' :: x', b' :: y' => py_eq a' b' && go x' y'
         | _, _ => false
         end) x y
  | VDict x, VDict y =>
      (length x =? length y)%nat &&
      (fix all (x : list (value * value)) {struct x} : bool :=
         match x with
         | [] => true
         | (k, v) :: x' =>
             (fix find (y : list (value * value)) : bool :=
                match y with
                | [] => false
                | (k', v') :: y' => (py_eq k k' && py_eq v v') || find y'
                end) y && all x'
         end) x
  | VDate x, VDate y => String.eqb x y
  | VDateTime x, VDateTime y => String.eqb x y
  | VObj i _, VObj j _ => (i =? j)%nat
  | _, _ => false
  end.

(** Lists and dicts have no [__hash__]. *)
Definition hashable (v : value) : bool :=
  match v with
  | VList _ | VDict _ => false
  | _ => true
  end.

(** [v in s] for a set (or a dict's keys): hashing [v] raises [TypeError]
    for an unhashable value, otherwise the elements are compared with [==]. *)
Definition set_contains (s : list value) (v : value) : result bool :=
  if hashable v then Ok (existsb (py_eq v) s) else Raise TypeError.

(** [v in t] for a tuple: a linear scan with [==], nothing is hashed. *)
Definition tuple_contains (t : list value) (v : value) : bool :=
  existsb (py_eq v) t.

(** [d.get(k)] on a dict: [None] when the key is absent. *)
Fixpoint assoc_get (d : list (value * value)) (k : value) : value :=
  match d with
  | [] => VNone
  | (k', v) :: d' => if py_eq k' k then v else assoc_get d' k
  end.

Definition dict_get (d : list (value * value)) (k : value) : result value :=
  if hashable k then Ok (assoc_get d k) else Raise TypeError.

(** [d[k] = v]: an existing key keeps its position. *)
Fixpoint dict_set {A} (d : list (value * A)) (k : value) (v : A)
  : list (value * A) :=
  match d with
  | [] => [(k, v)]
  | (k', v') :: d' =>
      if py_eq k' k then (k', v) :: d' else (k', v') :: dict_set d' k v
  end.

(** [OrderedDict(pairs)] and dict comprehensions over hashable keys. *)
Fixpoint dict_of_pairs (acc : list (value * value))
  (pairs : list (value * value)) : result (list (value * value)) :=
  match pairs with
  | [] => Ok acc
  | (k, v) :: rest =>
      if hashable k then dict_of_pairs (dict_set acc k v) rest
      else Raise TypeError
  end.

(** The same operations for mappings keyed by attribute or field names. *)
Fixpoint str_get {A} (d : list (string * A)) (k : string) : option A :=
  match d with
  | [] => None
  | (k', v) :: d' => if String.eqb k' k then Some v else str_get d' k
  end.

Fixpoint str_set {A} (d : list (string * A)) (k : string) (v : A)
  : list (string * A) :=
  match d with
  | [] => [(k, v)]
  | (k', v') :: d' =>
      if String.eqb k' k then (k', v) :: d' else (k', v') :: str_set d' k v
  end.

(** ** Text *)

(** A byte [10xxxxxx] continues a code point; every other byte starts one. *)
Definition starts_code_point (c : ascii) : bool :=
  negb (Nat.eqb (Nat.div (nat_of_ascii c) 64) 2).

Fixpoint code_points (s : string) : nat :=
  match s with
  | EmptyString => 0%nat
  | String c s' =>
      ((if starts_code_point c then 1 else 0) + code_points s')%nat
  end.

(** [a < b] on text. *)
Definition str_ltb (a b : string) : bool :=
  match String.compare a b with
  | Lt => true
  | _ => false
  end.

(** [str(z)] for an integer. *)
Definition str_of_Z (z : Z) : string := NilZero.string_of_int (Z.to_int z).

(** ** Format templates *)

(** What [template.format(key=v, ...)], called with keyword arguments only,
    does with a template, as far as the text of the template and the names
    of the keys decide it.  [Fills]: the template is made of text, doubled
    braces and replacement fields that are plain names among the keys, and
    it formats.  [Fails e]: reading from the left, format raises [e] at a
    stray or unclosed brace ([ValueError]), at a plain name that is no key
    ([KeyError]) or at an empty or numeric field, for which there is no
    positional argument ([IndexError]).  [Elaborate]: before any of that
    the template has a replacement field with a conversion, a format
    specification or a lookup, whose outcome depends on the values. *)
Inductive template_verdict : Type :=
| Fills
| Fails (e : exn)
| Elaborate.

Inductive scan_mode : Type :=
| InText
| AfterOpen
| AfterClose
| InField (field_name : string).

(** An ASCII letter, a digit or an underscore. *)
Definition name_char (c : ascii) : bool :=
  let n := nat_of_ascii c in
  ((65 <=? n) && (n <=? 90) || (97 <=? n) && (n <=? 122)
   || (48 <=? n) && (n <=? 57) || (n =? 95))%nat.

Fixpoint all_digits (s : string) : bool :=
  match s with
  | EmptyString => true
  | String c s' =>
      ((48 <=? nat_of_ascii c) && (nat_of_ascii c <=? 57))%nat
      && all_digits s'
  end.

Fixpoint scan_template (keys : list string) (mode : scan_mode) (s : string)
  : template_verdict :=
  match s with
  | EmptyString =>
      match mode with
      | InText => Fills
      | _ => Fails ValueError
      end
  | String c rest =>
      match mode with
      | InText =>
          if Ascii.eqb c "{" then scan_template keys AfterOpen rest
          else if Ascii.eqb c "}" then scan_template keys AfterClose rest
          else scan_template keys InText rest
      | AfterOpen =>
          if Ascii.eqb c "{" then scan_template keys InText rest
          else if Ascii.eqb c "}" then Fails IndexError
          else if name_char c
               then scan_template keys (InField (String c EmptyString)) rest
               else Elaborate
      | AfterClose =>
          if Ascii.eqb c "}" then scan_template keys InText rest
          else Fails ValueError
      | InField field_name =>
          if Ascii.eqb c "}"
          then if all_digits field_name then Fails IndexError
               else if existsb (String.eqb field_name) keys
                    then scan_template keys InText rest
                    else Fails KeyError
          else if name_char c
               then scan_template keys
                      (InField (field_name ++ String c EmptyString)) rest
               else Elaborate
      end
  end.

(** ** The language runtime *)

Class Builtins : Type := {
  (** [int(s)] for text [s]; [None] stands for [ValueError]. *)
  int_of_str : string -> option Z;
  (** [a is b]. *)
  is_same : value -> value -> bool;
  (** [template.format(key=v, ...)], when it returns. *)
  str_format : string -> list (string * value) -> string;
  (** The exception [template.format(key=v, ...)] raises, if it raises
      one, on a template with a replacement field that carries a
      conversion, a format specification or a lookup. *)
  str_format_error : string -> list (string * value) -> option exn;
  (** [str(v)] for a container, a date or an object. *)
  str_of_object : value -> string;
  (** [getattr(v, name, None)] for a value without instance attributes. *)
  getattr_builtin : value -> string -> value;
  (** [aiorest_framework.utils.parse_datetime], a module the repository
      imports and this development takes as given. *)
  parse_datetime : value -> result value
}.

(** [int(v)]: booleans are integers, text is parsed, everything else has
    no [__int__]. *)
Definition py_int `{Builtins} (v : value) : result Z :=
  match v with
  | VBool b => Ok (Z.b2z b)
  | VInt z => Ok z
  | VStr s =>
      match int_of_str s with
      | Some z => Ok z
      | None => Raise ValueError
      end
  | _ => Raise TypeError
  end.

(** [template.format(key=v, ...)] on a template that may not fit the
    keys. *)
Definition py_format `{Builtins} (template : string)
  (kwargs : list (string * value)) : result string :=
  match scan_template (map fst kwargs) InText template with
  | Fills => Ok (str_format template kwargs)
  | Fails e => Raise e
  | Elaborate =>
      match str_format_error template kwargs with
      | Some e => Raise e
      | None => Ok (str_format template kwargs)
      end
  end.

(** [len(v)]. *)
Definition py_len (v : value) : result Z :=
  match v with
  | VStr s => Ok (Z.of_nat (code_points s))
  | VList l => Ok (Z.of_nat (length l))
  | VDict d => Ok (Z.of_nat (length d))
  | _ => Raise TypeError
  end.

(** [str(v)]. *)
Definition py_str `{Builtins} (v : value) : string :=
  match v with
  | VNone => "None"
  | VBool true => "True"
  | VBool false => "False"
  | VInt z => str_of_Z z
  | VStr s => s
  | _ => str_of_object v
  end.

(** [a < b] and [a > b].  Numbers (booleans included) compare by value,
    text by code points, dates with dates, lists by their first unequal
    items and then by length; any other pairing raises [TypeError]. *)
Inductive order_op : Type := OpLt | OpGt.

Definition Z_order (op : order_op) (x y : Z) : bool :=
  match op with
  | OpLt => x <? y
  | OpGt => y <? x
  end.

Definition str_order (op : order_op) (x y : string) : bool :=
  match op with
  | OpLt => str_ltb x y
  | OpGt => str_ltb y x
  end.

Definition as_number (v : value) : option Z :=
  match v with
  | VBool b => Some (Z.b2z b)
  | VInt z => Some z
  | _ => None
  end.

Fixpoint py_order (op : order_op) (a b : value) {struct a} : result bool :=
  match a, b with
  | VList x, VList y =>
      (fix go (x y : list value) {struct x} : result bool :=
         match x, y with
         | a' :: x', b' :: y' =>
             if py_eq a' b' then go x' y' else py_order op a' b'
         | _, _ => Ok (Z_order op (Z.of_nat (length x)) (Z.of_nat (length y)))
         end) x y
  | VStr x, VStr y => Ok (str_order op x y)
  | VDate x, VDate y => Ok (str_order op x y)
  | VDateTime x, VDateTime y => Ok (str_order op x y)
  | _, _ =>
      match as_number a, as_number b with
      | Some x, Some y => Ok (Z_order op x y)
      | _, _ => Raise TypeError
      end
  end.

(** ** validators.py *)

Definition dquote : string := String (ascii_of_nat 34) EmptyString.

Inductive validator_class : Type :=
| BaseValidator
| MaxValueValidator
| MinValueValidator
| MinLengthValidator
| MaxLengthValidator.

Record validator : Type := mkValidator {
  v_class : validator_class;
  limit_value : value;
  message : string
}.

(** The class attribute [message]. *)
Definition class_message (c : validator_class) : string :=
  match c with
  | BaseValidator =>
      "убедитесь что это значение равно " ++ dquote ++ "{limit_value}" ++ dquote
  | MaxValueValidator =>
      "убедитесь что это значение меньше или равно "
        ++ dquote ++ "{limit_value}" ++ dquote
  | MinValueValidator =>
      "убедитесь что это значение больше или равно "
        ++ dquote ++ "{limit_value}" ++ dquote
  | MinLengthValidator =>
      "убедитесь что длина строки больше " ++ dquote ++ "{limit_value}" ++ dquote
  | MaxLengthValidator =>
      "убедитесь что длина строки меньше " ++ dquote ++ "{limit_value}" ++ dquote
  end.

Definition code (c : validator_class) : string :=
  match c with
  | BaseValidator => "limit_value"
  | MaxValueValidator => "max_value"
  | MinValueValidator => "min_value"
  | MinLengthValidator => "min_length"
  | MaxLengthValidator => "max_length"
  end.

(** [compare(a, b)] is true when the rule is broken. *)
Definition compare `{Builtins} (c : validator_class) (a b : value)
  : result bool :=
  match c with
  | BaseValidator => Ok (negb (is_same a b))
  | MaxValueValidator => py_order OpGt a b
  | MinValueValidator => py_order OpLt a b
  | MinLengthValidator => py_order OpLt a b
  | MaxLengthValidator => py_order OpGt a b
  end.

Definition clean (c : validator_class) (x : value) : result value :=
  match c with
  | BaseValidator | MaxValueValidator | MinValueValidator => Ok x
  | MinLengthValidator | MaxLengthValidator =>
      rbind (py_len x) (fun n => Ok (VInt n))
  end.

(** [BaseValidator.__init__]: a truthy [message] replaces the class one. *)
Definition new_validator (c : validator_class) (limit : value)
  (msg : option string) : validator :=
  {| v_class := c;
     limit_value := limit;
     message := match msg with
                | Some m => if String.eqb m "" then class_message c else m
                | None => class_message c
                end |}.

(** [BaseValidator.__call__]. *)
Definition validator_call `{Builtins} (v : validator) (x : value)
  : result unit :=
  if negb (truthy x) then Ok tt
  else
    rbind (clean (v_class v) x) (fun cleaned =>
    rbind (compare (v_class v) cleaned (limit_value v)) (fun broken =>
      if broken
      then rbind (py_format (message v) [("limit_value", limit_value v)])
             (fun text => Raise (ValidationError (VStr text)))
      else Ok tt)).

(** ** fields.py: the objects *)

(** Objects live in a store and are referred to by their address, so that
    two references to one [Field] see each other's writes. *)
Definition loc : Type := nat.

(** The class of a field, with the attributes its own [__init__] adds. *)
Inductive field_class : Type :=
| Field
| IntegerField
| SmallIntegerField
| CharField (max_length : value)
| DateTimeField
| ChoiceField (choices choice_strings_to_values : list (value * value))
    (allow_blank : bool)
| BooleanField
| SerializerMethodField (method_name : option string).

Record field : Type := mkField {
  f_class : field_class;
  name : value;
  f_initial_data : value;
  f_validated_data : value;
  f_errors : value;
  error_messages : list (string * string);
  required : bool;
  read_only : bool;
  default : value;
  validators : list validator;
  parent : option loc;
  partial : bool
}.

Definition default_error_messages : list (string * string) :=
  [("to_python", "неверные данные"); ("required", "обязательное поле")].

Definition field_error_messages (c : field_class) : list (string * string) :=
  match c with
  | DateTimeField =>
      [("date", "это значение просто дата"); ("invalid", "не верный формат")]
  | ChoiceField _ _ _ =>
      [("invalid_choice", dquote ++ "{input}" ++ dquote ++ " неверный вариант")]
  | BooleanField =>
      [("invalid", dquote ++ "{input}" ++ dquote ++ " не верное булевое значение")]
  | _ => []
  end.

(** [dict.update]. *)
Definition str_update {A} (d upd : list (string * A)) : list (string * A) :=
  fold_left (fun acc kv => str_set acc (fst kv) (snd kv)) upd d.

(** [Field.__init__]. *)
Definition Field_init (c : field_class) (nm init : value)
  (req ro : bool) (dflt : value) (part : bool) : field :=
  {| f_class := c;
     name := nm;
     f_initial_data := py_or init (VDict []);
     f_validated_data := VDict [];
     f_errors := VDict [];
     error_messages :=
       str_update (str_update [] default_error_messages)
         (field_error_messages c);
     required := req;
     read_only := ro;
     default := dflt;
     validators := [];
     parent := None;
     partial := part |}.

Definition set_validators (f : field) (vs : list validator) : field :=
  {| f_class := f_class f; name := name f;
     f_initial_data := f_initial_data f;
     f_validated_data := f_validated_data f; f_errors := f_errors f;
     error_messages := error_messages f; required := required f;
     read_only := read_only f; default := default f;
     validators := vs;
     parent := parent f; partial := partial f |}.

(** The three attribute writes of [Field.bind]. *)
Definition set_binding (f : field) (p : loc) (n : value) (part : bool)
  : field :=
  {| f_class := f_class f; name := n;
     f_initial_data := f_initial_data f;
     f_validated_data := f_validated_data f; f_errors := f_errors f;
     error_messages := error_messages f; required := required f;
     read_only := read_only f; default := default f;
     validators := validators f;
     parent := Some p; partial := part |}.

(** [CharField.__init__]: a truthy [max_length] installs the validator. *)
Definition CharField_init (max_len : value) (nm init : value)
  (req ro : bool) (dflt : value) (part : bool) : field :=
  let f := Field_init (CharField max_len) nm init req ro dflt part in
  if truthy max_len
  then set_validators f
         (validators f ++ [new_validator MaxLengthValidator max_len None])
  else f.

(** [ChoiceField.__init__]: [OrderedDict(choices)] and the alias map from
    [str(key)] to [key]. *)
Definition ChoiceField_init `{Builtins} (chs : list (value * value))
  (blank : bool) (nm init : value) (req ro : bool) (dflt : value)
  (part : bool) : result field :=
  rbind (dict_of_pairs [] chs) (fun od =>
  rbind (dict_of_pairs []
           (map (fun kv => (VStr (py_str (fst kv)), fst kv)) od))
    (fun aliases =>
       Ok (Field_init (ChoiceField od aliases blank) nm init req ro dflt
             part))).

(** [SerializerMethodField.__init__] forces [read_only=True]. *)
Definition SerializerMethodField_init (meth : option string)
  (nm init : value) (req : bool) (dflt : value) (part : bool) : field :=
  Field_init (SerializerMethodField meth) nm init req true dflt part.

(** ** serializers.py: the objects *)

(** [Options]: the [Meta] of a serializer class. *)
Record options : Type := mkOptions {
  model : value;
  meta_fields : list string;
  meta_validators : list (string * list validator)
}.

(** A serializer class after [SerializerMetaclass.__new__]:
    [_declared_fields] holds the addresses of the [Field] objects written
    in the class body, [_meta] exists when the class has a [Meta], and
    [methods] are the methods the class body defines. *)
Record serializer_class : Type := mkClass {
  class_name : string;
  _declared_fields : list (string * loc);
  _meta : option options;
  methods : list (string * (value -> result value))
}.

Record serializer : Type := mkSerializer {
  s_class : serializer_class;
  instance : value;
  initial_data : value;
  validated_data : value;
  _errors : value;
  s_partial : bool;
  (** [None] while [hasattr(self, '_data')] is false. *)
  _data : option value;
  fields : list (string * option loc);
  writable_fields : list (value * loc)
}.

Record store : Type := mkStore {
  field_objects : list field;
  serializer_objects : list serializer
}.

(** ** fields.py: the methods *)

Section FieldMethods.
Context `{Builtins}.

(** [Field.fail]. *)
Definition Field_fail {A} (f : field) (key : string) : result A :=
  match str_get (error_messages f) key with
  | Some m => Raise (ValidationError (VStr m))
  | None => Raise KeyError
  end.

(** [getattr(instance, attr_name, None)]. *)
Definition py_getattr (inst attr_name : value) : result value :=
  match attr_name with
  | VStr n =>
      match inst with
      | VObj _ attrs =>
          Ok (match str_get attrs n with Some v => v | None => VNone end)
      | _ => Ok (getattr_builtin inst n)
      end
  | _ => Raise TypeError
  end.

(** [Field.get_attribute]. *)
Definition Field_get_attribute (f : field) (inst : value) : result value :=
  let attr_name := name f in
  match inst with
  | VDict d => dict_get d attr_name
  | _ => py_getattr inst attr_name
  end.

(** [SerializerMethodField.get_attribute]: the method is looked up on the
    parent serializer among the methods of its class. *)
Definition SerializerMethodField_get_attribute (st : store) (f : field)
  (meth : option string) (inst : value) : result value :=
  let fallback := str_format "get_{field_name}" [("field_name", name f)] in
  let method_name :=
    match meth with
    | Some m => if String.eqb m "" then fallback else m
    | None => fallback
    end in
  match parent f with
  | None => Raise AttributeError
  | Some p =>
      match serializer_objects st !! p with
      | None => Raise AttributeError
      | Some s =>
          match str_get (methods (s_class s)) method_name with
          | Some method => method inst
          | None => Raise AttributeError
          end
      end
  end.

Definition get_attribute (st : store) (f : field) (inst : value)
  : result value :=
  match f_class f with
  | SerializerMethodField meth =>
      SerializerMethodField_get_attribute st f meth inst
  | _ => Field_get_attribute f inst
  end.

(** [BooleanField.TRUE_VALUES] and [FALSE_VALUES].  The literal [0.0] of
    the source equals and hashes as [0], so the set holds one element for
    [0], [0.0] and [False]. *)
Definition TRUE_VALUES : list value :=
  [VStr "t"; VStr "T"; VStr "true"; VStr "True"; VStr "TRUE"; VStr "1";
   VInt 1; VBool true].

Definition FALSE_VALUES : list value :=
  [VStr "f"; VStr "F"; VStr "false"; VStr "False"; VStr "FALSE"; VStr "0";
   VInt 0; VBool false].

(** [BooleanField.to_internal_value]. *)
Definition BooleanField_to_internal_value (f : field) (data : value)
  : result value :=
  match set_contains TRUE_VALUES data with
  | Ok true => Ok (VBool true)
  | Ok false =>
      match set_contains FALSE_VALUES data with
      | Ok true => Ok (VBool false)
      | Ok false => Field_fail f "invalid"
      | Raise TypeError => Field_fail f "invalid"
      | Raise e => Raise e
      end
  | Raise TypeError => Field_fail f "invalid"
  | Raise e => Raise e
  end.

(** [DateTimeField.to_python] with the class's [input_formats], the
    single ISO-8601 entry. *)
Definition DateTimeField_to_python (f : field) (v : value) : result value :=
  match v with
  | VDate _ => Field_fail f "date"
  | VDateTime _ => Ok v
  | _ =>
      match parse_datetime v with
      | Ok parsed => Ok parsed
      | Raise ValueError | Raise TypeError => Field_fail f "invalid"
      | Raise e => Raise e
      end
  end.

(** [ChoiceField.to_python]. *)
Definition ChoiceField_to_python (f : field)
  (chs aliases : list (value * value)) (blank : bool) (data : value)
  : result value :=
  if py_eq data (VStr "") && blank then Ok (VStr "")
  else
    rbind (dict_get aliases data) (fun by_string =>
    rbind (if truthy by_string then Ok by_string else dict_get chs data)
      (fun found =>
         if negb (truthy found)
         then match str_get (error_messages f) "invalid_choice" with
              | Some m =>
                  Raise (ValidationError
                           (VStr (str_format m [("input", data)])))
              | None => Raise KeyError
              end
         else Ok data)).

(** [to_python], resolved on the class of the field: [IntegerField],
    [DateTimeField] and [ChoiceField] override [Field.to_python]; the
    other classes inherit it. *)
Definition to_python (f : field) (v : value) : result value :=
  match f_class f with
  | IntegerField | SmallIntegerField =>
      match py_int v with
      | Ok n => Ok (VInt n)
      | Raise _ => Field_fail f "to_python"
      end
  | DateTimeField => DateTimeField_to_python f v
  | ChoiceField chs aliases blank =>
      ChoiceField_to_python f chs aliases blank v
  | Field | CharField _ | BooleanField | SerializerMethodField _ => Ok v
  end.

(** [to_representation], resolved on the class of the field. *)
Definition to_representation (f : field) (v : value) : result value :=
  match f_class f with
  | IntegerField | SmallIntegerField =>
      rbind (py_int v) (fun n => Ok (VInt n))
  | CharField _ => Ok (VStr (py_str v))
  | DateTimeField =>
      match v with
      | VDate iso | VDateTime iso => Ok (VStr iso)
      | _ => Raise AttributeError
      end
  | ChoiceField _ aliases _ =>
      if tuple_contains [VStr ""; VNone] v then Ok v
      else
        if hashable v
        then Ok (if existsb (fun kv => py_eq (fst kv) v) aliases
                 then assoc_get aliases v else v)
        else Raise TypeError
  | BooleanField =>
      rbind (set_contains TRUE_VALUES v) (fun t =>
        if t then Ok (VBool true)
        else rbind (set_contains FALSE_VALUES v) (fun fl =>
               if fl then Ok (VBool false) else Ok (VBool (truthy v))))
  | Field | SerializerMethodField _ => Ok v
  end.

(** [Field.run_validators]: the first validator that raises ends it. *)
Fixpoint run_validators (vs : list validator) (data : value) : result unit :=
  match vs with
  | [] => Ok tt
  | v :: rest => rbind (validator_call v data) (fun _ => run_validators rest data)
  end.

(** [Field.run_validation]. *)
Definition run_validation (st : store) (f : field) (data : value)
  : result value :=
  if negb (truthy data) && required f
     && negb (match parent f with Some _ => true | None => false end)
  then Field_fail f "required"
  else if negb (truthy data) && partial f
  then match parent f with
       | None => Raise AttributeError
       | Some p =>
           match serializer_objects st !! p with
           | None => Raise AttributeError
           | Some s => get_attribute st f (instance s)
           end
       end
  else if negb (truthy data) && negb (required f)
  then Ok data
  else
    rbind (to_python f data) (fun data' =>
    rbind (run_validators (validators f) data') (fun _ => Ok data')).

End FieldMethods.

(** ** serializers.py: the methods *)

(** Methods that write attributes run in [M]: the store is threaded through
    and is kept when an exception is raised. *)
Definition M (A : Type) : Type := store -> result A * store.

#[global] Instance M_ret : MRet M := fun A a st => (Ok a, st).

#[global] Instance M_bind : MBind M := fun A B k m st =>
  match m st with
  | (Ok a, st') => k a st'
  | (Raise e, st') => (Raise e, st')
  end.

Definition raise {A} (e : exn) : M A := fun st => (Raise e, st).

(** A computation that only reads the store. *)
Definition reading {A} (r : store -> result A) : M A := fun st => (r st, st).

(** [try: m except ValidationError as exc: h(exc.detail)]. *)
Definition try_except_ValidationError {A} (m : M A) (h : value -> M A)
  : M A := fun st =>
  match m st with
  | (Raise (ValidationError detail), st') => h detail st'
  | other => other
  end.

Definition read_field (fl : loc) : M field := fun st =>
  match field_objects st !! fl with
  | Some f => (Ok f, st)
  | None => (Raise AttributeError, st)
  end.

Definition read_serializer (sl : loc) : M serializer := fun st =>
  match serializer_objects st !! sl with
  | Some s => (Ok s, st)
  | None => (Raise AttributeError, st)
  end.

Definition write_field (fl : loc) (f : field) : M unit := fun st =>
  (Ok tt, {| field_objects := <[fl := f]> (field_objects st);
             serializer_objects := serializer_objects st |}).

Definition write_serializer (sl : loc) (s : serializer) : M unit := fun st =>
  (Ok tt, {| field_objects := field_objects st;
             serializer_objects := <[sl := s]> (serializer_objects st) |}).

(** A new object is placed at the next free address. *)
Definition new_field (f : field) : M loc := fun st =>
  (Ok (length (field_objects st)),
   {| field_objects := field_objects st ++ [f];
      serializer_objects := serializer_objects st |}).

Definition new_serializer (s : serializer) : M loc := fun st =>
  (Ok (length (serializer_objects st)),
   {| field_objects := field_objects st;
      serializer_objects := serializer_objects st ++ [s] |}).

Definition set_fields (s : serializer) (fs : list (string * option loc))
  : serializer :=
  {| s_class := s_class s; instance := instance s;
     initial_data := initial_data s; validated_data := validated_data s;
     _errors := _errors s; s_partial := s_partial s; _data := _data s;
     fields := fs; writable_fields := writable_fields s |}.

Definition set_writable_fields (s : serializer) (ws : list (value * loc))
  : serializer :=
  {| s_class := s_class s; instance := instance s;
     initial_data := initial_data s; validated_data := validated_data s;
     _errors := _errors s; s_partial := s_partial s; _data := _data s;
     fields := fields s; writable_fields := ws |}.

Definition set_validated_data (s : serializer) (v : value) : serializer :=
  {| s_class := s_class s; instance := instance s;
     initial_data := initial_data s; validated_data := v;
     _errors := _errors s; s_partial := s_partial s; _data := _data s;
     fields := fields s; writable_fields := writable_fields s |}.

Definition set_errors (s : serializer) (v : value) : serializer :=
  {| s_class := s_class s; instance := instance s;
     initial_data := initial_data s; validated_data := validated_data s;
     _errors := v; s_partial := s_partial s; _data := _data s;
     fields := fields s; writable_fields := writable_fields s |}.

Definition set_data (s : serializer) (v : value) : serializer :=
  {| s_class := s_class s; instance := instance s;
     initial_data := initial_data s; validated_data := validated_data s;
     _errors := _errors s; s_partial := s_partial s; _data := Some v;
     fields := fields s; writable_fields := writable_fields s |}.

Definition update_serializer (sl : loc) (upd : serializer -> serializer)
  : M unit :=
  s ← read_serializer sl; write_serializer sl (upd s).

Section SerializerMethods.
Context `{Builtins}.

(** [Field.bind]. *)
Definition Field_bind (self : loc) (parent_loc : loc) (nm : string)
  : M unit :=
  f ← read_field self;
  p ← read_serializer parent_loc;
  write_field self (set_binding f parent_loc (VStr nm) (s_partial p)).

(** [BaseSerializer.build_field]: the declared object itself is bound and
    returned. *)
Definition build_field (self : loc) (nm : string) : M (option loc) :=
  s ← read_serializer self;
  match str_get (_declared_fields (s_class s)) nm with
  | None => mret None
  | Some fl => _ ← Field_bind fl self nm; mret (Some fl)
  end.

Fixpoint build_fields (self : loc) (names : list string)
  : M (list (string * option loc)) :=
  match names with
  | [] => mret []
  | nm :: rest =>
      fl ← build_field self nm;
      tl ← build_fields self rest;
      mret ((nm, fl) :: tl)
  end.

(** [BaseSerializer.get_fields]. *)
Definition get_fields (self : loc) : M (list (string * option loc)) :=
  s ← read_serializer self;
  match _meta (s_class s) with
  | None => raise AttributeError
  | Some meta =>
      pairs ← build_fields self (meta_fields meta);
      mret (fold_left (fun acc kv => str_set acc (fst kv) (snd kv)) pairs [])
  end.

(** [BaseSerializer.get_writable_fields]. *)
Fixpoint writable_of (st : store) (fs : list (string * option loc))
  (acc : list (value * loc)) : result (list (value * loc)) :=
  match fs with
  | [] => Ok acc
  | (_, None) :: _ => Raise AttributeError
  | (_, Some fl) :: rest =>
      match field_objects st !! fl with
      | None => Raise AttributeError
      | Some f =>
          if negb (read_only f) || truthy (default f)
          then writable_of st rest (dict_set acc (name f) fl)
          else writable_of st rest acc
      end
  end.

Definition get_writable_fields (self : loc) : M (list (value * loc)) :=
  s ← read_serializer self;
  reading (fun st => writable_of st (fields s) []).

(** The loop over [self._meta.validators.items()] in
    [Serializer.__init__]. *)
Fixpoint install_validators (self : loc)
  (vs : list (string * list validator)) : M unit :=
  match vs with
  | [] => mret tt
  | (field_name, validators') :: rest =>
      s ← read_serializer self;
      match find (fun kv => py_eq (fst kv) (VStr field_name))
              (writable_fields s) with
      | None => raise KeyError
      | Some (_, fl) =>
          f ← read_field fl;
          _ ← write_field fl (set_validators f validators');
          install_validators self rest
      end
  end.

(** [Serializer.__init__], through [BaseSerializer.__init__] and
    [Field.__init__], for the arguments [instance], [initial_data] and
    [partial]; the attributes [name], [required], [read_only] and [default]
    that a serializer has as a [Field] are read by none of its methods and
    are left out. *)
Definition Serializer_init (cls : serializer_class)
  (instance_arg initial_data_arg : value) (partial_arg : bool) : M loc :=
  self ← new_serializer
    {| s_class := cls;
       instance := instance_arg;
       initial_data := py_or initial_data_arg (VDict []);
       validated_data := VDict [];
       _errors := VDict [];
       s_partial := partial_arg;
       _data := None;
       fields := [];
       writable_fields := [] |};
  fs ← get_fields self;
  _ ← update_serializer self (fun s => set_fields s fs);
  ws ← get_writable_fields self;
  _ ← update_serializer self (fun s => set_writable_fields s ws);
  s ← read_serializer self;
  match _meta (s_class s) with
  | None => raise AttributeError
  | Some meta => _ ← install_validators self (meta_validators meta); mret self
  end.

(** [BaseSerializer.to_representation]. *)
Fixpoint to_representation_loop (st : store)
  (items : list (string * option loc)) (inst : value)
  (ret : list (value * value)) : result (list (value * value)) :=
  match items with
  | [] => Ok ret
  | (_, None) :: _ => Raise AttributeError
  | (_, Some fl) :: rest =>
      match field_objects st !! fl with
      | None => Raise AttributeError
      | Some f =>
          rbind (get_attribute st f inst) (fun attribute =>
          rbind (if truthy attribute
                 then to_representation f attribute
                 else Ok attribute) (fun shown =>
          to_representation_loop st rest inst
            (dict_set ret (name f) shown)))
      end
  end.

Definition Serializer_to_representation (self : loc) (inst : value)
  : M value :=
  s ← read_serializer self;
  reading (fun st =>
    rbind (to_representation_loop st (fields s) inst [])
      (fun ret => Ok (VDict ret))).

(** [BaseSerializer.run_validation]. *)
Fixpoint run_validation_loop (st : store) (items : list (value * loc))
  (data : list (value * value)) (ret errors : list (value * value))
  : result (list (value * value) * list (value * value)) :=
  match items with
  | [] => Ok (ret, errors)
  | (nm, fl) :: rest =>
      match field_objects st !! fl with
      | None => Raise AttributeError
      | Some f =>
          rbind (dict_get data nm) (fun v =>
            match run_validation st f v with
            | Ok v' =>
                run_validation_loop st rest data (dict_set ret (name f) v')
                  errors
            | Raise (ValidationError detail) =>
                run_validation_loop st rest data ret
                  (dict_set errors nm detail)
            | Raise e => Raise e
            end)
      end
  end.

Definition Serializer_run_validation (self : loc) (data : value)
  : M value :=
  let data := match data with VDict d => d | _ => [] end in
  s ← read_serializer self;
  re ← reading (fun st =>
         run_validation_loop st (writable_fields s) data [] []);
  _ ← update_serializer self (fun s => set_errors s (VDict (snd re)));
  s ← read_serializer self;
  if truthy (_errors s) then raise (ValidationError (_errors s))
  else mret (VDict (fst re)).

(** [BaseSerializer.is_valid]. *)
Definition is_valid (self : loc) (raise_exception : bool) : M bool :=
  s ← read_serializer self;
  _ ← (if negb (truthy (validated_data s))
       then try_except_ValidationError
              (v ← Serializer_run_validation self (initial_data s);
               update_serializer self (fun s => set_validated_data s v))
              (fun detail =>
                 update_serializer self (fun s => set_errors s detail))
       else mret tt);
  s ← read_serializer self;
  if truthy (_errors s) && raise_exception
  then raise (ValidationError (_errors s))
  else mret (negb (truthy (_errors s))).

(** [x is None]. *)
Definition is_None (v : value) : bool :=
  match v with
  | VNone => true
  | _ => false
  end.

(** The property [BaseSerializer.data]. *)
Definition data (self : loc) : M value :=
  s ← read_serializer self;
  if truthy (initial_data s) && is_None (validated_data s)
  then raise AssertionError
  else
    _ ← match _data s with
        | Some _ => mret tt
        | None =>
            if negb (is_None (instance s)) && negb (truthy (_errors s))
            then
              d ← Serializer_to_representation self (instance s);
              update_serializer self (fun s => set_data s d)
            else if truthy (validated_data s) && negb (truthy (_errors s))
            then
              d ← Serializer_to_representation self (validated_data s);
              update_serializer self (fun s => set_data s d)
            else
              update_serializer self (fun s => set_data s (initial_data s))
        end;
    s ← read_serializer self;
    match _data s with
    | Some d => mret d
    | None => raise AttributeError
    end.

End SerializerMethods.

(** ** serializers.py: ListSerializer *)

(** The text items a [for] loop sees: one string per code point. *)
Fixpoint characters (s : string) : list string :=
  match s with
  | EmptyString => []
  | String c s' =>
      match characters s', s' with
      | p :: ps, String c' _ =>
          if starts_code_point c' then String c EmptyString :: p :: ps
          else String c p :: ps
      | ps, _ => String c EmptyString :: ps
      end
  end.

(** [for item in data]. *)
Definition py_iter (v : value) : result (list value) :=
  match v with
  | VList l => Ok l
  | VDict d => Ok (map fst d)
  | VStr s => Ok (map VStr (characters s))
  | _ => Raise TypeError
  end.

(** A coroutine object: the call [self.run_validation(data)] of the
    [async def] method of the serializer at [co_self], not yet run. *)
Record coroutine : Type := mkCoroutine {
  co_self : loc;
  co_data : value
}.

(** What a Python variable can hold here: a value or a coroutine object. *)
Inductive pyobject : Type :=
| Plain (v : value)
| Coroutine (c : coroutine).

(** Calling an [async def] function runs none of its body and raises
    nothing: it returns the coroutine object. *)
Definition call_async (c : coroutine) : result pyobject := Ok (Coroutine c).

(** [await c] runs the body. *)
Definition await `{Builtins} (c : coroutine) : M value :=
  Serializer_run_validation (co_self c) (co_data c).

(** [any(errors)]. *)
Definition py_any (l : list value) : bool := existsb truthy l.

Record list_serializer : Type := mkListSerializer {
  child : loc;
  allow_empty : bool
}.

(** The loop of [ListSerializer.run_validation], a plain [def]:
    [self.child.run_validation(item)] is called and not awaited. *)
Fixpoint ListSerializer_loop (self : list_serializer) (items : list value)
  (ret : list pyobject) (errors : list value)
  : result (list pyobject * list value) :=
  match items with
  | [] => Ok (ret, errors)
  | item :: rest =>
      match call_async (mkCoroutine (child self) item) with
      | Raise (ValidationError detail) =>
          ListSerializer_loop self rest ret (errors ++ [detail])
      | Raise e => Raise e
      | Ok validated =>
          ListSerializer_loop self rest (ret ++ [validated])
            (errors ++ [VDict []])
      end
  end.

(** [ListSerializer.run_validation]. *)
Definition ListSerializer_run_validation (self : list_serializer)
  (data : value) : result (list pyobject) :=
  rbind (py_iter data) (fun items =>
  rbind (ListSerializer_loop self items [] []) (fun re =>
    if py_any (snd re) then Raise (ValidationError (VList (snd re)))
    else Ok (fst re))).

(** ** pagination.py *)

(** [l[bottom:top]]: a negative index counts from the end, and both ends
    are clamped to the list. *)
Definition py_slice {A} (l : list A) (bottom top : Z) : list A :=
  let n := Z.of_nat (length l) in
  let clamp i := if i <? 0 then Z.max 0 (i + n) else Z.min i n in
  let lo := clamp bottom in
  let hi := clamp top in
  firstn (Z.to_nat (hi - lo)) (skipn (Z.to_nat lo) l).

(** The ceiling of the exact quotient [hits / per]. *)
Definition ceil_div (hits per : Z) : Z := - ((- hits) / per).

(** *** Binary floating point, as far as [num_pages] reaches it

    A finite binary64 number is [m * 2 ^ t] with [|m| <= 2 ^ 53] and
    [t >= -1074]. *)

(** The integer nearest to [n / d], for [d > 0]; a tie goes to the even
    one. *)
Definition round_half_even (n d : Z) : Z :=
  let q := n / d in
  match 2 * (n mod d) ?= d with
  | Lt => q
  | Gt => q + 1
  | Eq => if Z.even q then q else q + 1
  end.

(** The least integer that [float] refuses: [2 ^ 1024] less half a unit
    in the last place of the largest binary64 number. *)
Definition float_limit : Z := 2 ^ 1024 - 2 ^ 970.

(** [float(n)] for an integer: the nearest binary64 number, itself an
    integer, or [OverflowError]. *)
Definition float_of_int (n : Z) : result Z :=
  let a := Z.abs n in
  if a <? 2 ^ 53 then Ok n
  else
    let quantum := 2 ^ (Z.log2 a - 52) in
    let rounded := round_half_even a quantum * quantum in
    if 2 ^ 1024 <=? rounded then Raise OverflowError
    else Ok (Z.sgn n * rounded).

(** Every power of two below is written with this much added to its
    exponent, which makes it a whole number: the quotients that are formed
    lie between [2 ^ -1024] and [2 ^ 1024]. *)
Definition bias : Z := 1100.

(** The binary64 quotient [x / y] of two positive integers that are
    binary64 numbers, as [(m, t)] for [m * 2 ^ t]: with [e] the exponent of
    the exact quotient, the quotient is rounded to a multiple of
    [2 ^ (e - 52)], and of [2 ^ -1074] below the normal range. *)
Definition float_div (x y : Z) : Z * Z :=
  let e := Z.log2 (x * 2 ^ bias / y) - bias in
  let t := Z.max (e - 52) (-1074) in
  (round_half_even (x * 2 ^ bias) (y * 2 ^ (t + bias)), t).

(** [math.ceil] and [math.floor] of [m * 2 ^ t]. *)
Definition float_ceil (f : Z * Z) : Z :=
  ceil_div (fst f * 2 ^ (snd f + bias)) (2 ^ bias).

Definition float_floor (f : Z * Z) : Z :=
  fst f * 2 ^ (snd f + bias) / 2 ^ bias.

(** [int(ceil(hits / float(per)))]: [float(per)] is evaluated first, the
    division converts [hits], and a zero divisor is refused after both
    conversions. *)
Definition true_div_ceil (hits per : Z) : result Z :=
  rbind (float_of_int per) (fun y =>
  rbind (float_of_int hits) (fun x =>
    if y =? 0 then Raise ZeroDivisionError
    else if x =? 0 then Ok 0
    else if Bool.eqb (0 <? x) (0 <? y)
         then Ok (float_ceil (float_div (Z.abs x) (Z.abs y)))
         else Ok (- float_floor (float_div (Z.abs x) (Z.abs y))))).

Record paginator : Type := mkPaginator {
  object_list : list value;
  per_page : Z;
  orphans : Z;
  allow_empty_first_page : bool;
  count : Z;
  _num_pages : option Z;
  _count : option Z
}.

Record page : Type := mkPage {
  page_object_list : list value;
  number : Z
}.

Section Pagination.
Context `{Builtins}.

(** [Paginator.__init__]. *)
Definition Paginator_init (objects : list value) (per_page_arg : value)
  (orphans_arg : value) (allow_empty : bool) : result paginator :=
  rbind (py_int per_page_arg) (fun pp =>
  rbind (py_int orphans_arg) (fun orph =>
    Ok {| object_list := objects;
          per_page := pp;
          orphans := orph;
          allow_empty_first_page := allow_empty;
          count := 0;
          _num_pages := None;
          _count := None |})).

(** [Paginator.get_count]: a list has no argument-free [count()], so the
    length is taken, once. *)
Definition get_count (p : paginator) : Z * paginator :=
  match _count p with
  | Some c => (c, p)
  | None =>
      let c := Z.of_nat (length (object_list p)) in
      (c, {| object_list := object_list p; per_page := per_page p;
             orphans := orphans p;
             allow_empty_first_page := allow_empty_first_page p;
             count := count p; _num_pages := _num_pages p;
             _count := Some c |})
  end.

Definition set_count (p : paginator) (c : Z) : paginator :=
  {| object_list := object_list p; per_page := per_page p;
     orphans := orphans p;
     allow_empty_first_page := allow_empty_first_page p;
     count := c; _num_pages := _num_pages p; _count := _count p |}.

Definition set_num_pages (p : paginator) (n : Z) : paginator :=
  {| object_list := object_list p; per_page := per_page p;
     orphans := orphans p;
     allow_empty_first_page := allow_empty_first_page p;
     count := count p; _num_pages := Some n; _count := _count p |}.

(** The property [Paginator.num_pages]. *)
Definition num_pages (p : paginator) : result Z * paginator :=
  match _num_pages p with
  | Some n => (Ok n, p)
  | None =>
      if (count p =? 0) && negb (allow_empty_first_page p)
      then (Ok 0, set_num_pages p 0)
      else
        let hits := Z.max 1 (count p - orphans p) in
        match true_div_ceil hits (per_page p) with
        | Ok n => (Ok n, set_num_pages p n)
        | Raise e => (Raise e, p)
        end
  end.

(** [Paginator.validate_number]. *)
Definition validate_number (p : paginator) (number_arg : value)
  : result Z * paginator :=
  match py_int number_arg with
  | Raise TypeError | Raise ValueError =>
      (Raise (PageNotAnInteger "That page number is not an integer"), p)
  | Raise e => (Raise e, p)
  | Ok n =>
      if n <? 1
      then (Raise (EmptyPage "That page number is less than 1"), p)
      else
        match num_pages p with
        | (Raise e, p') => (Raise e, p')
        | (Ok pages, p') =>
            if pages <? n
            then
              if (n =? 1) && allow_empty_first_page p'
              then (Ok n, p')
              else (Raise (EmptyPage "That page contains no results"), p')
            else (Ok n, p')
        end
  end.

(** [Paginator.get_slice]. *)
Definition get_slice (p : paginator) (bottom top : Z) : list value :=
  py_slice (object_list p) bottom top.

(** [Paginator.page]. *)
Definition Paginator_page (p : paginator) (number_arg : value)
  : result page * paginator :=
  let (c, p) := get_count p in
  let p := set_count p c in
  match validate_number p number_arg with
  | (Raise e, p') => (Raise e, p')
  | (Ok n, p') =>
      let bottom := (n - 1) * per_page p' in
      let top := bottom + per_page p' in
      let top := if count p' <=? top + orphans p' then count p' else top in
      (Ok {| page_object_list := get_slice p' bottom top; number := n |},
       p')
  end.

(** [Page.has_next] and [Page.has_previous]; the page reads its
    paginator. *)
Definition has_next (pg : page) (p : paginator) : result bool * paginator :=
  match num_pages p with
  | (Ok pages, p') => (Ok (number pg <? pages), p')
  | (Raise e, p') => (Raise e, p')
  end.

Definition has_previous (pg : page) : bool := 1 <? number pg.

(** A request, as far as pagination reads it. *)
Record request : Type := mkRequest {
  GET : list (string * string);
  query_params : list (string * string)
}.

(** A [PageNumberPagination] object: the class attributes a subclass may
    override, and the [page] (with the paginator it refers to) and
    [request] kept by [paginate_object_list]. *)
Record pagination : Type := mkPagination {
  page_size : value;
  page_query_param : string;
  page_size_query_param : option string;
  max_page_size : option Z;
  last_page_strings : list value;
  invalid_page_message : string;
  self_page : option (page * paginator);
  self_request : option request
}.

(** [api_settings.PAGE_SIZE] with the [DEFAULTS] of settings.py. *)
Definition PAGE_SIZE : value := VInt 10.

(** The class [PageNumberPagination] as written. *)
Definition PageNumberPagination : pagination :=
  {| page_size := PAGE_SIZE;
     page_query_param := "page";
     page_size_query_param := None;
     max_page_size := None;
     last_page_strings := [VStr "last"];
     invalid_page_message :=
       "Invalid page " ++ dquote ++ "{page_number}" ++ dquote
         ++ ": {message}.";
     self_page := None;
     self_request := None |}.

(** [PageNumberPagination._positive_int]. *)
Definition _positive_int (integer_string : value) (strict : bool)
  (cutoff : option Z) : result Z :=
  rbind (py_int integer_string) (fun ret =>
    if (ret <? 0) || ((ret =? 0) && strict) then Raise ValueError
    else
      match cutoff with
      | Some c => if c =? 0 then Ok ret else Ok (Z.min ret c)
      | None => Ok ret
      end).

(** [PageNumberPagination.get_page_size]. *)
Definition get_page_size (self : pagination) (req : request)
  : result value :=
  let from_query :=
    match page_size_query_param self with
    | Some param =>
        if String.eqb param "" then None
        else
          Some (match str_get (query_params req) param with
                | None => Raise KeyError
                | Some s => _positive_int (VStr s) true (max_page_size self)
                end)
    | None => None
    end in
  match from_query with
  | Some (Ok n) => Ok (VInt n)
  | Some (Raise KeyError) | Some (Raise ValueError) | None =>
      Ok (page_size self)
  | Some (Raise e) => Raise e
  end.

Definition exn_message (e : exn) : string :=
  match e with
  | PageNotAnInteger m | EmptyPage m => m
  | _ => ""
  end.

(** [PageNumberPagination.paginate_object_list]; the result [None] is
    the [return None] of a disabled pagination. *)
Definition paginate_object_list (self : pagination) (objects : list value)
  (req : request) : result (option (list value)) * pagination :=
  match get_page_size self req with
  | Raise e => (Raise e, self)
  | Ok size =>
      if negb (truthy size) then (Ok None, self)
      else
        match Paginator_init objects size (VInt 0) true with
        | Raise e => (Raise e, self)
        | Ok paginator0 =>
            let page_number :=
              match str_get (GET req) (page_query_param self) with
              | Some s => VStr s
              | None => VInt 1
              end in
            let '(page_number, paginator1) :=
              if tuple_contains (last_page_strings self) page_number
              then
                match num_pages paginator0 with
                | (Ok n, p') => (Ok (VInt n), p')
                | (Raise e, p') => (Raise e, p')
                end
              else (Ok page_number, paginator0) in
            match page_number with
            | Raise e => (Raise e, self)
            | Ok page_number =>
                match Paginator_page paginator1 page_number with
                | (Raise (PageNotAnInteger m as exc), _)
                | (Raise (EmptyPage m as exc), _) =>
                    (rbind (py_format (invalid_page_message self)
                              [("page_number", page_number);
                               ("message", VStr (exn_message exc))])
                       (fun msg => Raise (NotFound msg)),
                     self)
                | (Raise e, _) => (Raise e, self)
                | (Ok pg, paginator2) =>
                    (Ok (Some (page_object_list pg)),
                     {| page_size := page_size self;
                        page_query_param := page_query_param self;
                        page_size_query_param :=
                          page_size_query_param self;
                        max_page_size := max_page_size self;
                        last_page_strings := last_page_strings self;
                        invalid_page_message := invalid_page_message self;
                        self_page := Some (pg, paginator2);
                        self_request := Some req |})
                end
            end
        end
  end.

End Pagination.

(** ** A runtime and objects to run the model on *)

Fixpoint digits_value (s : string) (acc : Z) : option Z :=
  match s with
  | EmptyString => Some acc
  | String c s' =>
      let d := Z.of_nat (nat_of_ascii c) in
      if (48 <=? d) && (d <=? 57) then digits_value s' (acc * 10 + (d - 48))
      else None
  end.

(** [int] on text made of an optional minus sign and ASCII digits. *)
Definition decimal_int (s : string) : option Z :=
  match s with
  | EmptyString => None
  | String "-" EmptyString => None
  | String "-" s' => option_map Z.opp (digits_value s' 0)
  | _ => digits_value s 0
  end.

(** [str(v)] where containers, dates and objects all read [<object>]. *)
Definition plain_str (v : value) : string :=
  match v with
  | VNone => "None"
  | VBool true => "True"
  | VBool false => "False"
  | VInt z => str_of_Z z
  | VStr s => s
  | _ => "<object>"
  end.

(** A template with its plain replacement fields filled in and its doubled
    braces halved. *)
Fixpoint fill_template (kwargs : list (string * value)) (mode : scan_mode)
  (s : string) : string :=
  match s with
  | EmptyString => EmptyString
  | String c rest =>
      match mode with
      | InText =>
          if Ascii.eqb c "{" then fill_template kwargs AfterOpen rest
          else if Ascii.eqb c "}" then fill_template kwargs AfterClose rest
          else String c (fill_template kwargs InText rest)
      | AfterOpen =>
          if Ascii.eqb c "{" then String c (fill_template kwargs InText rest)
          else fill_template kwargs (InField (String c EmptyString)) rest
      | AfterClose => String c (fill_template kwargs InText rest)
      | InField field_name =>
          if Ascii.eqb c "}"
          then match str_get kwargs field_name with
               | Some v => plain_str v
               | None => EmptyString
               end ++ fill_template kwargs InText rest
          else fill_template kwargs
                 (InField (field_name ++ String c EmptyString)) rest
      end
  end.

(** A runtime that reads plain decimal numbers, fills the plain
    replacement fields of a template, refuses every other replacement field
    and knows no built-in attribute. *)
Definition plain_builtins : Builtins :=
  {| int_of_str := decimal_int;
     is_same := py_eq;
     str_format := fun template kwargs => fill_template kwargs InText template;
     str_format_error := fun _ _ => Some ValueError;
     str_of_object := fun _ => "<object>";
     getattr_builtin := fun _ _ => VNone;
     parse_datetime := fun _ => Raise ValueError |}.

(** [list(range(n))]. *)
Definition py_range (n : nat) : list value :=
  map (fun i => VInt (Z.of_nat i)) (seq 0 n).

Definition empty_store : store :=
  {| field_objects := []; serializer_objects := [] |}.

(** A schema class with one required field [x] and [Meta.fields = ('x',)];
    its [Field] object is the first object of [one_field_store]. *)
Definition one_field_class : serializer_class :=
  {| class_name := "OneField";
     _declared_fields := [("x", 0%nat)];
     _meta := Some {| model := VNone; meta_fields := ["x"];
                      meta_validators := [] |};
     methods := [] |}.

Definition one_field_store : store :=
  {| field_objects := [Field_init Field VNone VNone true false VNone false];
     serializer_objects := [] |}.

(** An existing object for that schema, [{'x': 5}]. *)
Definition instance_a : value := VDict [(VStr "x", VInt 5)].

(** A schema class with a [DateTimeField], an [IntegerField], a
    [CharField] and a [BooleanField]. *)
Definition four_field_class : serializer_class :=
  {| class_name := "FourFields";
     _declared_fields :=
       [("when", 0%nat); ("n", 1%nat); ("s", 2%nat); ("b", 3%nat)];
     _meta := Some {| model := VNone; meta_fields := ["when"; "n"; "s"; "b"];
                      meta_validators := [] |};
     methods := [] |}.

Definition four_field_store : store :=
  {| field_objects :=
       [Field_init DateTimeField VNone VNone true false VNone false;
        Field_init IntegerField VNone VNone true false VNone false;
        CharField_init VNone VNone VNone true false VNone false;
        Field_init BooleanField VNone VNone true false VNone false];
     serializer_objects := [] |}.

(** An object whose four attributes are falsy, and one whose four
    attributes are truthy. *)
Definition falsy_instance : value :=
  VDict [(VStr "when", VNone); (VStr "n", VInt 0); (VStr "s", VStr "");
         (VStr "b", VBool false)].

Definition truthy_instance : value :=
  VDict [(VStr "when", VDateTime "2020-01-02T03:04:05");
         (VStr "n", VBool true); (VStr "s", VInt 7);
         (VStr "b", VStr "false")].

(** The request [?page=last]. *)
Definition last_page_request : request :=
  {| GET := [("page", "last")]; query_params := [] |}.

From Stdlib Require Import Sorted.

(** ** pagination.py: Page and the response *)

Section PageMethods.
Context `{Builtins}.

(** [Page.__len__]. *)
Definition Page_len (pg : page) : Z := Z.of_nat (length (page_object_list pg)).

(** [Page.has_other_pages]: [has_next] is only evaluated when
    [has_previous] is false. *)
Definition has_other_pages (pg : page) (p : paginator)
  : result bool * paginator :=
  if has_previous pg then (Ok true, p) else has_next pg p.

(** [Page.next_page_number] and [Page.previous_page_number]. *)
Definition next_page_number (pg : page) (p : paginator)
  : result Z * paginator :=
  validate_number p (VInt (number pg + 1)).

Definition previous_page_number (pg : page) (p : paginator)
  : result Z * paginator :=
  validate_number p (VInt (number pg - 1)).

(** [Page.start_index]. *)
Definition start_index (pg : page) (p : paginator) : Z :=
  if count p =? 0 then 0 else per_page p * (number pg - 1) + 1.

(** [Page.end_index]. *)
Definition end_index (pg : page) (p : paginator) : result Z * paginator :=
  match num_pages p with
  | (Raise e, p') => (Raise e, p')
  | (Ok pages, p') =>
      if number pg =? pages then (Ok (count p'), p')
      else (Ok (number pg * per_page p'), p')
  end.

(** [PageNumberPagination.get_paginated_response]; without a kept page
    the attribute [self.page] does not exist. *)
Definition get_paginated_response (self : pagination) (data : value)
  : result value * pagination :=
  match self_page self with
  | None => (Raise AttributeError, self)
  | Some (pg, p) =>
      match has_next pg p with
      | (Raise e, p') =>
          (Raise e,
           {| page_size := page_size self;
              page_query_param := page_query_param self;
              page_size_query_param := page_size_query_param self;
              max_page_size := max_page_size self;
              last_page_strings := last_page_strings self;
              invalid_page_message := invalid_page_message self;
              self_page := Some (pg, p');
              self_request := self_request self |})
      | (Ok next, p') =>
          (Ok (VDict [(VStr "count", VInt (count p));
                      (VStr "has_next", VBool next);
                      (VStr "has_previous", VBool (has_previous pg));
                      (VStr "results", data)]),
           {| page_size := page_size self;
              page_query_param := page_query_param self;
              page_size_query_param := page_size_query_param self;
              max_page_size := max_page_size self;
              last_page_strings := last_page_strings self;
              invalid_page_message := invalid_page_message self;
              self_page := Some (pg, p');
              self_request := self_request self |})
      end
  end.

End PageMethods.

(** ** serializers.py: save, and the list serializer as an object *)

(** [d.update(kwargs)] for keyword arguments. *)
Definition dict_update_kwargs (d : list (value * value))
  (kwargs : list (string * value)) : list (value * value) :=
  fold_left (fun acc kv => dict_set acc (VStr (fst kv)) (snd kv)) kwargs d.

(** A call of a method with [arity] positional parameters besides [self]:
    a missing or surplus argument raises [TypeError] before the body runs. *)
Definition call_with {A} (arity : nat) (body : list value -> A)
  (args : list value) (otherwise : A) : A :=
  if Nat.eqb (length args) arity then body args else otherwise.

Definition set_instance (s : serializer) (v : value) : serializer :=
  {| s_class := s_class s; instance := v;
     initial_data := initial_data s; validated_data := validated_data s;
     _errors := _errors s; s_partial := s_partial s; _data := _data s;
     fields := fields s; writable_fields := writable_fields s |}.

Section Save.
Context `{Builtins}.

(** [BaseSerializer.create(self, validated_data)]. *)
Definition create (args : list value) : M value :=
  call_with 1
    (fun args => match args with
                 | [validated_data] => mret validated_data
                 | _ => raise TypeError
                 end)
    args (raise TypeError).

(** [BaseSerializer.update(self, instance, validated_data)]: the result of
    [instance.update(validated_data)], which for a dict instance is [None]
    (the dict is updated in place; a non-mapping argument is a
    [TypeError]) and for a value without an [update] method an
    [AttributeError]. *)
Definition update (args : list value) : M value :=
  call_with 2
    (fun args => match args with
                 | [VDict _; VDict _] => mret VNone
                 | [VDict _; _] => raise TypeError
                 | [_; _] => raise AttributeError
                 | _ => raise TypeError
                 end)
    args (raise TypeError).

(** [BaseSerializer.save]: [create] and [update] are called as
    [self.create()] and [self.update(self.instance)]. *)
Definition save (self : loc) (kwargs : list (string * value)) : M value :=
  s ← read_serializer self;
  if truthy (_errors s) then raise AssertionError
  else
    _ ← match validated_data s with
        | VDict d =>
            update_serializer self
              (fun s => set_validated_data s
                          (VDict (dict_update_kwargs d kwargs)))
        | _ => raise AttributeError
        end;
    inst ← (if is_None (instance s) then create []
            else update [instance s]);
    _ ← update_serializer self (fun s => set_instance s inst);
    if is_None inst then raise AssertionError else mret inst.

(** [ListSerializer.to_representation]: the child's representation of
    each item, awaited in turn. *)
Fixpoint ListSerializer_to_representation_loop (child_loc : loc)
  (items : list value) (ret : list value) : M (list value) :=
  match items with
  | [] => mret ret
  | item :: rest =>
      shown ← Serializer_to_representation child_loc item;
      ListSerializer_to_representation_loop child_loc rest (ret ++ [shown])
  end.

Definition ListSerializer_to_representation (self : list_serializer)
  (data : value) : M value :=
  match py_iter data with
  | Raise e => raise e
  | Ok items =>
      ret ← ListSerializer_to_representation_loop (child self) items [];
      mret (VList ret)
  end.

End Save.

(** A [ListSerializer] object: the child and [allow_empty] of its own
    [__init__], and the attributes [Field.__init__] gives it. *)
Record list_serializer_object : Type := mkListSerializerObject {
  ls_self : list_serializer;
  ls_instance : value;
  ls_initial_data : value;
  ls_validated_data : value;
  ls_errors : value
}.

(** [ListSerializer.__init__]: without a [child] argument the class
    attribute [child = None] is deep-copied and the first assertion
    fails. *)
Definition ListSerializer_init (child_arg : option loc)
  (allow_empty_arg : bool) (instance_arg initial_data_arg : value)
  : result list_serializer_object :=
  match child_arg with
  | None => Raise AssertionError
  | Some c =>
      Ok {| ls_self := {| child := c; allow_empty := allow_empty_arg |};
            ls_instance := instance_arg;
            ls_initial_data := py_or initial_data_arg (VDict []);
            ls_validated_data := VDict [];
            ls_errors := VDict [] |}
  end.

(** [BaseSerializer.is_valid] on a [ListSerializer]:
    [self.run_validation] is the plain function of the subclass, so
    [await self.run_validation(...)] awaits the list it returns, which is
    a [TypeError]. *)
Definition ListSerializer_is_valid (self : list_serializer_object)
  (raise_exception : bool) : result bool * list_serializer_object :=
  let finish (self : list_serializer_object) :=
    if truthy (ls_errors self) && raise_exception
    then (Raise (ValidationError (ls_errors self)), self)
    else (Ok (negb (truthy (ls_errors self))), self) in
  if negb (truthy (ls_validated_data self))
  then
    match ListSerializer_run_validation (ls_self self)
            (ls_initial_data self) with
    | Ok _ => (Raise TypeError, self)
    | Raise (ValidationError detail) =>
        finish {| ls_self := ls_self self;
                  ls_instance := ls_instance self;
                  ls_initial_data := ls_initial_data self;
                  ls_validated_data := ls_validated_data self;
                  ls_errors := detail |}
    | Raise e => (Raise e, self)
    end
  else finish self.

(** ** serializers.py: the metaclass *)

(** An attribute of a class body: a [Field] object, or anything else. *)
Inductive class_attr : Type :=
| FieldAttr (fl : loc)
| OtherAttr (v : value).

(** [list.sort(key=...)]: the sort is stable. *)
Fixpoint insert_by_key {A} (key : A -> nat) (x : A) (l : list A) : list A :=
  match l with
  | [] => [x]
  | y :: l' =>
      if (key x <=? key y)%nat then x :: y :: l'
      else y :: insert_by_key key x l'
  end.

Fixpoint sort_by_key {A} (key : A -> nat) (l : list A) : list A :=
  match l with
  | [] => []
  | x :: l' => insert_by_key key x (sort_by_key key l')
  end.

(** [OrderedDict(pairs)] for name keys: a repeated key keeps its first
    position and takes its last value. *)
Definition ordered_dict {A} (pairs : list (string * A)) : list (string * A) :=
  fold_left (fun acc kv => str_set acc (fst kv) (snd kv)) pairs [].

(** The [Field] attributes of a class body, in the order of the body. *)
Fixpoint field_attrs (attrs : list (string * class_attr))
  : list (string * loc) :=
  match attrs with
  | [] => []
  | (field_name, FieldAttr fl) :: rest => (field_name, fl) :: field_attrs rest
  | (_, OtherAttr _) :: rest => field_attrs rest
  end.

(** [SerializerMetaclass._get_declared_fields].  [creation_counter fl] is
    the [_creation_counter] of the [Field] object at [fl]; a base is given
    by its [_declared_fields], or [None] when it has none. *)
Definition _get_declared_fields (creation_counter : loc -> nat)
  (bases : list (option (list (string * loc))))
  (attrs : list (string * class_attr)) : list (string * loc) :=
  let declared_fields :=
    sort_by_key (fun x => creation_counter (snd x)) (field_attrs attrs) in
  let declared_fields :=
    fold_left
      (fun declared base =>
         match base with
         | Some base_fields => (base_fields ++ declared)%list
         | None => declared
         end)
      (rev bases) declared_fields in
  ordered_dict declared_fields.

(** ** settings.py *)

Definition DEFAULTS : list (string * value) :=
  [("PAGE_SIZE", VInt 10);
   ("DEFAULT_PAGINATION_CLASS",
    VStr "aiorest_peewee.pagination.QueryPageNumberPagination")].

Definition IMPORT_STRINGS : list string := ["DEFAULT_PAGINATION_CLASS"].

(** What reading a setting gives: a value, the [AttributeError] of an
    unknown name, the [ImportError] of [import_from_string], or an
    exception that [import_from_string] does not catch. *)
Inductive setting_result : Type :=
| Setting (v : value)
| SettingAttributeError
| SettingImportError
| SettingRaised (e : exn).

(** What [importlib.import_module(module_path)] followed by
    [getattr(module, class_name)] gives. *)
Inductive import_outcome : Type :=
| Imported (v : value)
| ImportFailed
| ImportRaised (e : exn).

(** An [APISettings] object; [cached] holds the attributes that
    [__getattr__] has set on it. *)
Record APISettings : Type := mkAPISettings {
  _user_settings : list (string * value);
  defaults : list (string * value);
  import_strings : list string;
  cached : list (string * value)
}.

(** [APISettings.__init__]: [x or default] for each argument, so an empty
    argument counts as an absent one. *)
Definition APISettings_init (user_settings defaults_arg : list (string * value))
  (import_strings_arg : list string) : APISettings :=
  {| _user_settings := user_settings;
     defaults := match defaults_arg with [] => DEFAULTS | _ => defaults_arg end;
     import_strings :=
       match import_strings_arg with
       | [] => IMPORT_STRINGS
       | _ => import_strings_arg
       end;
     cached := [] |}.

Definition is_dot (c : ascii) : bool := Ascii.eqb c ".".

Fixpoint has_dot (s : string) : bool :=
  match s with
  | EmptyString => false
  | String c s' => is_dot c || has_dot s'
  end.

(** [parts = val.split('.')] cut into ['.'.join(parts[:-1])] and
    [parts[-1]]. *)
Fixpoint split_path (s : string) : string * string :=
  match s with
  | EmptyString => (EmptyString, EmptyString)
  | String c s' =>
      if has_dot s'
      then (String c (fst (split_path s')), snd (split_path s'))
      else if is_dot c then (EmptyString, s')
           else (EmptyString, String c s')
  end.

Section Settings.

(** The import machinery of the runtime: [ImportFailed] stands for the
    [ImportError] and [AttributeError] that [import_from_string] catches. *)
Variable import_attribute : string -> string -> import_outcome.

(** [import_from_string]; a value that is not text has no [split]. *)
Definition import_from_string (val : value) : setting_result :=
  match val with
  | VStr path =>
      match import_attribute (fst (split_path path)) (snd (split_path path))
      with
      | Imported v => Setting v
      | ImportFailed => SettingImportError
      | ImportRaised e => SettingRaised e
      end
  | _ => SettingImportError
  end.

(** The list comprehension of [perform_import]: the first failure ends
    it. *)
Fixpoint import_each (items : list value) : setting_result :=
  match items with
  | [] => Setting (VList [])
  | item :: rest =>
      match import_from_string item with
      | Setting v =>
          match import_each rest with
          | Setting (VList vs) => Setting (VList (v :: vs))
          | other => other
          end
      | failure => failure
      end
  end.

(** [perform_import]. *)
Definition perform_import (val : value) : setting_result :=
  match val with
  | VNone => Setting VNone
  | VStr _ => import_from_string val
  | VList items => import_each items
  | _ => Setting val
  end.

(** [APISettings.__getattr__], called for a name that is not yet an
    attribute of the object. *)
Definition APISettings_getattr (self : APISettings) (attr : string)
  : setting_result * APISettings :=
  match str_get (defaults self) attr with
  | None => (SettingAttributeError, self)
  | Some default_val =>
      let val :=
        match str_get (_user_settings self) attr with
        | Some v => v
        | None => default_val
        end in
      let imported :=
        if existsb (String.eqb attr) (import_strings self)
        then perform_import val else Setting val in
      match imported with
      | Setting v =>
          (Setting v,
           {| _user_settings := _user_settings self;
              defaults := defaults self;
              import_strings := import_strings self;
              cached := str_set (cached self) attr v |})
      | failure => (failure, self)
      end
  end.

(** Reading the setting [attr] of the object, for a name other than its
    own three attributes: a value set by an earlier read is found without
    [__getattr__]. *)
Definition read_setting (self : APISettings) (attr : string)
  : setting_result * APISettings :=
  match str_get (cached self) attr with
  | Some v => (Setting v, self)
  | None => APISettings_getattr self attr
  end.

End Settings.

(** ** More objects to run the model on *)

(** Twenty-three objects in pages of ten with up to five orphans. *)
Definition paginator_of_23 : paginator :=
  mkPaginator (py_range 23) 10 5 true 0 None None.

(** The request [?page=2&page_size=5]. *)
Definition second_page_request : request :=
  {| GET := [("page", "2")]; query_params := [("page_size", "5")] |}.

(** The request [?page=9], and what [NotFound] says of it when there are
    fewer pages. *)
Definition ninth_page_request : request :=
  {| GET := [("page", "9")]; query_params := [] |}.

Definition no_ninth_page : string :=
  "Invalid page " ++ dquote ++ "9" ++ dquote
    ++ ": That page contains no results.".

(** [PageNumberPagination] with [page_size_query_param = 'page_size'] and
    [max_page_size = 100]. *)
Definition sized_pagination : pagination :=
  {| page_size := PAGE_SIZE;
     page_query_param := "page";
     page_size_query_param := Some "page_size";
     max_page_size := Some 100;
     last_page_strings := [VStr "last"];
     invalid_page_message := invalid_page_message PageNumberPagination;
     self_page := None;
     self_request := None |}.

(** A required [IntegerField], as constructed and as bound under the name
    [n] to the serializer at address 0. *)
Definition integer_field : field :=
  Field_init IntegerField VNone VNone true false VNone false.

Definition bound_integer_field : field :=
  set_binding integer_field 0%nat (VStr "n") false.

(** The store after [FourFields(data=init)], and the serializer object it
    holds. *)
Definition four_field_bound (init : value) : store :=
  snd (Serializer_init four_field_class VNone init false four_field_store).

Definition four_field_object (init : value) : serializer :=
  {| s_class := four_field_class;
     instance := VNone;
     initial_data := init;
     validated_data := VDict [];
     _errors := VDict [];
     s_partial := false;
     _data := None;
     fields := [("when", Some 0%nat); ("n", Some 1%nat); ("s", Some 2%nat);
                ("b", Some 3%nat)];
     writable_fields := [(VStr "when", 0%nat); (VStr "n", 1%nat);
                         (VStr "s", 2%nat); (VStr "b", 3%nat)] |}.

(** Input that [FourFields] refuses, and the errors it records for it. *)
Definition invalid_input : value :=
  VDict [(VStr "n", VStr "abc"); (VStr "s", VStr "hello")].

Definition recorded_errors : value :=
  VDict [(VStr "when", VStr "не верный формат");
         (VStr "n", VStr "неверные данные")].

(** A schema class whose [Meta.fields] lists [y], which it does not
    declare. *)
Definition undeclared_name_class : serializer_class :=
  {| class_name := "Undeclared";
     _declared_fields := [("x", 0%nat)];
     _meta := Some {| model := VNone; meta_fields := ["x"; "y"];
                      meta_validators := [] |};
     methods := [] |}.

(** A class body that assigns the field created second before the field
    created first, and the body of a subclass that declares [a] again. *)
Definition class_body : list (string * class_attr) :=
  [("b", FieldAttr 1%nat); ("Meta", OtherAttr VNone); ("a", FieldAttr 0%nat)].

Definition subclass_body : list (string * class_attr) :=
  [("c", FieldAttr 3%nat); ("a", FieldAttr 2%nat)].

(** A runtime in which no import succeeds, and the settings object built
    from the user settings [{'PAGE_SIZE': 25}]. *)
Definition no_imports : string -> string -> import_outcome :=
  fun _ _ => ImportFailed.

Definition user_api_settings : APISettings :=
  APISettings_init [("PAGE_SIZE", VInt 25)] DEFAULTS [].

(** * Properties *)

(** ** The wording of the specification *)


(** The per-field step of [BaseSerializer.to_representation], after the
    specification: a falsy attribute is emitted as it is, a truthy one goes
    through the field's render step. *)
Inductive emits `{Builtins} (st : store) (inst : value)
  : string * option loc -> value * value -> Prop :=
| emits_falsy nm fl f attribute :
    field_objects st !! fl = Some f ->
    get_attribute st f inst = Ok attribute ->
    truthy attribute = false ->
    emits st inst (nm, Some fl) (name f, attribute)
| emits_rendered nm fl f attribute shown :
    field_objects st !! fl = Some f ->
    get_attribute st f inst = Ok attribute ->
    truthy attribute = true ->
    to_representation f attribute = Ok shown ->
    emits st inst (nm, Some fl) (name f, shown).

(** The templates of the [invalid_choice] and [invalid] messages. *)
Definition invalid_choice_template : string :=
  dquote ++ "{input}" ++ dquote ++ " неверный вариант".

Definition invalid_boolean_template : string :=
  dquote ++ "{input}" ++ dquote ++ " не верное булевое значение".

(** The coroutine object that [self.child.run_validation(item)] builds. *)
Definition pending (self : list_serializer) (item : value) : pyobject :=
  Coroutine (mkCoroutine (child self) item).

(** ** Reasoning about the store *)

(** What [__init__] gives a serializer and no later step of the
    construction touches. *)
Definition constructed_as (s : serializer) (cls : serializer_class)
  (inst init : value) (part : bool) : Prop :=
  s_class s = cls /\ instance s = inst /\ initial_data s = init /\
  validated_data s = VDict [] /\ _errors s = VDict [] /\
  s_partial s = part /\ _data s = None.

(** The serializer at [self] exists and satisfies [P]. *)
Definition holds_at (self : loc) (P : serializer -> Prop) (st : store) : Prop :=
  exists s, serializer_objects st !! self = Some s /\ P s.

(** A computation keeps what is known of the serializer at [self]. *)
Definition keeps {A} (self : loc) (P : serializer -> Prop) (m : M A) : Prop :=
  forall st r st', m st = (r, st') -> holds_at self P st -> holds_at self P st'.

Create HintDb keeps.

(** ** Pagination: the page count and the paginator after counting *)

(** The number of pages of a collection of [total] objects. *)
Definition total_pages (total per orph : Z) (allow_empty_first : bool) : Z :=
  if (total =? 0) && negb allow_empty_first then 0
  else ceil_div (Z.max 1 (total - orph)) per.

(** The paginator once [page] has counted the objects and [num_pages] has
    been read. *)
Definition counted (p : paginator) : paginator :=
  let total := Z.of_nat (length (object_list p)) in
  {| object_list := object_list p;
     per_page := per_page p;
     orphans := orphans p;
     allow_empty_first_page := allow_empty_first_page p;
     count := total;
     _num_pages :=
       Some (total_pages total (per_page p) (orphans p)
               (allow_empty_first_page p));
     _count := Some total |}.

(** Nothing is memoized on the paginator but what [page] memoizes:
    [_count], when set, is the number of objects, and [_num_pages], when
    set, is the page count of that many objects.  A new paginator is in
    this state and [page] keeps a paginator in it; reading [num_pages]
    before the first [page] memoizes the page count of an empty collection
    and leaves it. *)
Definition memo_consistent (p : paginator) : Prop :=
  let total := Z.of_nat (length (object_list p)) in
  (_count p = None \/ _count p = Some total) /\
  (_num_pages p = None \/
   _num_pages p =
     Some (total_pages total (per_page p) (orphans p)
             (allow_empty_first_page p))).

(** [page(n)] for each [n] of [numbers] in turn, on one paginator. *)
Fixpoint pages_in_turn `{Builtins} (p : paginator) (numbers : list Z)
  : result (list page) * paginator :=
  match numbers with
  | [] => (Ok [], p)
  | n :: rest =>
      match Paginator_page p (VInt n) with
      | (Raise e, p') => (Raise e, p')
      | (Ok pg, p') =>
          match pages_in_turn p' rest with
          | (Ok pgs, p'') => (Ok (pg :: pgs), p'')
          | (Raise e, p'') => (Raise e, p'')
          end
      end
  end.

(** ** Serializers: the store after a write, and the end of [is_valid] *)

(** The store in which the serializer at [self] has become [s]. *)
Definition put_serializer (st : store) (self : loc) (s : serializer)
  : store :=
  {| field_objects := field_objects st;
     serializer_objects := <[self := s]> (serializer_objects st) |}.

(** The data [BaseSerializer.run_validation] works on. *)
Definition dict_or_empty (data : value) : list (value * value) :=
  match data with
  | VDict d => d
  | _ => []
  end.

(** The last two statements of [BaseSerializer.is_valid], on the
    serializer [s] reached in the store [st]. *)
Definition is_valid_result (raise_exception : bool) (s : serializer)
  (st : store) : result bool * store :=
  if truthy (_errors s) && raise_exception
  then (Raise (ValidationError (_errors s)), st)
  else (Ok (negb (truthy (_errors s))), st).

Section Properties.
Context `{Builtins}.

(** ** Validators *)







(** ** ChoiceField *)

Lemma ChoiceField_init_inv (chs : list (value * value)) (blank : bool)
  (nm init : value) (req ro : bool) (dflt : value) (part : bool) (f : field) :
  ChoiceField_init chs blank nm init req ro dflt part = Ok f ->
  exists od aliases,
    dict_of_pairs [] chs = Ok od /\
    dict_of_pairs [] (map (fun kv => (VStr (py_str (fst kv)), fst kv)) od)
      = Ok aliases /\
    f = Field_init (ChoiceField od aliases blank) nm init req ro dflt part.
Proof.
  unfold ChoiceField_init. intros Hinit.
  destruct (dict_of_pairs [] chs) as [od | e]; simpl in Hinit; [| discriminate].
  destruct (dict_of_pairs [] _) as [aliases | e] eqn:Haliases;
    simpl in Hinit; [| discriminate].
  injection Hinit as <-. eauto.
Qed.

(** C10. [ChoiceField.to_python] decides by the truth value of the lookup
    results, not by membership: for an input other than the blank allowed
    by [allow_blank], a hashable input is returned when the alias lookup or
    the choices lookup gives a truthy result and is refused with the
    [invalid_choice] message otherwise (an unhashable one raises
    [TypeError] inside the lookup).  So with choices [[(0, 'zero')]] the
    input ['0'], whose alias lookup gives [0], is refused although it is
    the string form of a choice, and with choices [[(5, '')]] the input
    [5], whose label is empty, is refused although it is a key of
    [choices]; ['1'] and [1] are accepted with [[(1,'one'),(2,'two')]]. *)
Theorem ChoiceField_accepts_iff_lookup_truthy
  (chs : list (value * value)) (blank : bool) (nm init : value)
  (req ro : bool) (dflt : value) (part : bool) (f : field) :
  ChoiceField_init chs blank nm init req ro dflt part = Ok f ->
  (exists od aliases,
     f_class f = ChoiceField od aliases blank /\
     forall data,
       py_eq data (VStr "") && blank = false ->
       (hashable data = true ->
        (truthy (assoc_get aliases data) || truthy (assoc_get od data) = true
         <-> to_python f data = Ok data) /\
        (truthy (assoc_get aliases data) || truthy (assoc_get od data) = false
         <-> to_python f data =
               Raise (ValidationError
                        (VStr (str_format invalid_choice_template
                                 [("input", data)]))))) /\
       (hashable data = false -> to_python f data = Raise TypeError))
  /\ (forall f0,
        ChoiceField_init [(VInt 0, VStr "zero")] false nm init req ro dflt part
          = Ok f0 ->
        existsb (fun kv => py_eq (fst kv) (VStr "0"))
          (match f_class f0 with
           | ChoiceField _ aliases _ => aliases
           | _ => []
           end) = true /\
        to_python f0 (VStr "0") =
          Raise (ValidationError
                   (VStr (str_format invalid_choice_template
                            [("input", VStr "0")]))))
  /\ (forall f5,
        ChoiceField_init [(VInt 5, VStr "")] false nm init req ro dflt part
          = Ok f5 ->
        existsb (fun kv => py_eq (fst kv) (VInt 5))
          (match f_class f5 with
           | ChoiceField od _ _ => od
           | _ => []
           end) = true /\
        to_python f5 (VInt 5) =
          Raise (ValidationError
                   (VStr (str_format invalid_choice_template
                            [("input", VInt 5)]))))
  /\ (forall f12,
        ChoiceField_init [(VInt 1, VStr "one"); (VInt 2, VStr "two")] false
          nm init req ro dflt part = Ok f12 ->
        to_python f12 (VStr "1") = Ok (VStr "1") /\
        to_python f12 (VInt 1) = Ok (VInt 1)).
Proof.
  intros Hinit.
  split; [| split; [| split];
            intros f' Hf'; injection Hf' as <-; split; reflexivity].
  apply ChoiceField_init_inv in Hinit as (od & aliases & _ & _ & ->).
  exists od, aliases. split; [reflexivity |].
  intros data Hblank.
  unfold to_python, ChoiceField_to_python; simpl.
  rewrite Hblank. unfold dict_get.
  destruct (hashable data); simpl.
  - split; [| discriminate]. intros _.
    destruct (truthy (assoc_get aliases data)) eqn:Ha; simpl.
    + rewrite Ha; simpl.
      split; split; try reflexivity; try discriminate; intros _; reflexivity.
    + destruct (truthy (assoc_get od data)) eqn:Ho; simpl.
      * split; split; try reflexivity; try discriminate; intros _; reflexivity.
      * split; split; try reflexivity; try discriminate; intros _; reflexivity.
  - split; [discriminate | reflexivity].
Qed.

(** ** Paginator *)

Lemma py_int_raises (v : value) (e : exn) :
  py_int v = Raise e -> e = TypeError \/ e = ValueError.
Proof.
  destruct v; simpl; try (intros [= <-]; auto; fail); try discriminate.
  destruct (int_of_str s); [discriminate | intros [= <-]; auto].
Qed.

(** [ceil_div] is the ceiling of the exact quotient. *)
Lemma ceil_div_is_ceiling (hits per : Z) :
  0 < per ->
  (ceil_div hits per - 1) * per < hits <= ceil_div hits per * per.
Proof.
  intros Hper. unfold ceil_div.
  pose proof (Z.div_mod (- hits) per ltac:(lia)) as Hdm.
  pose proof (Z.mod_pos_bound (- hits) per Hper) as Hmod.
  nia.
Qed.

Lemma py_slice_in_range {A} (l : list A) (bottom top : Z) :
  0 <= bottom <= Z.of_nat (length l) ->
  0 <= top <= Z.of_nat (length l) ->
  py_slice l bottom top =
    firstn (Z.to_nat (top - bottom)) (skipn (Z.to_nat bottom) l).
Proof.
  intros Hb Ht. unfold py_slice.
  destruct (Z.ltb_spec bottom 0); [lia |].
  destruct (Z.ltb_spec top 0); [lia |].
  rewrite !Z.min_l by lia. reflexivity.
Qed.


(** ** Binary floating point: where [num_pages] is exact *)

Lemma ceil_div_unique (m P c : Z) :
  0 < P -> (c - 1) * P < m <= c * P -> ceil_div m P = c.
Proof.
  intros HP Hc.
  pose proof (ceil_div_is_ceiling m P HP) as Hd.
  nia.
Qed.

Lemma round_half_even_near (n d : Z) :
  0 < d ->
  2 * round_half_even n d * d - d <= 2 * n <= 2 * round_half_even n d * d + d.
Proof.
  intros Hd. unfold round_half_even.
  pose proof (Z.div_mod n d ltac:(lia)) as Hdm.
  pose proof (Z.mod_pos_bound n d Hd) as Hmod.
  destruct (Z.compare_spec (2 * (n mod d)) d) as [Heq | Hlt | Hgt].
  - destruct (Z.even (n / d)); nia.
  - nia.
  - nia.
Qed.

(** An integer the quotient does not exceed bounds the rounded quotient. *)
Lemma round_half_even_le (n d k : Z) :
  0 < d -> n <= k * d -> round_half_even n d <= k.
Proof.
  intros Hd Hk. pose proof (round_half_even_near n d Hd) as Hn. nia.
Qed.

Lemma round_half_even_ge (n d k : Z) :
  0 < d -> k * d <= n -> k <= round_half_even n d.
Proof.
  intros Hd Hk. pose proof (round_half_even_near n d Hd) as Hn. nia.
Qed.

Lemma float_of_int_small (n : Z) :
  Z.abs n < 2 ^ 53 -> float_of_int n = Ok n.
Proof.
  intros Hn. unfold float_of_int.
  destruct (Z.ltb_spec (Z.abs n) (2 ^ 53)); [reflexivity | lia].
Qed.

Lemma pow2_pos (k : Z) : 0 <= k -> 0 < 2 ^ k.
Proof. intros Hk. apply Z.pow_pos_nonneg; lia. Qed.

Lemma pow2_split (a b : Z) : 0 <= a -> 0 <= b -> 2 ^ (a + b) = 2 ^ a * 2 ^ b.
Proof. intros. apply Z.pow_add_r; assumption. Qed.

Lemma float_of_int_large (n : Z) :
  2 ^ 53 <= n < float_limit ->
  exists y, float_of_int n = Ok y /\ 2 ^ 53 <= y < 2 ^ 1024.
Proof.
  intros [Hlo Hhi]. unfold float_of_int.
  rewrite Z.abs_eq by lia.
  destruct (Z.ltb_spec n (2 ^ 53)) as [Hs | _]; [lia |].
  assert (Hpos : 0 < n) by lia.
  pose proof (Z.log2_spec n Hpos) as [Hl1 Hl2].
  set (L := Z.log2 n) in *.
  assert (HL53 : 53 <= L).
  { destruct (Z.le_gt_cases 53 L) as [Hok | Hbad]; [exact Hok |].
    assert (2 ^ Z.succ L <= 2 ^ 53) by (apply Z.pow_le_mono_r; lia). lia. }
  assert (HL1023 : L <= 1023).
  { destruct (Z.le_gt_cases L 1023) as [Hok | Hbad]; [exact Hok |].
    assert (2 ^ 1024 <= 2 ^ L) by (apply Z.pow_le_mono_r; lia).
    unfold float_limit in Hhi.
    assert (0 < 2 ^ 970) by (apply pow2_pos; lia). lia. }
  set (q := 2 ^ (L - 52)).
  assert (Hq : 0 < q) by (apply pow2_pos; lia).
  assert (HqL : 2 ^ L = 2 ^ 52 * q).
  { unfold q. rewrite <- pow2_split by lia. f_equal. lia. }
  assert (HqL1 : 2 ^ Z.succ L = 2 ^ 53 * q).
  { unfold q. rewrite <- pow2_split by lia. f_equal. lia. }
  assert (Hq2 : 2 <= q).
  { unfold q. change 2 with (2 ^ 1) at 1. apply Z.pow_le_mono_r; lia. }
  set (m := round_half_even n q).
  assert (Hm52 : 2 ^ 52 <= m) by (apply round_half_even_ge; lia).
  assert (Hm53 : m <= 2 ^ 53) by (apply round_half_even_le; lia).
  assert (Hrounded : m * q < 2 ^ 1024).
  { destruct (Z.eq_dec L 1023) as [HL | HL].
    - assert (Hq971 : q = 2 ^ 971) by (unfold q; rewrite HL; reflexivity).
      assert (Hm : m < 2 ^ 53).
      { pose proof (round_half_even_near n q Hq) as Hnear. fold m in Hnear.
        unfold float_limit in Hhi.
        assert (H1024 : 2 ^ 1024 = 2 ^ 53 * q)
          by (rewrite Hq971, <- pow2_split by lia; reflexivity).
        assert (H970 : 2 * 2 ^ 970 = q)
          by (rewrite Hq971; change 2 with (2 ^ 1) at 1;
              rewrite <- pow2_split by lia; reflexivity).
        nia. }
      assert (H1024 : 2 ^ 1024 = 2 ^ 53 * q)
        by (rewrite Hq971, <- pow2_split by lia; reflexivity).
      nia.
    - assert (2 ^ Z.succ L <= 2 ^ 1023) by (apply Z.pow_le_mono_r; lia).
      assert (2 ^ 1023 < 2 ^ 1024) by (apply Z.pow_lt_mono_r; lia).
      nia. }
  destruct (Z.leb_spec (2 ^ 1024) (m * q)) as [Hover | _]; [lia |].
  eexists. split; [reflexivity |].
  rewrite Z.sgn_pos by lia. split; [| lia].
  change (2 ^ 53) with (2 ^ 52 * 2). nia.
Qed.

Lemma float_of_int_overflow (n : Z) :
  float_limit <= n -> float_of_int n = Raise OverflowError.
Proof.
  intros Hn. unfold float_of_int.
  assert (H53 : 2 ^ 53 < float_limit) by (vm_compute; reflexivity).
  rewrite Z.abs_eq by lia.
  destruct (Z.ltb_spec n (2 ^ 53)) as [Hs | _]; [lia |].
  assert (Hpos : 0 < n) by lia.
  pose proof (Z.log2_spec n Hpos) as [Hl1 Hl2].
  set (L := Z.log2 n) in *.
  assert (HL1023 : 1023 <= L).
  { destruct (Z.le_gt_cases 1023 L) as [Hok | Hbad]; [exact Hok |].
    assert (2 ^ Z.succ L <= 2 ^ 1023) by (apply Z.pow_le_mono_r; lia).
    assert (2 ^ 1023 < float_limit) by (vm_compute; reflexivity). lia. }
  set (q := 2 ^ (L - 52)).
  assert (Hq : 0 < q) by (apply pow2_pos; lia).
  assert (HqL : 2 ^ L = 2 ^ 52 * q).
  { unfold q. rewrite <- pow2_split by lia. f_equal. lia. }
  set (m := round_half_even n q).
  assert (Hm52 : 2 ^ 52 <= m) by (apply round_half_even_ge; lia).
  assert (Hrounded : 2 ^ 1024 <= m * q).
  { destruct (Z.eq_dec L 1023) as [HL | HL].
    - assert (Hq971 : q = 2 ^ 971) by (unfold q; rewrite HL; reflexivity).
      assert (H1024 : 2 ^ 1024 = 2 ^ 53 * q)
        by (rewrite Hq971, <- pow2_split by lia; reflexivity).
      assert (H970 : 2 * 2 ^ 970 = q)
        by (rewrite Hq971; change 2 with (2 ^ 1) at 1;
            rewrite <- pow2_split by lia; reflexivity).
      assert (HL1 : 2 ^ Z.succ L = 2 ^ 53 * q)
        by (unfold q; rewrite <- pow2_split by lia; f_equal; lia).
      enough (2 ^ 53 <= m) by nia.
      subst m. unfold round_half_even.
      pose proof (Z.div_mod n q ltac:(lia)) as Hdm.
      pose proof (Z.mod_pos_bound n q Hq) as Hmod.
      unfold float_limit in Hn.
      assert (Hk : n / q = 2 ^ 53 - 1) by nia.
      rewrite Hk.
      destruct (Z.compare_spec (2 * (n mod q)) q) as [Heq | Hlt | Hgt].
      + change (Z.even (2 ^ 53 - 1)) with false. lia.
      + nia.
      + lia.
    - assert (2 ^ 1024 <= 2 ^ L) by (apply Z.pow_le_mono_r; lia). nia. }
  destruct (Z.leb_spec (2 ^ 1024) (m * q)) as [_ | Hunder]; [reflexivity | lia].
Qed.

(** The exponent [float_div] finds: with [E] the power of two it stands
    for, [E * y <= x * 2 ^ bias < 2 * E * y]. *)
Lemma quotient_exponent (x y : Z) :
  0 < x -> 0 < y -> y < 2 ^ 1024 ->
  let lx := Z.log2 (x * 2 ^ bias / y) in
  0 <= lx /\ 2 ^ lx * y <= x * 2 ^ bias < 2 * 2 ^ lx * y.
Proof.
  intros Hx Hy Hy1024 lx.
  assert (HS : 0 < 2 ^ bias) by (apply pow2_pos; unfold bias; lia).
  assert (Hbig : 2 ^ 1024 <= 2 ^ bias)
    by (apply Z.pow_le_mono_r; unfold bias; lia).
  set (S := 2 ^ bias) in *.
  pose proof (Z.div_mod (x * S) y ltac:(lia)) as Hdm.
  pose proof (Z.mod_pos_bound (x * S) y Hy) as Hmod.
  assert (HX : 0 < x * S / y).
  { assert (y * 1 <= x * S) by nia.
    assert (1 <= x * S / y) by (apply Z.div_le_lower_bound; lia). lia. }
  pose proof (Z.log2_spec _ HX) as [Hl1 Hl2]. fold lx in Hl1, Hl2.
  split; [apply Z.log2_nonneg |].
  rewrite Z.pow_succ_r in Hl2 by apply Z.log2_nonneg.
  nia.
Qed.

Lemma exact_core (x y T P m c : Z) :
  0 < y -> 0 < T -> 0 < P -> 0 < x < 2 ^ 53 ->
  2 ^ 52 * T * y <= x * (T * P) ->
  2 * m * (y * T) - y * T <= 2 * (x * (T * P)) <= 2 * m * (y * T) + y * T ->
  (c - 1) * y < x <= c * y ->
  (c - 1) * (T * P) < m * T <= c * (T * P).
Proof.
  intros Hy HT HP Hx Hnorm Hnear Hc.
  assert (Hnorm' : 2 ^ 52 * y <= x * P) by nia.
  assert (Hnear' : 2 * m * y - y <= 2 * (x * P) <= 2 * m * y + y) by nia.
  assert (Hup : m <= c * P).
  { destruct (Z.le_gt_cases m (c * P)) as [Hok | Hbad]; [exact Hok |].
    assert (0 <= (m - c * P - 1) * y) by nia.
    assert (0 <= (c * y - x) * P) by nia.
    nia. }
  assert (Hlow : (c - 1) * P < m).
  { destruct (Z.lt_ge_cases ((c - 1) * P) m) as [Hok | Hbad]; [exact Hok |].
    assert (0 <= ((c - 1) * P - m) * y) by nia.
    assert (0 <= (x - (c - 1) * y - 1) * P) by nia.
    assert (H2P : 2 * P <= y) by nia.
    assert (x * P < 2 ^ 53 * P) by nia.
    nia. }
  nia.
Qed.

Lemma float_div_ceil_exact (x y : Z) :
  0 < x < 2 ^ 53 -> 0 < y < 2 ^ 53 ->
  float_ceil (float_div x y) = ceil_div x y.
Proof.
  intros Hx Hy.
  assert (Hy1024 : y < 2 ^ 1024).
  { assert (2 ^ 53 < 2 ^ 1024) by (apply Z.pow_lt_mono_r; lia). lia. }
  destruct (quotient_exponent x y ltac:(lia) ltac:(lia) Hy1024)
    as (Hlx0 & HE1 & HE2).
  unfold float_div, float_ceil. cbn [fst snd].
  set (lx := Z.log2 (x * 2 ^ bias / y)) in *.
  assert (HS : 0 < 2 ^ bias) by (apply pow2_pos; unfold bias; lia).
  assert (Hhi : lx <= 52 + bias).
  { destruct (Z.le_gt_cases lx (52 + bias)) as [Hok | Hbad]; [exact Hok |].
    assert (Hpow : 2 ^ (53 + bias) <= 2 ^ lx)
      by (apply Z.pow_le_mono_r; lia).
    rewrite pow2_split in Hpow by (unfold bias; lia). nia. }
  assert (Hlo : bias - 53 <= lx).
  { destruct (Z.le_gt_cases (bias - 53) lx) as [Hok | Hbad]; [exact Hok |].
    assert (Hpow : 2 ^ (lx + 54) <= 2 ^ bias)
      by (apply Z.pow_le_mono_r; unfold bias in *; lia).
    rewrite pow2_split in Hpow by lia.
    assert (0 < 2 ^ lx) by (apply pow2_pos; lia).
    change (2 ^ 54) with (2 * 2 ^ 53) in Hpow. nia. }
  rewrite Z.max_l by (unfold bias in *; lia).
  replace (lx - bias - 52 + bias) with (lx - 52) by lia.
  set (T := 2 ^ (lx - 52)).
  set (P := 2 ^ (bias + 52 - lx)).
  assert (HT : 0 < T) by (apply pow2_pos; unfold bias in *; lia).
  assert (HP : 0 < P) by (apply pow2_pos; lia).
  assert (HTP : 2 ^ bias = T * P).
  { unfold T, P. rewrite <- pow2_split by (unfold bias in *; lia).
    f_equal. lia. }
  assert (HET : 2 ^ lx = 2 ^ 52 * T).
  { unfold T. rewrite <- pow2_split by (unfold bias in *; lia).
    f_equal. lia. }
  rewrite HTP in *.
  pose proof (round_half_even_near (x * (T * P)) (y * T) ltac:(nia)) as Hnear.
  pose proof (ceil_div_is_ceiling x y ltac:(lia)) as Hc.
  apply ceil_div_unique; [lia |].
  apply exact_core with (x := x) (y := y); lia.
Qed.

Lemma float_div_ceil_below_one (x y : Z) :
  0 < x -> x < y -> y < 2 ^ 1024 ->
  float_ceil (float_div x y) = 1.
Proof.
  intros Hx Hxy Hy1024.
  destruct (quotient_exponent x y ltac:(lia) ltac:(lia) Hy1024)
    as (Hlx0 & HE1 & HE2).
  unfold float_div, float_ceil. cbn [fst snd].
  set (lx := Z.log2 (x * 2 ^ bias / y)) in *.
  assert (HS : 0 < 2 ^ bias) by (apply pow2_pos; unfold bias; lia).
  assert (Hhi : lx < bias).
  { destruct (Z.lt_ge_cases lx bias) as [Hok | Hbad]; [exact Hok |].
    assert (2 ^ bias <= 2 ^ lx) by (apply Z.pow_le_mono_r; lia). nia. }
  assert (Hlo : bias - 1024 <= lx).
  { destruct (Z.le_gt_cases (bias - 1024) lx) as [Hok | Hbad]; [exact Hok |].
    assert (Hpow : 2 ^ (lx + 1025) <= 2 ^ bias)
      by (apply Z.pow_le_mono_r; unfold bias in *; lia).
    rewrite pow2_split in Hpow by lia.
    assert (0 < 2 ^ lx) by (apply pow2_pos; lia).
    change (2 ^ 1025) with (2 * 2 ^ 1024) in Hpow. nia. }
  set (t := Z.max (lx - bias - 52) (-1074)).
  assert (Ht : -1074 <= t < 0) by (unfold t, bias in *; lia).
  assert (Hte : lx - bias - 52 <= t) by (unfold t; lia).
  set (T := 2 ^ (t + bias)).
  set (P := 2 ^ (- t)).
  assert (HT : 0 < T) by (apply pow2_pos; unfold bias in *; lia).
  assert (HP : 0 < P) by (apply pow2_pos; lia).
  assert (HTP : 2 ^ bias = T * P).
  { unfold T, P. rewrite <- pow2_split by (unfold bias in *; lia).
    f_equal. lia. }
  (* the exact quotient is at least [2 ^ 50] units *)
  assert (HTE : 2 ^ 50 * T <= 2 ^ lx * 4).
  { unfold T. change 4 with (2 ^ 2).
    rewrite <- !pow2_split by (unfold bias in *; lia).
    apply Z.pow_le_mono_r; unfold t, bias in *; lia. }
  set (m := round_half_even (x * 2 ^ bias) (y * T)).
  assert (Hm1 : 1 <= m).
  { apply round_half_even_ge; [nia |].
    assert (0 < 2 ^ lx) by (apply pow2_pos; lia).
    change (2 ^ 50) with (4 * 2 ^ 48) in HTE.
    assert (0 < 2 ^ 48) by (apply pow2_pos; lia).
    nia. }
  assert (HmP : m <= P).
  { apply round_half_even_le; [nia |]. rewrite HTP. nia. }
  apply ceil_div_unique; [lia |].
  rewrite HTP. nia.
Qed.

Lemma true_div_ceil_exact (hits per : Z) :
  0 < hits < 2 ^ 53 -> 0 < per < float_limit ->
  true_div_ceil hits per = Ok (ceil_div hits per).
Proof.
  intros Hhits Hper. unfold true_div_ceil.
  rewrite (float_of_int_small hits) by lia.
  destruct (Z.lt_ge_cases per (2 ^ 53)) as [Hsmall | Hlarge].
  - rewrite (float_of_int_small per) by lia. cbn [rbind].
    destruct (Z.eqb_spec per 0); [lia |].
    destruct (Z.eqb_spec hits 0); [lia |].
    destruct (Z.ltb_spec 0 hits); [| lia].
    destruct (Z.ltb_spec 0 per); [| lia].
    cbn [Bool.eqb]. rewrite !Z.abs_eq by lia.
    rewrite float_div_ceil_exact by lia. reflexivity.
  - destruct (float_of_int_large per ltac:(lia)) as (y & -> & Hy).
    cbn [rbind].
    destruct (Z.eqb_spec y 0); [lia |].
    destruct (Z.eqb_spec hits 0); [lia |].
    destruct (Z.ltb_spec 0 hits); [| lia].
    destruct (Z.ltb_spec 0 y); [| lia].
    cbn [Bool.eqb]. rewrite !Z.abs_eq by lia.
    rewrite float_div_ceil_below_one by lia.
    rewrite (ceil_div_unique hits per 1) by lia. reflexivity.
Qed.

Lemma true_div_ceil_overflow (hits per : Z) :
  float_limit <= per -> true_div_ceil hits per = Raise OverflowError.
Proof.
  intros Hper. unfold true_div_ceil.
  rewrite float_of_int_overflow by exact Hper. reflexivity.
Qed.

(** ** The page count and the pages *)

Lemma total_pages_bounds (total per orph : Z) (allow : bool) :
  0 < per -> 0 <= orph -> 0 <= total ->
  let pages := total_pages total per orph allow in
  0 <= pages /\
  (0 < pages ->
   (pages - 1) * per < Z.max 1 (total - orph) <= pages * per) /\
  (pages = 0 -> total = 0) /\
  (0 < total -> 0 < pages).
Proof.
  intros Hper Horph Htotal pages. subst pages. unfold total_pages.
  destruct ((total =? 0) && negb allow) eqn:Hzero.
  - apply andb_true_iff in Hzero as [Hz _]. apply Z.eqb_eq in Hz.
    repeat split; lia.
  - pose proof (ceil_div_is_ceiling (Z.max 1 (total - orph)) per Hper) as Hc.
    assert (0 < ceil_div (Z.max 1 (total - orph)) per) by nia.
    repeat split; lia.
Qed.

(** Only an allowed empty first page goes without a page to hold it. *)
Lemma total_pages_zero (total per orph : Z) (allow : bool) :
  0 < per -> total_pages total per orph allow <= 0 -> allow = false.
Proof.
  intros Hper. unfold total_pages.
  destruct ((total =? 0) && negb allow) eqn:Hzero.
  - intros _. apply andb_true_iff in Hzero as [_ Ha].
    destruct allow; [discriminate | reflexivity].
  - pose proof (ceil_div_is_ceiling (Z.max 1 (total - orph)) per Hper) as Hc.
    intros Hle. nia.
Qed.

(** [num_pages] once the objects are counted: in the range where the
    floating point quotient is exact it is [total_pages], memoized. *)
Lemma num_pages_counts (q : paginator) :
  0 < per_page q < float_limit -> 0 <= orphans q ->
  0 <= count q < 2 ^ 53 ->
  let pages :=
    total_pages (count q) (per_page q) (orphans q)
      (allow_empty_first_page q) in
  _num_pages q = None \/ _num_pages q = Some pages ->
  num_pages q = (Ok pages, set_num_pages q pages).
Proof.
  intros Hper Horph Hcount pages Hmemo. unfold num_pages.
  destruct Hmemo as [-> | Hsome].
  - subst pages. unfold total_pages.
    destruct ((count q =? 0) && negb (allow_empty_first_page q));
      [reflexivity |].
    rewrite true_div_ceil_exact by lia. reflexivity.
  - rewrite Hsome. destruct q; cbn in *. subst. reflexivity.
Qed.

(** Where a valid page ends: a page before the last one is not clamped,
    the last one ends with the collection. *)
Lemma page_top_cases (total per orph : Z) (allow : bool) (n : Z) :
  0 < per -> 0 <= orph -> 0 <= total ->
  let pages := total_pages total per orph allow in
  let bottom := (n - 1) * per in
  let top := if total <=? bottom + per + orph then total else bottom + per in
  1 <= n <= pages ->
  (n < pages /\ top = n * per /\ n * per + orph < total) \/
  (n = pages /\ top = total /\ total <= pages * per + orph).
Proof.
  intros Hper Horph Htotal pages bottom top Hn.
  pose proof (total_pages_bounds total per orph allow Hper Horph Htotal)
    as (_ & Hceil & _ & _).
  fold pages in Hceil. specialize (Hceil ltac:(lia)).
  subst top bottom.
  destruct (Z.eq_dec n pages) as [-> | Hne].
  - right.
    destruct (Z.leb_spec total ((pages - 1) * per + per + orph)); lia.
  - left.
    assert (Hlt : n * per < Z.max 1 (total - orph)) by nia.
    assert (Hbig : 1 <= total - orph).
    { destruct (Z.le_gt_cases 1 (total - orph)) as [Hok | Hsmall]; [exact Hok |].
      rewrite Z.max_l in Hlt, Hceil by lia. nia. }
    rewrite Z.max_r in Hlt by lia.
    destruct (Z.leb_spec total ((n - 1) * per + per + orph)); lia.
Qed.

(** [page(number)] for a number that is at least 1: the objects are
    counted, the page count is memoized, and the page is the slice of the
    collection when the number is within the page count, [EmptyPage]
    otherwise. *)
Lemma Paginator_page_spec (p : paginator) (v : value) (n : Z) :
  0 < per_page p < float_limit -> 0 <= orphans p ->
  Z.of_nat (length (object_list p)) < 2 ^ 53 ->
  memo_consistent p ->
  py_int v = Ok n -> 1 <= n ->
  let total := Z.of_nat (length (object_list p)) in
  let pages :=
    total_pages total (per_page p) (orphans p) (allow_empty_first_page p) in
  let bottom := (n - 1) * per_page p in
  let top :=
    if total <=? bottom + per_page p + orphans p then total
    else bottom + per_page p in
  Paginator_page p v =
    (if n <=? pages
     then Ok {| page_object_list :=
                  firstn (Z.to_nat (top - bottom))
                    (skipn (Z.to_nat bottom) (object_list p));
                number := n |}
     else Raise (EmptyPage "That page contains no results"),
     counted p)
  /\ (n <= pages -> 0 <= bottom <= top /\ top <= total).
Proof.
  intros Hper Horph Hsize [Hcount Hmemo] Hint Hn total pages bottom top.
  assert (Hbounds : n <= pages -> 0 <= bottom <= top /\ top <= total).
  { intros Hle.
    pose proof (total_pages_bounds total (per_page p) (orphans p)
                  (allow_empty_first_page p) ltac:(lia) Horph ltac:(lia))
      as (_ & Hceil & _ & _).
    fold pages in Hceil. specialize (Hceil ltac:(lia)).
    assert (Hbottom : 0 <= bottom <= total).
    { subst bottom. split; [nia |].
      assert (Hlt : (n - 1) * per_page p < Z.max 1 (total - orphans p))
        by nia.
      destruct (Z.eq_dec total 0) as [Hz | Hz]; [| lia].
      rewrite Hz in *. rewrite Z.max_l in Hlt by lia. nia. }
    subst top.
    destruct (Z.leb_spec total (bottom + per_page p + orphans p)); lia. }
  split; [| exact Hbounds].
  unfold Paginator_page.
  assert (Hget : exists p1,
            get_count p = (total, p1) /\
            set_count p1 total =
              {| object_list := object_list p; per_page := per_page p;
                 orphans := orphans p;
                 allow_empty_first_page := allow_empty_first_page p;
                 count := total; _num_pages := _num_pages p;
                 _count := Some total |}).
  { unfold get_count. destruct Hcount as [Hc | Hc]; rewrite Hc.
    - eexists. split; reflexivity.
    - exists p. split; [reflexivity |].
      unfold set_count. rewrite Hc. reflexivity. }
  destruct Hget as (p1 & -> & Hset). rewrite Hset. clear p1 Hset.
  set (q := {| object_list := object_list p; _count := Some total |}).
  unfold validate_number. rewrite Hint.
  destruct (Z.ltb_spec n 1) as [Hlt | _]; [lia |].
  rewrite (num_pages_counts q) by (cbn; try fold total; first [lia | exact Hmemo]).
  cbn [count per_page orphans allow_empty_first_page q].
  fold total. fold pages.
  assert (Hstate : set_num_pages q pages = counted p) by reflexivity.
  rewrite Hstate.
  destruct (Z.ltb_spec pages n) as [Hbeyond | Hwithin];
    destruct (Z.leb_spec n pages) as [Hle | Hgt]; try lia.
  - assert (Hexc : (n =? 1) && allow_empty_first_page p = false).
    { destruct (Z.eqb_spec n 1) as [-> | Hne]; [| reflexivity].
      rewrite (total_pages_zero total (per_page p) (orphans p)
                 (allow_empty_first_page p));
        [reflexivity | lia | fold pages; lia]. }
    unfold counted at 1. cbn [allow_empty_first_page]. rewrite Hexc.
    reflexivity.
  - specialize (Hbounds Hle).
    unfold get_slice.
    change (count (counted p)) with total.
    change (per_page (counted p)) with (per_page p).
    change (orphans (counted p)) with (orphans p).
    change (object_list (counted p)) with (object_list p).
    fold bottom.
    change (if total <=? bottom + per_page p + orphans p
            then total else bottom + per_page p) with top.
    rewrite py_slice_in_range
      by (clear -Hbounds; subst top bottom total; lia).
    reflexivity.
Qed.



(** C6, as the code has it.  On a paginator that is new or has served
    [page] calls only, with a [per_page > 0] that [float] accepts,
    [orphans >= 0] and fewer than [2 ^ 53] objects, [page(number)] for a
    number from 1 on counts the objects and memoizes [num_pages], which is
    0 when [count] is 0 and an empty first page is not allowed, and
    otherwise the ceiling of [max(1, count - orphans) / per_page]; for a
    number up to [num_pages] it returns the items of indices [bottom]
    (included) to [top] (excluded) where [bottom = (number-1)*per_page] and
    [top = bottom+per_page], replaced by [count] whenever
    [top + orphans >= count], and beyond [num_pages] it fails with
    [EmptyPage]; the paginator it leaves is again one the statement applies
    to.  With 23 items, 10 per page and 5 orphans, page 2 is the 13 items
    of indices 10 to 22 and [num_pages] is 2; an empty collection whose
    empty first page is not allowed has no page 1 and [num_pages] 0. *)
Theorem page_slice_and_num_pages (p : paginator) (v : value) (n : Z) :
  0 < per_page p < float_limit -> 0 <= orphans p ->
  Z.of_nat (length (object_list p)) < 2 ^ 53 ->
  memo_consistent p ->
  py_int v = Ok n -> 1 <= n ->
  let total := Z.of_nat (length (object_list p)) in
  let hits := Z.max 1 (total - orphans p) in
  let pages :=
    if (total =? 0) && negb (allow_empty_first_page p) then 0
    else ceil_div hits (per_page p) in
  let bottom := (n - 1) * per_page p in
  let top :=
    if total <=? bottom + per_page p + orphans p then total
    else bottom + per_page p in
  (exists p',
     Paginator_page p v =
       (if n <=? pages
        then Ok {| page_object_list :=
                     firstn (Z.to_nat (top - bottom))
                       (skipn (Z.to_nat bottom) (object_list p));
                   number := n |}
        else Raise (EmptyPage "That page contains no results"), p') /\
     count p' = total /\
     num_pages p' = (Ok pages, p') /\
     object_list p' = object_list p /\
     memo_consistent p')
  /\ ((total =? 0) && negb (allow_empty_first_page p) = false ->
      (pages - 1) * per_page p < hits <= pages * per_page p)
  /\ (forall p23,
        Paginator_init (py_range 23) (VInt 10) (VInt 5) true = Ok p23 ->
        exists pg p23',
          Paginator_page p23 (VInt 2) = (Ok pg, p23') /\
          page_object_list pg = firstn 13 (skipn 10 (py_range 23)) /\
          length (page_object_list pg) = 13%nat /\
          fst (num_pages p23') = Ok 2)
  /\ (forall p0,
        Paginator_init [] (VInt 10) (VInt 0) false = Ok p0 ->
        exists p0',
          Paginator_page p0 (VInt 1)
            = (Raise (EmptyPage "That page contains no results"), p0') /\
          fst (num_pages p0') = Ok 0).
Proof.
  intros Hper Horph Hsize Hmemo Hint Hn total hits pages bottom top.
  split; [| split; [| split]].
  - destruct (Paginator_page_spec p v n Hper Horph Hsize Hmemo Hint Hn)
      as [Hpage _].
    exists (counted p). split; [exact Hpage |].
    repeat split; try reflexivity; right; reflexivity.
  - intros Hz. subst pages. rewrite Hz.
    apply ceil_div_is_ceiling. lia.
  - intros p23 [= <-].
    eexists. eexists. split; [vm_compute; reflexivity |].
    repeat split; reflexivity.
  - intros p0 [= <-].
    eexists. split; [vm_compute; reflexivity |].
    vm_compute. reflexivity.
Qed.


(** ** PageNumberPagination *)

Lemma first_page_slice {A} (l : list A) :
  py_slice l 0
    (if Z.of_nat (length l) <=? 10 then Z.of_nat (length l) else 10)
  = firstn 10 l.
Proof.
  destruct (Z.leb_spec (Z.of_nat (length l)) 10) as [Hshort | Hlong].
  - rewrite py_slice_in_range by lia.
    rewrite Z.sub_0_r, Nat2Z.id.
    change (Z.to_nat 0) with 0%nat. rewrite skipn_O.
    rewrite !firstn_all2 by lia. reflexivity.
  - rewrite py_slice_in_range by lia. reflexivity.
Qed.

(** C2, as the code behaves.  For the request [?page=last] the sentinel is
    replaced by [paginator.num_pages] before the paginator has counted its
    objects ([count] is still the 0 of [__init__]), so the number is 1
    whatever the collection: the page returned is page 1, the first ten
    objects.  With 25 objects the last page is page 3, and the page
    returned is page 1 with the objects 0 to 9. *)
Theorem paginate_last_returns_first_page (objs : list value) :
  (exists self',
     paginate_object_list PageNumberPagination objs last_page_request
       = (Ok (Some (firstn 10 objs)), self') /\
     exists pg p,
       self_page self' = Some (pg, p) /\
       number pg = 1 /\
       count p = Z.of_nat (length objs) /\
       _num_pages p = Some 1)
  /\ (exists self' pg p,
        paginate_object_list PageNumberPagination (py_range 25)
          last_page_request
          = (Ok (Some (py_range 10)), self') /\
        self_page self' = Some (pg, p) /\
        number pg = 1 /\
        ceil_div (Z.max 1 (count p - orphans p)) (per_page p) = 3).
Proof.
  split.
  - unfold paginate_object_list, PageNumberPagination, last_page_request,
      Paginator_page, get_count, num_pages, validate_number.
    cbn -[Z.of_nat py_slice firstn true_div_ceil].
    change (true_div_ceil (Z.max 1 (0 - 0)) 10) with (Ok 1 : result Z).
    unfold get_slice, set_count.
    cbn -[Z.of_nat py_slice firstn true_div_ceil].
    change ((1 - 1) * 10 + 10 + 0) with 10.
    change ((1 - 1) * 10 + 10) with 10.
    change ((1 - 1) * 10) with 0.
    rewrite first_page_slice.
    eexists. split; [reflexivity |].
    eexists. eexists. cbn. repeat split; reflexivity.
  - eexists. eexists. eexists.
    split; [vm_compute; reflexivity |].
    repeat split; reflexivity.
Qed.

(** ** BooleanField *)

(** The coercion the class defines under the name [to_internal_value]:
    the five spellings of true give [True], the five of false give [False],
    a value outside both sets and a value that cannot be hashed fail with
    the [invalid] message. *)
Lemma BooleanField_to_internal_value_coerces (nm init : value)
  (req ro : bool) (dflt : value) (part : bool) :
  let f := Field_init BooleanField nm init req ro dflt part in
  Forall (fun v => BooleanField_to_internal_value f v = Ok (VBool true))
    [VStr "True"; VStr "true"; VStr "1"; VInt 1; VBool true]
  /\ Forall (fun v => BooleanField_to_internal_value f v = Ok (VBool false))
       [VStr "False"; VStr "false"; VStr "0"; VInt 0; VBool false]
  /\ (forall v, hashable v = false ->
        BooleanField_to_internal_value f v
          = Raise (ValidationError (VStr invalid_boolean_template))).
Proof.
  intros f. split; [| split].
  - repeat constructor.
  - repeat constructor.
  - intros v Hv. unfold BooleanField_to_internal_value, set_contains.
    rewrite Hv. reflexivity.
Qed.

(** C1, as the code behaves.  The validation pipeline calls [to_python],
    which [BooleanField] inherits from [Field] unchanged; the coercion is
    defined under the name [to_internal_value], which nothing calls.  So
    [to_python] returns its input as it is: ['True'] stays the text
    ['True'], ['False'] stays the text ['False'] (a truthy value), and an
    unhashable input is returned, not refused. *)
Theorem BooleanField_to_python_returns_input (nm init : value)
  (req ro : bool) (dflt : value) (part : bool) (st : store) :
  let f := Field_init BooleanField nm init req ro dflt part in
  (forall v, to_python f v = Ok v)
  /\ to_python f (VStr "True") <> Ok (VBool true)
  /\ to_python f (VStr "False") <> Ok (VBool false)
  /\ truthy (VStr "False") = true
  /\ run_validation st f (VStr "False") = Ok (VStr "False")
  /\ to_python f (VList []) = Ok (VList [])
  /\ BooleanField_to_internal_value f (VStr "True") = Ok (VBool true).
Proof.
  intros f.
  split; [reflexivity |].
  split; [discriminate |].
  split; [discriminate |].
  split; [reflexivity |].
  split; [| split; reflexivity].
  unfold run_validation. simpl. reflexivity.
Qed.

(** ** ListSerializer *)

Lemma ListSerializer_loop_appends (self : list_serializer)
  (items : list value) :
  forall ret errors,
    ListSerializer_loop self items ret errors
    = Ok ((ret ++ map (pending self) items)%list,
          (errors ++ map (fun _ => VDict []) items)%list).
Proof.
  induction items as [| item items IH]; intros ret errors; simpl.
  - rewrite !app_nil_r. reflexivity.
  - rewrite IH, <- !app_assoc. reflexivity.
Qed.

Lemma py_any_placeholders (items : list value) :
  py_any (map (fun _ => VDict []) items) = false.
Proof. induction items; simpl; auto. Qed.

(** C5, as the code behaves.  [ListSerializer.run_validation] is a plain
    function that calls the child's [async def run_validation] without
    awaiting it: each call only builds a coroutine object, no item is
    validated, every item gets the empty placeholder and no
    [ValidationError] is raised, whatever the items.  For the child with
    one required field [x] and the input [[{'x': 1}, {}]] the result is the
    two coroutine objects, not the error detail; and when the second one is
    awaited, the bound field [x] accepts the missing value as [None]. *)
Theorem ListSerializer_run_validation_raises_nothing
  (self : list_serializer) (items : list value) :
  ListSerializer_run_validation self (VList items)
    = Ok (map (pending self) items)
  /\ (forall detail,
        ListSerializer_run_validation self
          (VList [VDict [(VStr "x", VInt 1)]; VDict []])
        <> Raise (ValidationError detail))
  /\ (exists child_loc st,
        Serializer_init one_field_class VNone VNone false one_field_store
          = (Ok child_loc, st) /\
        ListSerializer_run_validation
          {| child := child_loc; allow_empty := true |}
          (VList [VDict [(VStr "x", VInt 1)]; VDict []])
        = Ok [Coroutine (mkCoroutine child_loc (VDict [(VStr "x", VInt 1)]));
              Coroutine (mkCoroutine child_loc (VDict []))] /\
        fst (await (mkCoroutine child_loc (VDict [])) st)
        = Ok (VDict [(VStr "x", VNone)])).
Proof.
  assert (Hall : forall l, ListSerializer_run_validation self (VList l)
                           = Ok (map (pending self) l)).
  { intros l. unfold ListSerializer_run_validation. simpl.
    rewrite ListSerializer_loop_appends. simpl.
    rewrite py_any_placeholders. reflexivity. }
  split; [apply Hall |].
  split; [intros detail; rewrite Hall; discriminate |].
  eexists. eexists.
  split; [vm_compute; reflexivity |].
  split; reflexivity.
Qed.

(** ** Serializer: construction *)

Lemma keeps_ret {A} self P (a : A) : keeps self P (mret a).
Proof. intros st r st' [= _ <-] Hst. exact Hst. Qed.

Lemma keeps_raise {A} self P (e : exn) : keeps self P (raise (A := A) e).
Proof. intros st r st' [= _ <-] Hst. exact Hst. Qed.

Lemma keeps_bind {A B} self P (m : M A) (k : A -> M B) :
  keeps self P m -> (forall a, keeps self P (k a)) -> keeps self P (m ≫= k).
Proof.
  intros Hm Hk st r st' Hrun Hst.
  unfold mbind, M_bind in Hrun.
  destruct (m st) as [[a | e] st1] eqn:Hmst.
  - eapply Hk; [exact Hrun |]. eapply Hm; eauto.
  - injection Hrun as _ <-. eapply Hm; eauto.
Qed.

Lemma keeps_reading {A} self P (r : store -> result A) :
  keeps self P (reading r).
Proof. intros st r' st' [= _ <-] Hst. exact Hst. Qed.

Lemma keeps_read_field self P fl : keeps self P (read_field fl).
Proof.
  intros st r st' Hrun Hst. unfold read_field in Hrun.
  destruct (field_objects st !! fl); injection Hrun as _ <-; exact Hst.
Qed.

Lemma keeps_read_serializer self P sl : keeps self P (read_serializer sl).
Proof.
  intros st r st' Hrun Hst. unfold read_serializer in Hrun.
  destruct (serializer_objects st !! sl); injection Hrun as _ <-; exact Hst.
Qed.

Lemma keeps_write_field self P fl f : keeps self P (write_field fl f).
Proof. intros st r st' [= _ <-] Hst. exact Hst. Qed.

Lemma keeps_update_serializer self (P : serializer -> Prop) sl upd :
  (forall s, P s -> P (upd s)) -> keeps self P (update_serializer sl upd).
Proof.
  intros Hupd st r st' Hrun [s [Hs HP]].
  unfold update_serializer, mbind, M_bind, read_serializer, write_serializer
    in Hrun.
  destruct (serializer_objects st !! sl) as [s' |] eqn:Hsl.
  - injection Hrun as _ <-. unfold holds_at; simpl.
    destruct (decide (sl = self)) as [-> | Hne].
    + exists (upd s'). split.
      * apply list_lookup_insert_eq. eapply lookup_lt_Some; eauto.
      * apply Hupd. congruence.
    + exists s. split; [| exact HP].
      rewrite list_lookup_insert_ne; auto.
  - injection Hrun as _ <-. exists s. auto.
Qed.

#[local] Hint Resolve keeps_ret keeps_raise keeps_reading keeps_read_field
  keeps_read_serializer keeps_write_field : keeps.

Lemma keeps_Field_bind self P fl p nm : keeps self P (Field_bind fl p nm).
Proof.
  unfold Field_bind.
  apply keeps_bind; [auto with keeps | intros f].
  apply keeps_bind; [auto with keeps | intros s].
  auto with keeps.
Qed.

Lemma keeps_build_field self P sl nm : keeps self P (build_field sl nm).
Proof.
  unfold build_field.
  apply keeps_bind; [auto with keeps | intros s].
  destruct (str_get _ nm); [| auto with keeps].
  apply keeps_bind; [apply keeps_Field_bind | auto with keeps].
Qed.

Lemma keeps_build_fields self P sl names : keeps self P (build_fields sl names).
Proof.
  induction names as [| nm names IH]; simpl; [auto with keeps |].
  apply keeps_bind; [apply keeps_build_field | intros fl].
  apply keeps_bind; [exact IH | auto with keeps].
Qed.

Lemma keeps_get_fields self P sl : keeps self P (get_fields sl).
Proof.
  unfold get_fields.
  apply keeps_bind; [auto with keeps | intros s].
  destruct (_meta (s_class s)); [| auto with keeps].
  apply keeps_bind; [apply keeps_build_fields | auto with keeps].
Qed.

Lemma keeps_install_validators self P sl vs :
  keeps self P (install_validators sl vs).
Proof.
  induction vs as [| [field_name validators'] vs IH]; simpl;
    [auto with keeps |].
  apply keeps_bind; [auto with keeps | intros s].
  destruct (find _ (writable_fields s)) as [[k fl] |]; [| auto with keeps].
  apply keeps_bind; [auto with keeps | intros f].
  apply keeps_bind; [auto with keeps | intros _; exact IH].
Qed.

(** After [Serializer.__init__] the new object has the [instance] and
    [initial_data] it was given, [validated_data = {}], no errors and no
    cached [_data]. *)
Lemma Serializer_init_constructed (cls : serializer_class)
  (inst init : value) (part : bool) (st st' : store) (self : loc) :
  Serializer_init cls inst init part st = (Ok self, st') ->
  self = length (serializer_objects st) /\
  holds_at self
    (fun s => constructed_as s cls inst (py_or init (VDict [])) part) st'.
Proof.
  unfold Serializer_init. intros Hrun.
  unfold mbind at 1, M_bind at 1 in Hrun.
  unfold new_serializer at 1 in Hrun.
  set (self0 := length (serializer_objects st)) in *.
  set (st0 := {| field_objects := field_objects st;
                 serializer_objects := _ |}) in Hrun.
  set (P := fun s => constructed_as s cls inst (py_or init (VDict [])) part).
  assert (H0 : holds_at self0 P st0).
  { eexists. split.
    - subst st0 self0. simpl. apply list_lookup_middle. reflexivity.
    - subst P. repeat split. }
  match type of Hrun with ?m st0 = _ => assert (Hk : keeps self0 P m) end.
  { apply keeps_bind; [apply keeps_get_fields | intros fs].
    apply keeps_bind;
      [apply keeps_update_serializer; intros s Hs; exact Hs | intros _].
    apply keeps_bind;
      [unfold get_writable_fields; apply keeps_bind; auto with keeps
      | intros ws].
    apply keeps_bind;
      [apply keeps_update_serializer; intros s Hs; exact Hs | intros _].
    apply keeps_bind; [auto with keeps | intros s].
    destruct (_meta (s_class s)); [| auto with keeps].
    apply keeps_bind; [apply keeps_install_validators | auto with keeps]. }
  assert (Hself : self = self0).
  { clear Hk H0.
    repeat (unfold mbind at 1, M_bind at 1 in Hrun;
            match type of Hrun with
            | (match ?m ?s with _ => _ end) = _ =>
                destruct (m s) as [[? | ?] ?]; [| discriminate]
            end).
    unfold mret, M_ret in Hrun.
    destruct (_meta _); [| discriminate].
    unfold mbind at 1, M_bind at 1 in Hrun.
    destruct (install_validators _ _ _) as [[? | ?] ?]; [| discriminate].
    injection Hrun as <- _. reflexivity. }
  split; [exact Hself |].
  rewrite Hself. eapply Hk; eauto.
Qed.

(** C3, as the code behaves.  [Field.__init__] sets [validated_data] to
    an empty dict, never to [None], so the guard of [data]
    ([initial_data and validated_data is None]) cannot fire: on a serializer
    built with a non-empty [initial_data] and no instance, reading [data]
    before [is_valid] raises nothing and returns the raw [initial_data].
    So it does for the schema with one field [x] built with [{'x': 1}]. *)
Theorem data_before_is_valid_returns_initial_data (cls : serializer_class)
  (init : value) (part : bool) (st st' : store) (self : loc) :
  truthy init = true ->
  Serializer_init cls VNone init part st = (Ok self, st') ->
  fst (data self st') = Ok init
  /\ fst (data self st') <> Raise AssertionError
  /\ (exists self1 st1,
        Serializer_init one_field_class VNone (VDict [(VStr "x", VInt 1)])
          false one_field_store = (Ok self1, st1) /\
        fst (data self1 st1) = Ok (VDict [(VStr "x", VInt 1)])).
Proof.
  intros Htruthy Hinit.
  assert (Hdata : fst (data self st') = Ok init).
  { apply Serializer_init_constructed in Hinit
      as [_ [s [Hs (_ & Hinst & Hid & Hvd & Herr & _ & Hd)]]].
    unfold py_or in Hid. rewrite Htruthy in Hid.
    unfold data.
    unfold mbind at 1, M_bind at 1, read_serializer at 1. rewrite Hs.
    rewrite Hid, Hvd, Htruthy, Hd, Hinst, Herr. simpl.
    unfold mbind at 1, M_bind at 1.
    unfold update_serializer, mbind at 1, M_bind at 1, read_serializer at 1.
    rewrite Hs. unfold write_serializer.
    unfold mbind, M_bind, read_serializer. simpl.
    rewrite list_lookup_insert_eq by (eapply lookup_lt_Some; eauto).
    simpl. rewrite Hid. reflexivity. }
  split; [exact Hdata |].
  split; [rewrite Hdata; discriminate |].
  eexists. eexists. split; [vm_compute; reflexivity | reflexivity].
Qed.

(** ** Serializer: the declared fields are shared *)

Lemma build_field_binds_declared_object (st : store) (self : loc)
  (s : serializer) (nm : string) (fl : loc) (f : field) :
  serializer_objects st !! self = Some s ->
  str_get (_declared_fields (s_class s)) nm = Some fl ->
  field_objects st !! fl = Some f ->
  build_field self nm st =
    (Ok (Some fl),
     {| field_objects :=
          <[fl := set_binding f self (VStr nm) (s_partial s)]>
            (field_objects st);
        serializer_objects := serializer_objects st |}).
Proof.
  intros Hs Hdecl Hf.
  unfold build_field, Field_bind, mbind, M_bind, read_serializer, read_field,
    write_field.
  rewrite Hs, Hdecl, Hf, Hs. reflexivity.
Qed.

(** C4, as the code behaves.  [build_field] binds and returns the [Field]
    object held by the class-level [_declared_fields]; nothing is copied.
    Two instances of one schema class therefore hold the same object, and
    building the second one rebinds the field of the first: after
    [a = S(instance={'x': 5}, partial=True)] the field [x] has parent [a]
    and is partial, and [a] validates [{}] to [{'x': 5}]; after
    [b = S()] the same field, seen through [a], has parent [b] and is not
    partial, and [a] validates [{}] to [{'x': None}]. *)
Theorem build_field_shares_declared_field :
  exists a st1 b st2 fa fb,
    Serializer_init one_field_class instance_a VNone true one_field_store
      = (Ok a, st1) /\
    Serializer_init one_field_class VNone VNone false st1 = (Ok b, st2) /\
    a <> b /\
    (fields <$> serializer_objects st2 !! a) = Some [("x", Some 0%nat)] /\
    (fields <$> serializer_objects st2 !! b) = Some [("x", Some 0%nat)] /\
    field_objects st1 !! 0%nat = Some fa /\
    field_objects st2 !! 0%nat = Some fb /\
    parent fa = Some a /\ partial fa = true /\
    parent fb = Some b /\ partial fb = false /\
    fst (Serializer_run_validation a (VDict []) st1)
      = Ok (VDict [(VStr "x", VInt 5)]) /\
    fst (Serializer_run_validation a (VDict []) st2)
      = Ok (VDict [(VStr "x", VNone)]).
Proof.
  do 6 eexists.
  split; [vm_compute; reflexivity |].
  split; [vm_compute; reflexivity |].
  split; [discriminate |].
  repeat split; reflexivity.
Qed.

(** ** Serializer: to_representation *)

Lemma dict_set_new_key {A} (d : list (value * A)) (k : value) (v : A) :
  (forall k' v', In (k', v') d -> py_eq k' k = false) ->
  dict_set d k v = (d ++ [(k, v)])%list.
Proof.
  induction d as [| [k' v'] d IH]; intros Hnew; simpl; [reflexivity |].
  rewrite (Hnew k' v') by (left; reflexivity).
  rewrite IH; [reflexivity |].
  intros k'' v'' Hin. apply (Hnew k'' v''). right. exact Hin.
Qed.

Lemma emits_head_inv (st : store) (inst : value) (nm : string) (fl : loc)
  (f : field) (attribute : value) (kv : value * value) :
  field_objects st !! fl = Some f ->
  get_attribute st f inst = Ok attribute ->
  emits st inst (nm, Some fl) kv ->
  (truthy attribute = false /\ kv = (name f, attribute)) \/
  (truthy attribute = true /\
   exists shown, to_representation f attribute = Ok shown /\
                 kv = (name f, shown)).
Proof.
  intros Hf Hattr Hemits.
  inversion Hemits as [nm' fl' f' a' Hf' Ha' Ht' | nm' fl' f' a' shown Hf' Ha' Ht' Hshown];
    subst; rewrite Hf in Hf'; injection Hf' as <-;
    rewrite Hattr in Ha'; injection Ha' as <-.
  - left. auto.
  - right. eauto.
Qed.

Lemma to_representation_loop_emits (st : store) (inst : value) :
  forall (items : list (string * option loc)) (ret out : list (value * value)),
    (forall nm ofl, In (nm, ofl) items ->
       exists fl f, ofl = Some fl /\ field_objects st !! fl = Some f /\
                    name f = VStr nm) ->
    NoDup (map fst items) ->
    (forall k v, In (k, v) ret ->
       forall nm, In nm (map fst items) -> py_eq k (VStr nm) = false) ->
    (to_representation_loop st items inst ret = Ok out <->
     exists out', out = (ret ++ out')%list /\
                  Forall2 (emits st inst) items out').
Proof.
  induction items as [| [nm ofl] rest IH]; intros ret out Hbound Hnodup Hret.
  - simpl. split.
    + intros [= <-]. exists []. rewrite app_nil_r. split; [reflexivity | constructor].
    + intros [out' [-> Hall]]. inversion Hall. rewrite app_nil_r. reflexivity.
  - destruct (Hbound nm ofl) as (fl & f & -> & Hf & Hname); [left; reflexivity |].
    simpl in Hnodup. apply NoDup_cons in Hnodup as [Hfresh Hnodup'].
    rewrite list_elem_of_In in Hfresh.
    assert (Hstep : forall shown,
      to_representation_loop st rest inst (dict_set ret (name f) shown)
        = Ok out <->
      exists out'', out = (ret ++ (name f, shown) :: out'')%list /\
                    Forall2 (emits st inst) rest out'').
    { intros shown. rewrite dict_set_new_key.
      - rewrite IH.
        + split; intros [out'' [-> Hall]]; exists out''; split; auto;
            rewrite <- app_assoc; reflexivity.
        + intros nm' ofl' Hin. apply Hbound. right. exact Hin.
        + exact Hnodup'.
        + intros k v Hin nm' Hnm'. apply in_app_or in Hin as [Hin | Hin].
          * eapply Hret; [exact Hin | right; exact Hnm'].
          * destruct Hin as [[= <- <-] | []]. rewrite Hname. simpl.
            apply String.eqb_neq. intros ->. contradiction.
      - intros k' v' Hin. rewrite Hname.
        eapply Hret; [exact Hin | left; reflexivity]. }
    simpl. rewrite Hf.
    destruct (get_attribute st f inst) as [attribute | e] eqn:Hattr; simpl.
    + destruct (truthy attribute) eqn:Htruthy; simpl.
      * destruct (to_representation f attribute) as [shown | e] eqn:Hshown;
          simpl.
        -- rewrite Hstep. split.
           ++ intros [out'' [-> Hall]]. eexists. split; [reflexivity |].
              constructor; [| exact Hall].
              eapply emits_rendered; eauto.
           ++ intros [out' [-> Hall]].
              inversion Hall as [| ? kv ? out'' Hhead Htail]; subst.
              destruct (emits_head_inv _ _ _ _ _ _ _ Hf Hattr Hhead)
                as [[Hfalse _] | [_ [shown' [Hs' ->]]]]; [congruence |].
              rewrite Hshown in Hs'. injection Hs' as <-. eauto.
        -- split; [discriminate |].
           intros [out' [-> Hall]].
           inversion Hall as [| ? kv ? out'' Hhead Htail]; subst.
           destruct (emits_head_inv _ _ _ _ _ _ _ Hf Hattr Hhead)
             as [[Hfalse _] | [_ [shown' [Hs' _]]]]; congruence.
      * rewrite Hstep. split.
        -- intros [out'' [-> Hall]]. eexists. split; [reflexivity |].
           constructor; [| exact Hall].
           eapply emits_falsy; eauto.
        -- intros [out' [-> Hall]].
           inversion Hall as [| ? kv ? out'' Hhead Htail]; subst.
           destruct (emits_head_inv _ _ _ _ _ _ _ Hf Hattr Hhead)
             as [[_ ->] | [Htrue _]]; [eauto | congruence].
    + split; [discriminate |].
      intros [out' [-> Hall]].
      inversion Hall as [| ? kv ? out'' Hhead Htail]; subst.
      inversion Hhead; subst; congruence.
Qed.

(** C8. For a serializer whose fields are bound (each entry of [fields]
    is a [Field] object named by its key), [to_representation] returns the
    ordered mapping made field by field from the attribute fetched from the
    instance: a falsy attribute ([0], [''], [None], [False], ...) is emitted
    as that very value and the field's render step plays no part, a truthy
    attribute is emitted as the field's render step returns it; it returns
    no mapping when a fetch or a render step raises.  With a date-time, an
    integer, a text and a boolean field, the attributes [None], [0], ['']
    and [False] come out unchanged (rendering [None] as a date-time would
    raise), while truthy attributes come out rendered. *)
Theorem to_representation_emits_falsy_unrendered (st : store) (self : loc)
  (s : serializer) (inst : value) :
  serializer_objects st !! self = Some s ->
  NoDup (map fst (fields s)) ->
  (forall nm ofl, In (nm, ofl) (fields s) ->
     exists fl f, ofl = Some fl /\ field_objects st !! fl = Some f /\
                  name f = VStr nm) ->
  (forall out,
     fst (Serializer_to_representation self inst st) = Ok (VDict out) <->
     Forall2 (emits st inst) (fields s) out)
  /\ (exists self4 st4 when_field,
        Serializer_init four_field_class VNone VNone false four_field_store
          = (Ok self4, st4) /\
        fst (Serializer_to_representation self4 falsy_instance st4)
          = Ok falsy_instance /\
        field_objects st4 !! 0%nat = Some when_field /\
        to_representation when_field VNone = Raise AttributeError /\
        fst (Serializer_to_representation self4 truthy_instance st4)
          = Ok (VDict [(VStr "when", VStr "2020-01-02T03:04:05");
                       (VStr "n", VInt 1); (VStr "s", VStr "7");
                       (VStr "b", VBool false)])).
Proof.
  intros Hs Hnodup Hbound. split.
  - intros out.
    unfold Serializer_to_representation, mbind, M_bind, read_serializer,
      reading.
    rewrite Hs. simpl.
    pose proof (to_representation_loop_emits st inst (fields s) [] out
                  Hbound Hnodup) as Hloop.
    split.
    + intros Hrun.
      destruct (to_representation_loop st (fields s) inst []) as [ret | e];
        simpl in Hrun; [| discriminate].
      injection Hrun as ->.
      destruct Hloop as [Hloop _]; [intros k v [] |].
      destruct (Hloop eq_refl) as [out' [-> Hall]]. exact Hall.
    + intros Hall.
      destruct Hloop as [_ Hloop]; [intros k v [] |].
      rewrite Hloop by (exists out; auto). reflexivity.
  - do 3 eexists.
    split; [vm_compute; reflexivity |].
    repeat split; reflexivity.
Qed.
(** * Further properties *)

(** ** Pages of a paginator *)

Lemma slice_length {A} (l : list A) (bottom top : Z) :
  0 <= bottom <= top -> top <= Z.of_nat (length l) ->
  Z.of_nat (length (firstn (Z.to_nat (top - bottom))
                      (skipn (Z.to_nat bottom) l))) = top - bottom.
Proof.
  intros Hb Ht. rewrite length_take, length_drop. lia.
Qed.

(** What is known of a valid page number, gathered once. *)
Lemma valid_page_facts (p : paginator) (v : value) (n : Z) :
  py_int v = Ok n ->
  0 < per_page p < float_limit -> 0 <= orphans p ->
  Z.of_nat (length (object_list p)) < 2 ^ 53 ->
  memo_consistent p ->
  let total := Z.of_nat (length (object_list p)) in
  let pages :=
    total_pages total (per_page p) (orphans p) (allow_empty_first_page p) in
  1 <= n <= pages ->
  exists top,
    Paginator_page p v =
      (Ok {| page_object_list :=
               firstn (Z.to_nat (top - (n - 1) * per_page p))
                 (skipn (Z.to_nat ((n - 1) * per_page p)) (object_list p));
             number := n |}, counted p) /\
    0 <= (n - 1) * per_page p <= top /\ top <= total /\
    (pages - 1) * per_page p < Z.max 1 (total - orphans p)
      <= pages * per_page p /\
    ((n < pages /\ top = n * per_page p /\
      n * per_page p + orphans p < total) \/
     (n = pages /\ top = total /\
      total <= pages * per_page p + orphans p)).
Proof.
  intros Hint Hper Horph Hsize Hmemo total pages Hn.
  destruct (Paginator_page_spec p v n Hper Horph Hsize Hmemo Hint
              ltac:(lia)) as (Hpage & Hbounds).
  fold total in Hpage, Hbounds. fold pages in Hpage, Hbounds.
  destruct (Z.leb_spec n pages) as [Hle | Hgt]; [| lia].
  specialize (Hbounds Hle).
  pose proof (total_pages_bounds total (per_page p) (orphans p)
                (allow_empty_first_page p) ltac:(lia) Horph ltac:(lia))
    as (_ & Hceil & _ & _).
  specialize (Hceil ltac:(fold pages; lia)).
  pose proof (page_top_cases total (per_page p) (orphans p)
                (allow_empty_first_page p) n ltac:(lia) Horph ltac:(lia) Hn)
    as Hcases.
  eexists. split; [exact Hpage |].
  split; [tauto |]. split; [tauto |].
  split; [exact Hceil |]. exact Hcases.
Qed.

(** A paginator that has served a page serves the next call as a new one
    would. *)
Lemma Paginator_page_again (p : paginator) (v : value) (n : Z) :
  0 < per_page p < float_limit -> 0 <= orphans p ->
  Z.of_nat (length (object_list p)) < 2 ^ 53 ->
  memo_consistent p ->
  py_int v = Ok n -> 1 <= n ->
  Paginator_page (counted p) v = Paginator_page p v.
Proof.
  intros Hper Horph Hsize Hmemo Hint Hn.
  rewrite (proj1 (Paginator_page_spec p v n Hper Horph Hsize Hmemo Hint Hn)).
  rewrite (proj1 (Paginator_page_spec (counted p) v n Hper Horph Hsize
                    ltac:(split; right; reflexivity) Hint Hn)).
  reflexivity.
Qed.

(** X1. On a paginator that is new or has served [page] calls only, with
    a [per_page > 0] that [float] accepts, [orphans >= 0] and fewer than
    [2 ^ 53] objects, every page before the last holds exactly [per_page]
    objects, and the last page holds the rest: at most
    [per_page + orphans] objects, and more than [orphans] of them as soon
    as the collection has more than [orphans] objects. *)
Theorem page_sizes (p : paginator) (n : Z) :
  0 < per_page p < float_limit -> 0 <= orphans p ->
  Z.of_nat (length (object_list p)) < 2 ^ 53 ->
  memo_consistent p ->
  let total := Z.of_nat (length (object_list p)) in
  let pages :=
    total_pages total (per_page p) (orphans p) (allow_empty_first_page p) in
  1 <= n <= pages ->
  exists pg,
    Paginator_page p (VInt n) = (Ok pg, counted p) /\
    number pg = n /\
    (n < pages -> Page_len pg = per_page p) /\
    (n = pages ->
     Page_len pg = total - (pages - 1) * per_page p /\
     Page_len pg <= per_page p + orphans p /\
     (orphans p < total -> orphans p < Page_len pg)).
Proof.
  intros Hper Horph Hsize Hmemo total pages Hn.
  destruct (valid_page_facts p (VInt n) n eq_refl Hper Horph Hsize Hmemo Hn)
    as (top & Hpage & Hbt & Htop & Hceil & Hcases).
  fold total in Htop, Hceil, Hcases. fold pages in Hceil, Hcases.
  eexists. split; [exact Hpage |]. split; [reflexivity |].
  unfold Page_len. cbn [page_object_list].
  rewrite slice_length by (try fold total; lia).
  destruct Hcases as [(Hlt & -> & _) | (-> & -> & Hle)].
  - split; [intros _; lia | intros ->; lia].
  - split; [lia |]. intros _.
    split; [lia |]. split; [lia |]. intros Hmore.
    rewrite Z.max_r in Hceil by lia. lia.
Qed.

(** X2. The 1-based indices a page reports are those of its objects: on
    a paginator as in X1 over a non-empty collection, the page returned by
    [page(n)] starts at [start_index() = (n-1)*per_page + 1], ends at
    [end_index()], which is [count] on the last page and [n*per_page]
    before, and holds exactly [end_index - start_index + 1] objects, the
    objects of the collection from position [start_index] to position
    [end_index]. *)
Theorem page_indices_match_contents (p : paginator) (n : Z) :
  0 < per_page p < float_limit -> 0 <= orphans p ->
  Z.of_nat (length (object_list p)) < 2 ^ 53 ->
  memo_consistent p ->
  let total := Z.of_nat (length (object_list p)) in
  let pages :=
    total_pages total (per_page p) (orphans p) (allow_empty_first_page p) in
  1 <= n <= pages -> 0 < total ->
  exists pg first last,
    Paginator_page p (VInt n) = (Ok pg, counted p) /\
    start_index pg (counted p) = first /\
    end_index pg (counted p) = (Ok last, counted p) /\
    first = (n - 1) * per_page p + 1 /\
    last = (if n =? pages then total else n * per_page p) /\
    1 <= first <= last /\ last <= total /\
    Page_len pg = last - first + 1 /\
    page_object_list pg =
      firstn (Z.to_nat (last - first + 1))
        (skipn (Z.to_nat (first - 1)) (object_list p)).
Proof.
  intros Hper Horph Hsize Hmemo total pages Hn Hpos.
  destruct (valid_page_facts p (VInt n) n eq_refl Hper Horph Hsize Hmemo Hn)
    as (top & Hpage & Hbt & Htop & Hceil & Hcases).
  fold total in Htop, Hceil, Hcases. fold pages in Hceil, Hcases.
  eexists. exists ((n - 1) * per_page p + 1), top.
  split; [exact Hpage |].
  split.
  { unfold start_index, counted. cbn [count per_page number]. fold total.
    destruct (Z.eqb_spec total 0); [lia | ring]. }
  assert (Hlast : top = if n =? pages then total else n * per_page p).
  { destruct (Z.eqb_spec n pages); lia. }
  split.
  { unfold end_index, num_pages, counted.
    cbn [_num_pages number count per_page]. fold total. fold pages.
    rewrite Hlast. destruct (n =? pages); reflexivity. }
  split; [reflexivity |]. split; [exact Hlast |].
  assert (Hnonempty : (n - 1) * per_page p < top).
  { destruct Hcases as [(Hlt & -> & _) | (-> & -> & Hle)]; lia. }
  split; [nia |]. split; [lia |].
  split.
  { unfold Page_len. cbn [page_object_list].
    rewrite slice_length by (try fold total; lia). lia. }
  cbn [page_object_list]. f_equal; [f_equal; lia | f_equal; f_equal; lia].
Qed.

Lemma pages_before_last (p : paginator) :
  0 < per_page p < float_limit -> 0 <= orphans p ->
  Z.of_nat (length (object_list p)) < 2 ^ 53 ->
  memo_consistent p ->
  forall j : nat,
    Z.of_nat j <
      total_pages (Z.of_nat (length (object_list p))) (per_page p)
        (orphans p) (allow_empty_first_page p) ->
    exists pgs,
      Forall2
        (fun n pg =>
           Paginator_page p (VInt (Z.of_nat n)) = (Ok pg, counted p) /\
           number pg = Z.of_nat n)
        (seq 1 j) pgs /\
      concat (map page_object_list pgs)
        = firstn (j * Z.to_nat (per_page p)) (object_list p).
Proof.
  intros Hper Horph Hsize Hmemo.
  induction j as [| j IH]; intros Hj.
  - exists []. split; [constructor | reflexivity].
  - destruct IH as (pgs & Hall & Hcat); [lia |].
    destruct (valid_page_facts p (VInt (Z.of_nat (S j))) (Z.of_nat (S j))
                eq_refl Hper Horph Hsize Hmemo ltac:(lia))
      as (top & Hpage & _ & _ & _ & [(_ & -> & _) | (Hlast & _)]); [| lia].
    eexists (pgs ++ [_])%list. split.
    + rewrite seq_S. apply Forall2_app; [exact Hall |].
      constructor; [| constructor].
      split; [exact Hpage | reflexivity].
    + rewrite map_app, concat_app, Hcat. cbn [map concat page_object_list].
      rewrite app_nil_r.
      replace (Z.to_nat (Z.of_nat (S j) * per_page p
                         - (Z.of_nat (S j) - 1) * per_page p))
        with (Z.to_nat (per_page p)) by (f_equal; lia).
      replace (Z.to_nat ((Z.of_nat (S j) - 1) * per_page p))
        with (j * Z.to_nat (per_page p))%nat
        by (replace (Z.of_nat (S j) - 1) with (Z.of_nat j) by lia;
            rewrite Z2Nat.inj_mul, Nat2Z.id by lia; reflexivity).
      rewrite take_take_drop. f_equal. lia.
Qed.

(** All the pages, each asked of the paginator as it is found. *)
Lemma all_pages (p : paginator) :
  0 < per_page p < float_limit -> 0 <= orphans p ->
  Z.of_nat (length (object_list p)) < 2 ^ 53 ->
  memo_consistent p ->
  let pages :=
    total_pages (Z.of_nat (length (object_list p))) (per_page p)
      (orphans p) (allow_empty_first_page p) in
  exists pgs,
    Forall2
      (fun n pg =>
         Paginator_page p (VInt (Z.of_nat n)) = (Ok pg, counted p) /\
         number pg = Z.of_nat n)
      (seq 1 (Z.to_nat pages)) pgs /\
    concat (map page_object_list pgs) = object_list p.
Proof.
  intros Hper Horph Hsize Hmemo pages.
  pose proof (total_pages_bounds (Z.of_nat (length (object_list p)))
                (per_page p) (orphans p) (allow_empty_first_page p)
                ltac:(lia) Horph ltac:(lia))
    as (Hnonneg & _ & Hzero & _).
  fold pages in Hnonneg, Hzero.
  destruct (Z.to_nat pages) as [| j] eqn:Hm.
  - exists []. split; [constructor |].
    assert (Hlen : length (object_list p) = 0%nat) by lia.
    destruct (object_list p); [reflexivity | discriminate].
  - destruct (pages_before_last p Hper Horph Hsize Hmemo j)
      as (pgs & Hall & Hcat); [fold pages; lia |].
    destruct (valid_page_facts p (VInt (Z.of_nat (S j))) (Z.of_nat (S j))
                eq_refl Hper Horph Hsize Hmemo ltac:(fold pages; lia))
      as (top & Hpage & Hbt & _ & _ & [(Hlt & _) | (_ & -> & _)]);
      [fold pages in Hlt; lia |].
    eexists (pgs ++ [_])%list. split.
    + rewrite seq_S. apply Forall2_app; [exact Hall |].
      constructor; [| constructor].
      split; [exact Hpage | reflexivity].
    + rewrite map_app, concat_app, Hcat. cbn [map concat page_object_list].
      rewrite app_nil_r.
      replace (Z.to_nat ((Z.of_nat (S j) - 1) * per_page p))
        with (j * Z.to_nat (per_page p))%nat
        by (replace (Z.of_nat (S j) - 1) with (Z.of_nat j) by lia;
            rewrite Z2Nat.inj_mul, Nat2Z.id by lia; reflexivity).
      rewrite (take_ge (drop _ _)) by (rewrite length_drop; lia).
      apply take_drop.
Qed.

(** Successive calls on one paginator give what each call gives on the
    paginator as it was first found. *)
Lemma pages_in_turn_all (p : paginator) :
  0 < per_page p < float_limit -> 0 <= orphans p ->
  Z.of_nat (length (object_list p)) < 2 ^ 53 ->
  memo_consistent p ->
  forall (ns : list nat) (pgs : list page),
    Forall2
      (fun n pg =>
         Paginator_page p (VInt (Z.of_nat n)) = (Ok pg, counted p) /\
         number pg = Z.of_nat n)
      ns pgs ->
    Forall (fun n => (1 <= n)%nat) ns ->
    forall q, q = p \/ q = counted p ->
      pages_in_turn q (map Z.of_nat ns)
        = (Ok pgs, match ns with [] => q | _ => counted p end)
      /\ map number pgs = map Z.of_nat ns.
Proof.
  intros Hper Horph Hsize Hmemo ns pgs Hall.
  induction Hall as [| n pg ns pgs [Hpage Hnum] Hall IH]; intros Hpos q Hq.
  - split; reflexivity.
  - inversion Hpos as [| ? ? Hn Hrest]; subst.
    assert (Hcall : Paginator_page q (VInt (Z.of_nat n)) = (Ok pg, counted p)).
    { destruct Hq as [-> | ->]; [exact Hpage |].
      rewrite (Paginator_page_again p (VInt (Z.of_nat n)) (Z.of_nat n))
        by (first [assumption | reflexivity | lia]).
      exact Hpage. }
    destruct (IH Hrest (counted p) (or_intror eq_refl)) as [Hturn Hnums].
    cbn [pages_in_turn map]. rewrite Hcall, Hturn.
    split; [| rewrite Hnum, Hnums; reflexivity].
    destruct ns; reflexivity.
Qed.

(** X3. The pages of a paginator split the collection: on a paginator as
    in X1, asking one and the same paginator for [page(1)], ...,
    [page(num_pages)] in turn succeeds at every call, the pages come with
    the numbers asked, and their objects put end to end are the collection
    itself, each object once and in order. *)
Theorem pages_partition_collection (p : paginator) :
  0 < per_page p < float_limit -> 0 <= orphans p ->
  Z.of_nat (length (object_list p)) < 2 ^ 53 ->
  memo_consistent p ->
  let pages :=
    total_pages (Z.of_nat (length (object_list p))) (per_page p)
      (orphans p) (allow_empty_first_page p) in
  exists pgs p',
    pages_in_turn p (map Z.of_nat (seq 1 (Z.to_nat pages))) = (Ok pgs, p') /\
    map number pgs = map Z.of_nat (seq 1 (Z.to_nat pages)) /\
    concat (map page_object_list pgs) = object_list p.
Proof.
  intros Hper Horph Hsize Hmemo pages.
  destruct (all_pages p Hper Horph Hsize Hmemo) as (pgs & Hall & Hcat).
  fold pages in Hall.
  destruct (pages_in_turn_all p Hper Horph Hsize Hmemo _ _ Hall) with (q := p)
    as [Hturn Hnums].
  - apply Forall_forall. intros n Hin.
    apply list_elem_of_In, in_seq in Hin. lia.
  - left. reflexivity.
  - exists pgs. eexists. split; [exact Hturn |].
    split; [exact Hnums | exact Hcat].
Qed.

(** X4. Navigation agrees with validation: on a paginator as in X1, for
    the page returned by [page(n)], [has_next()] is true exactly when [next_page_number()]
    returns [n + 1] and false exactly when it fails with [EmptyPage];
    [has_previous()] is true exactly when [previous_page_number()] returns
    [n - 1], and on page 1 the latter fails with [EmptyPage];
    [has_other_pages()] is false exactly when there is a single page. *)
Theorem page_navigation (p : paginator) (n : Z) :
  0 < per_page p < float_limit -> 0 <= orphans p ->
  Z.of_nat (length (object_list p)) < 2 ^ 53 ->
  memo_consistent p ->
  let pages :=
    total_pages (Z.of_nat (length (object_list p))) (per_page p)
      (orphans p) (allow_empty_first_page p) in
  1 <= n <= pages ->
  exists pg,
    Paginator_page p (VInt n) = (Ok pg, counted p) /\
    has_next pg (counted p) = (Ok (n <? pages), counted p) /\
    next_page_number pg (counted p) =
      (if n <? pages then Ok (n + 1)
       else Raise (EmptyPage "That page contains no results"),
       counted p) /\
    has_previous pg = (1 <? n) /\
    previous_page_number pg (counted p) =
      (if 1 <? n then Ok (n - 1)
       else Raise (EmptyPage "That page number is less than 1"),
       counted p) /\
    has_other_pages pg (counted p) = (Ok (negb (pages =? 1)), counted p).
Proof.
  intros Hper Horph Hsize Hmemo pages Hn.
  destruct (valid_page_facts p (VInt n) n eq_refl Hper Horph Hsize Hmemo Hn)
    as (top & Hpage & _).
  eexists. split; [exact Hpage |].
  unfold has_next, next_page_number, previous_page_number, has_other_pages,
    has_previous, has_next, validate_number, num_pages, counted.
  cbn [number _num_pages py_int allow_empty_first_page]. fold pages.
  repeat split.
  - destruct (Z.ltb_spec (n + 1) 1); [lia |].
    destruct (Z.ltb_spec pages (n + 1)); destruct (Z.ltb_spec n pages);
      try lia; [| reflexivity].
    destruct (Z.eqb_spec (n + 1) 1); [lia | reflexivity].
  - destruct (Z.ltb_spec (n - 1) 1); destruct (Z.ltb_spec 1 n); try lia;
      [reflexivity |].
    destruct (Z.ltb_spec pages (n - 1)); [lia | reflexivity].
  - destruct (Z.ltb_spec 1 n); destruct (Z.eqb_spec pages 1);
      destruct (Z.ltb_spec n pages); simpl;
      try reflexivity; exfalso; lia.
Qed.

Lemma float_of_int_raises (n : Z) (e : exn) :
  float_of_int n = Raise e -> e = OverflowError.
Proof.
  unfold float_of_int.
  destruct (Z.abs n <? 2 ^ 53); [discriminate |].
  destruct (2 ^ 1024 <=? _); [intros [= <-]; reflexivity | discriminate].
Qed.

Lemma true_div_ceil_raises (hits per : Z) (e : exn) :
  true_div_ceil hits per = Raise e ->
  e = ZeroDivisionError \/ e = OverflowError.
Proof.
  unfold true_div_ceil.
  destruct (float_of_int per) as [y | e1] eqn:Hy; simpl.
  2: { intros [= <-]. right. eapply float_of_int_raises, Hy. }
  destruct (float_of_int hits) as [x | e1] eqn:Hx; simpl.
  2: { intros [= <-]. right. eapply float_of_int_raises, Hx. }
  destruct (y =? 0); [intros [= <-]; left; reflexivity |].
  destruct (x =? 0); [discriminate |].
  destruct (Bool.eqb _ _); discriminate.
Qed.

Lemma num_pages_raises (p : paginator) (e : exn) :
  fst (num_pages p) = Raise e ->
  e = ZeroDivisionError \/ e = OverflowError.
Proof.
  unfold num_pages.
  destruct (_num_pages p); [discriminate |].
  destruct ((count p =? 0) && negb (allow_empty_first_page p));
    [discriminate |].
  destruct (true_div_ceil _ _) as [n | e1] eqn:Hdiv; simpl; [discriminate |].
  intros [= <-]. eapply true_div_ceil_raises, Hdiv.
Qed.

Lemma Paginator_page_raises (p : paginator) (v : value) (e : exn) :
  fst (Paginator_page p v) = Raise e ->
  (exists msg, e = PageNotAnInteger msg) \/ (exists msg, e = EmptyPage msg)
  \/ e = ZeroDivisionError \/ e = OverflowError.
Proof.
  unfold Paginator_page.
  destruct (get_count p) as [c p1].
  unfold validate_number.
  destruct (py_int v) as [n | e'] eqn:Hint.
  - destruct (n <? 1); [intros [= <-]; eauto |].
    destruct (num_pages (set_count p1 c)) as [[pages | e'] p2] eqn:Hnp.
    + destruct (pages <? n); [| discriminate].
      destruct ((n =? 1) && allow_empty_first_page p2);
        [discriminate | intros [= <-]; eauto].
    + intros [= <-]. right. right.
      apply (num_pages_raises (set_count p1 c)). rewrite Hnp. reflexivity.
  - destruct (py_int_raises _ _ Hint) as [-> | ->]; intros [= <-]; eauto.
Qed.

(** [_positive_int] on the text of a query parameter. *)
Lemma positive_int_of_text (s : string) (strict : bool) (cutoff : option Z) :
  match _positive_int (VStr s) strict cutoff with
  | Ok n =>
      exists k, int_of_str s = Some k /\ 0 <= k /\
                (strict = true -> 1 <= k) /\
                n = match cutoff with
                    | Some c => if c =? 0 then k else Z.min k c
                    | None => k
                    end
  | Raise e => e = ValueError
  end.
Proof.
  unfold _positive_int, py_int.
  destruct (int_of_str s) as [k |]; simpl; [| reflexivity].
  destruct (Z.ltb_spec k 0); simpl; [reflexivity |].
  destruct (Z.eqb_spec k 0); destruct strict; simpl; try reflexivity;
    destruct cutoff as [c |]; try destruct (c =? 0);
    exists k; repeat split; try lia; discriminate.
Qed.

(** ** The pagination strategy *)

Lemma get_page_size_returns (self : pagination) (req : request) :
  exists v, get_page_size self req = Ok v.
Proof.
  unfold get_page_size.
  destruct (page_size_query_param self) as [param |]; [| eauto].
  destruct (String.eqb param ""); [eauto |].
  destruct (str_get (query_params req) param) as [s |]; [| eauto].
  pose proof (positive_int_of_text s true (max_page_size self)) as Hpos.
  destruct (_positive_int (VStr s) true (max_page_size self)) as [n | e];
    [eauto | subst e; eauto].
Qed.

(** X5. The page size of a request never fails and is either the
    configured default or the override read from the query: the override is
    used exactly when the parameter is enabled, present and parses to a
    strictly positive integer, and it is then clamped to a non-zero
    [max_page_size]; a missing, unparsable, zero or negative parameter
    silently gives the default. *)
Theorem get_page_size_override (self : pagination) (req : request) :
  (exists v, get_page_size self req = Ok v)
  /\ (forall param s k,
        page_size_query_param self = Some param -> param <> "" ->
        str_get (query_params req) param = Some s ->
        int_of_str s = Some k -> 1 <= k ->
        get_page_size self req =
          Ok (VInt (match max_page_size self with
                    | Some c => if c =? 0 then k else Z.min k c
                    | None => k
                    end)))
  /\ (forall v, get_page_size self req = Ok v -> v <> page_size self ->
        exists param s k n,
          page_size_query_param self = Some param /\
          str_get (query_params req) param = Some s /\
          int_of_str s = Some k /\ 1 <= k /\ v = VInt n /\ n <= k /\
          (forall c, max_page_size self = Some c -> 0 < c -> 1 <= n <= c) /\
          (max_page_size self = None -> n = k)).
Proof.
  unfold get_page_size.
  destruct (page_size_query_param self) as [param |] eqn:Hparam.
  2: { split; [eauto |]. split; [discriminate |].
       intros v [= <-] Hne. contradiction. }
  destruct (String.eqb_spec param "") as [-> | Hnonempty].
  { split; [eauto |]. split; [intros p s k [= <-] Hp; contradiction |].
    intros v [= <-] Hne. contradiction. }
  destruct (str_get (query_params req) param) as [s |] eqn:Hquery.
  2: { split; [eauto |].
       split; [intros p s k [= <-] _ Hq; congruence |].
       intros v [= <-] Hne. contradiction. }
  pose proof (positive_int_of_text s true (max_page_size self)) as Hpos.
  destruct (_positive_int (VStr s) true (max_page_size self)) as [n | e]
    eqn:Hpi.
  - destruct Hpos as (k & Hk & Hk0 & Hk1 & ->).
    specialize (Hk1 eq_refl).
    split; [eauto |]. split.
    + intros p s' k' [= <-] _ Hq Hk' _.
      rewrite Hquery in Hq. injection Hq as <-.
      rewrite Hk in Hk'. injection Hk' as <-. reflexivity.
    + intros v [= <-] _. exists param, s, k. eexists.
      split; [reflexivity |]. split; [exact Hquery |].
      split; [exact Hk |]. split; [exact Hk1 |].
      split; [reflexivity |].
      split; [destruct (max_page_size self) as [c |];
              [destruct (c =? 0) |]; lia |].
      split.
      * intros c [= ->] Hc. destruct (Z.eqb_spec c 0); lia.
      * intros ->. reflexivity.
  - subst e. split; [eauto |]. split.
    + intros p s' k' [= <-] _ Hq Hk' Hge.
      rewrite Hquery in Hq. injection Hq as <-.
      exfalso. revert Hpi. clear -Hk' Hge.
      unfold _positive_int, py_int. rewrite Hk'. simpl.
      destruct (Z.ltb_spec k' 0); [lia |].
      destruct (Z.eqb_spec k' 0); [lia |]. simpl.
      destruct (max_page_size self) as [c |]; [destruct (c =? 0) |];
        discriminate.
    + intros v [= <-] Hne. contradiction.
Qed.

(** The [invalid_page_message] of the class formats with [page_number]
    and [message]. *)
Lemma class_page_message_formats (page_number message : value) :
  py_format (invalid_page_message PageNumberPagination)
    [("page_number", page_number); ("message", message)]
  = Ok (str_format (invalid_page_message PageNumberPagination)
          [("page_number", page_number); ("message", message)]).
Proof. reflexivity. Qed.

(** The outcome of [paginate_object_list] once the page has been asked
    for: a failure of [page] is split into its cases. *)
Ltac page_failure :=
  match goal with
  | |- context [Paginator_page ?p1 ?v] =>
      let pg := fresh "pg" in
      let e1 := fresh "e1" in
      let p2 := fresh "p2" in
      let Hp := fresh "Hp" in
      let Hfst := fresh "Hfst" in
      destruct (Paginator_page p1 v) as [[pg | e1] p2] eqn:Hp;
      [discriminate |];
      assert (Hfst : fst (Paginator_page p1 v) = Raise e1)
        by (rewrite Hp; reflexivity);
      destruct (Paginator_page_raises _ _ _ Hfst)
        as [[? ->] | [[? ->] | [-> | ->]]]; cbn [fst snd]
  end.

(** X6. [paginate_object_list] lets no [InvalidPage] escape and fails
    without changing the pagination object.  What it raises is a
    [NotFound] (the translation of [PageNotAnInteger] and [EmptyPage]), or
    the [TypeError], [ValueError], [ZeroDivisionError] or [OverflowError]
    of a page size that is not a non-zero integer within the range of
    [float], or, with an [invalid_page_message] that does not format with
    [page_number] and [message], the error of [format]; the message of the
    class always formats. *)
Theorem paginate_object_list_failures (self : pagination)
  (objs : list value) (req : request) (e : exn) :
  fst (paginate_object_list self objs req) = Raise e ->
  snd (paginate_object_list self objs req) = self
  /\ ((exists msg, e = NotFound msg) \/ e = TypeError \/ e = ValueError \/
      e = ZeroDivisionError \/ e = OverflowError \/
      exists page_number message,
        py_format (invalid_page_message self)
          [("page_number", page_number); ("message", VStr message)]
        = Raise e)
  /\ (invalid_page_message self = invalid_page_message PageNumberPagination ->
      (exists msg, e = NotFound msg) \/ e = TypeError \/ e = ValueError \/
      e = ZeroDivisionError \/ e = OverflowError).
Proof.
  unfold paginate_object_list.
  destruct (get_page_size_returns self req) as [size ->].
  destruct (truthy size); simpl; [| discriminate].
  unfold Paginator_init.
  destruct (py_int size) as [pp | e0] eqn:Hsize; simpl.
  2: { intros [= <-]. split; [reflexivity |].
       destruct (py_int_raises _ _ Hsize) as [-> | ->]; auto 10. }
  set (page_arg := match str_get (GET req) (page_query_param self) with
                   | Some s => VStr s
                   | None => VInt 1
                   end).
  set (p0 := {| object_list := objs; per_page := pp; orphans := 0;
                allow_empty_first_page := true; count := 0;
                _num_pages := None; _count := None |}).
  assert (Hformat : forall (v : value) (message : string),
    rbind (py_format (invalid_page_message self)
             [("page_number", v); ("message", VStr message)])
      (fun msg => Raise (NotFound msg))
      = (Raise e : result (option (list value))) ->
    ((exists msg, e = NotFound msg) \/ e = TypeError \/ e = ValueError \/
     e = ZeroDivisionError \/ e = OverflowError \/
     exists page_number message,
       py_format (invalid_page_message self)
         [("page_number", page_number); ("message", VStr message)]
       = Raise e)
    /\ (invalid_page_message self
        = invalid_page_message PageNumberPagination ->
        (exists msg, e = NotFound msg) \/ e = TypeError \/ e = ValueError \/
        e = ZeroDivisionError \/ e = OverflowError)).
  { intros v message.
    destruct (py_format (invalid_page_message self)
                [("page_number", v); ("message", VStr message)])
      as [text | e1] eqn:Hf; cbn [rbind]; intros [= <-].
    - split; [| intros _]; left; eauto.
    - split; [do 5 right; eauto |].
      intros Hclass. rewrite Hclass, class_page_message_formats in Hf.
      discriminate. }
  destruct (tuple_contains (last_page_strings self) page_arg).
  - destruct (num_pages p0) as [[n | e1] p1] eqn:Hnp.
    + page_failure; intros Hraise;
        first [ split; [reflexivity |]; eapply Hformat; exact Hraise
              | injection Hraise as <-; split; [reflexivity |];
                split; [| intros _]; auto 10 ].
    + simpl. intros [= <-]. split; [reflexivity |].
      assert (Hfst : fst (num_pages p0) = Raise e1)
        by (rewrite Hnp; reflexivity).
      destruct (num_pages_raises _ _ Hfst) as [-> | ->]; auto 10.
  - page_failure; intros Hraise;
      first [ split; [reflexivity |]; eapply Hformat; exact Hraise
            | injection Hraise as <-; split; [reflexivity |];
              split; [| intros _]; auto 10 ].
Qed.

(** X7. A request for a page by its number, end to end: with a page size
    [per > 0] that [float] accepts, fewer than [2 ^ 53] objects and a
    [page] parameter (or its default, 1) that is no last-page token and
    reads as [n], [paginate_object_list] returns the objects of
    [Paginator.page(n)] when [1 <= n <= num_pages], and
    [get_paginated_response] then gives, in this order, [count] = the size
    of the collection, [has_next] = [n < num_pages], [has_previous] =
    [n > 1] and [results] = the data it is given; for any other [n] the
    call leaves the object as it was and raises [NotFound] with the
    formatted [invalid_page_message], or the error of [format] when that
    message does not format. *)
Theorem paginate_then_response (self : pagination) (objs : list value)
  (req : request) (per n : Z) :
  get_page_size self req = Ok (VInt per) -> 0 < per < float_limit ->
  Z.of_nat (length objs) < 2 ^ 53 ->
  let page_arg :=
    match str_get (GET req) (page_query_param self) with
    | Some s => VStr s
    | None => VInt 1
    end in
  tuple_contains (last_page_strings self) page_arg = false ->
  py_int page_arg = Ok n ->
  let p0 := mkPaginator objs per 0 true 0 None None in
  let pages := total_pages (Z.of_nat (length objs)) per 0 true in
  (1 <= n <= pages ->
   exists self' pg,
     Paginator_page p0 page_arg = (Ok pg, counted p0) /\
     paginate_object_list self objs req
       = (Ok (Some (page_object_list pg)), self') /\
     forall data,
       fst (get_paginated_response self' data)
       = Ok (VDict [(VStr "count", VInt (Z.of_nat (length objs)));
                    (VStr "has_next", VBool (n <? pages));
                    (VStr "has_previous", VBool (1 <? n));
                    (VStr "results", data)]))
  /\ (n < 1 \/ pages < n ->
      paginate_object_list self objs req =
        (rbind (py_format (invalid_page_message self)
                  [("page_number", page_arg);
                   ("message",
                    VStr (if n <? 1 then "That page number is less than 1"
                          else "That page contains no results"))])
           (fun msg => Raise (NotFound msg)),
         self)).
Proof.
  intros Hsize Hper Hlen page_arg Hnot_last Hint p0 pages.
  assert (Hstart : paginate_object_list self objs req =
    match Paginator_page p0 page_arg with
    | (Raise (PageNotAnInteger m as exc), _)
    | (Raise (EmptyPage m as exc), _) =>
        (rbind (py_format (invalid_page_message self)
                  [("page_number", page_arg);
                   ("message", VStr (exn_message exc))])
           (fun msg => Raise (NotFound msg)), self)
    | (Raise e1, _) => (Raise e1, self)
    | (Ok pg, paginator2) =>
        (Ok (Some (page_object_list pg)),
         {| page_size := page_size self;
            page_query_param := page_query_param self;
            page_size_query_param := page_size_query_param self;
            max_page_size := max_page_size self;
            last_page_strings := last_page_strings self;
            invalid_page_message := invalid_page_message self;
            self_page := Some (pg, paginator2);
            self_request := Some req |})
    end).
  { unfold paginate_object_list. rewrite Hsize.
    assert (Htruthy : truthy (VInt per) = true).
    { simpl. destruct (Z.eqb_spec per 0); [lia | reflexivity]. }
    rewrite Htruthy. cbn [negb].
    unfold Paginator_init. cbn [py_int rbind].
    fold page_arg. rewrite Hnot_last. fold p0. reflexivity. }
  assert (Hmemo : memo_consistent p0) by (split; left; reflexivity).
  split.
  - intros Hn.
    destruct (valid_page_facts p0 page_arg n Hint Hper ltac:(simpl; lia)
                Hlen Hmemo Hn) as (top & Hpage & _).
    eexists. eexists. split; [exact Hpage |].
    rewrite Hstart, Hpage. split; [reflexivity |].
    intros data. unfold get_paginated_response. cbn [self_page].
    unfold has_next, num_pages, counted, has_previous.
    cbn [_num_pages number count object_list per_page orphans
         allow_empty_first_page fst].
    reflexivity.
  - intros Hout. rewrite Hstart.
    destruct (Z.ltb_spec n 1) as [Hlow | Hge].
    + unfold Paginator_page, get_count. cbn [_count p0].
      unfold set_count, validate_number. rewrite Hint.
      destruct (Z.ltb_spec n 1); [reflexivity | lia].
    + rewrite (proj1 (Paginator_page_spec p0 page_arg n Hper
                        ltac:(simpl; lia) Hlen Hmemo Hint Hge)).
      change (total_pages (Z.of_nat (length (object_list p0))) (per_page p0)
                (orphans p0) (allow_empty_first_page p0)) with pages.
      destruct (Z.leb_spec n pages); [lia | reflexivity].
Qed.


(** ** Fields *)

Lemma run_validators_skip_falsy (vs : list validator) (data : value) :
  truthy data = false -> run_validators vs data = Ok tt.
Proof.
  intros Hfalsy. induction vs as [| v vs IH]; simpl; [reflexivity |].
  unfold validator_call. rewrite Hfalsy. simpl. exact IH.
Qed.

(** The classes that inherit [Field.to_python] unchanged. *)
Lemma to_python_inherited (f : field) (v : value) :
  match f_class f with
  | Field | CharField _ | BooleanField | SerializerMethodField _ => True
  | _ => False
  end ->
  to_python f v = Ok v.
Proof.
  unfold to_python. destruct (f_class f); simpl; intros []; reflexivity.
Qed.

(** X8. [IntegerField] (and [SmallIntegerField]): [to_python] succeeds
    exactly on the values [int] accepts, and returns that integer; every
    other value fails with the field's [to_python] message.  A parsed value
    is a fixed point of both directions: rendering it and parsing it again
    give it back. *)
Theorem IntegerField_round_trip (f : field) (v : value) (m : string) :
  f_class f = IntegerField \/ f_class f = SmallIntegerField ->
  str_get (error_messages f) "to_python" = Some m ->
  (forall w, to_python f v = Ok w <->
             exists n, py_int v = Ok n /\ w = VInt n)
  /\ ((exists e, py_int v = Raise e) ->
      to_python f v = Raise (ValidationError (VStr m)))
  /\ (forall w, to_python f v = Ok w ->
                to_representation f w = Ok w /\ to_python f w = Ok w).
Proof.
  intros Hclass Hmsg.
  assert (Hpy : to_python f v =
                match py_int v with
                | Ok n => Ok (VInt n)
                | Raise _ => Raise (ValidationError (VStr m))
                end).
  { unfold to_python, Field_fail. rewrite Hmsg.
    destruct Hclass as [-> | ->]; reflexivity. }
  assert (Hfix : forall n, to_representation f (VInt n) = Ok (VInt n) /\
                           to_python f (VInt n) = Ok (VInt n)).
  { intros n. unfold to_representation, to_python.
    destruct Hclass as [-> | ->]; split; reflexivity. }
  rewrite Hpy.
  destruct (py_int v) as [n | e].
  - split; [| split].
    + intros w. split; [intros [= <-]; eauto |].
      intros [n' [[= <-] ->]]. reflexivity.
    + intros [e He]. discriminate.
    + intros w [= <-]. apply Hfix.
  - split; [| split].
    + intros w. split; [discriminate | intros [n' [Hn' _]]; discriminate].
    + intros _. reflexivity.
    + intros w Hw. discriminate.
Qed.

(** X9. A required field that belongs to no serializer refuses every falsy
    input with its [required] message, before any parsing: the empty text
    and [None], and just as well [0], [False] and an empty list. *)
Theorem unbound_required_field_refuses_falsy (st : store) (f : field)
  (data : value) (m : string) :
  required f = true -> parent f = None ->
  str_get (error_messages f) "required" = Some m ->
  truthy data = false ->
  run_validation st f data = Raise (ValidationError (VStr m)).
Proof.
  intros Hreq Hparent Hmsg Hfalsy.
  unfold run_validation, Field_fail.
  rewrite Hfalsy, Hreq, Hparent, Hmsg. reflexivity.
Qed.

(** X10. What a field bound to a serializer does with a missing or falsy
    value.  It never reports it as [required].  In partial mode the value
    becomes the current attribute of the parent's instance, unparsed and
    unvalidated.  Otherwise an optional field returns the value as it is; a
    required field of a class that inherits [to_python] returns it as it is
    too, whatever its validators; and a required [IntegerField] given
    [None] fails with the [to_python] message. *)
Theorem bound_field_with_missing_value (st : store) (f : field) (p : loc)
  (s : serializer) (data : value) :
  parent f = Some p -> serializer_objects st !! p = Some s ->
  truthy data = false ->
  (partial f = true ->
   run_validation st f data = get_attribute st f (instance s))
  /\ (partial f = false -> required f = false ->
      run_validation st f data = Ok data)
  /\ (partial f = false ->
      match f_class f with
      | Field | CharField _ | BooleanField | SerializerMethodField _ => True
      | _ => False
      end ->
      run_validation st f data = Ok data)
  /\ (partial f = false -> required f = true ->
      f_class f = IntegerField \/ f_class f = SmallIntegerField ->
      forall m, str_get (error_messages f) "to_python" = Some m ->
      run_validation st f VNone = Raise (ValidationError (VStr m))).
Proof.
  intros Hparent Hs Hfalsy.
  unfold run_validation. rewrite Hparent, Hfalsy, Hs. simpl.
  rewrite !andb_false_r. simpl.
  split; [intros ->; reflexivity |].
  split; [intros -> ->; reflexivity |].
  split.
  - intros -> Hclass. rewrite to_python_inherited by exact Hclass. simpl.
    rewrite run_validators_skip_falsy by exact Hfalsy.
    destruct (required f); reflexivity.
  - intros -> -> Hclass m Hmsg. simpl.
    unfold to_python, Field_fail. rewrite Hmsg.
    destruct Hclass as [-> | ->]; reflexivity.
Qed.

(** X11. [CharField(max_length=m)] with [m > 0]: a non-empty text
    validates to itself exactly when it has at most [m] characters (code
    points), and is refused with the [MaxLengthValidator] message
    otherwise, whether the field is required, bound or partial. *)
Theorem CharField_max_length (st : store) (m : Z) (nm init : value)
  (req ro : bool) (dflt : value) (part : bool) (p : option loc)
  (text : string) :
  0 < m -> text <> "" ->
  let f0 := CharField_init (VInt m) nm init req ro dflt part in
  let f := match p with
           | Some parent_loc => set_binding f0 parent_loc nm part
           | None => f0
           end in
  (Z.of_nat (code_points text) <= m ->
   run_validation st f (VStr text) = Ok (VStr text))
  /\ (m < Z.of_nat (code_points text) ->
      run_validation st f (VStr text) =
        Raise (ValidationError
                 (VStr (str_format (class_message MaxLengthValidator)
                          [("limit_value", VInt m)])))).
Proof.
  intros Hm Htext f0 f.
  assert (Htruthy : truthy (VStr text) = true).
  { simpl. destruct (String.eqb_spec text ""); [contradiction | reflexivity]. }
  assert (Hm0 : truthy (VInt m) = true).
  { simpl. destruct (Z.eqb_spec m 0); [lia | reflexivity]. }
  assert (Hrun : run_validation st f (VStr text) =
                 rbind (validator_call
                          (new_validator MaxLengthValidator (VInt m) None)
                          (VStr text))
                   (fun _ => Ok (VStr text))).
  { subst f f0. unfold CharField_init. rewrite Hm0.
    remember (VStr text) as data eqn:Hdata.
    destruct p; unfold run_validation; rewrite Htruthy;
      cbn -[validator_call new_validator];
      destruct (validator_call _ data); reflexivity. }
  rewrite Hrun. unfold validator_call. rewrite Htruthy.
  cbn -[Z.ltb Z.of_nat code_points str_format class_message].
  split; intros Hlen.
  - destruct (Z.ltb_spec m (Z.of_nat (code_points text))); [lia | reflexivity].
  - destruct (Z.ltb_spec m (Z.of_nat (code_points text))); [reflexivity | lia].
Qed.

(** X12. [BooleanField.to_representation] renders every hashable value
    as a boolean: the value [to_internal_value] coerces it to when it is
    one of the listed spellings (so the truthy text ['false'] renders
    [False]), its truth value otherwise; booleans render as themselves.
    An unhashable value raises [TypeError] here, where
    [to_internal_value] reports it as invalid. *)
Theorem BooleanField_to_representation_is_boolean (f : field) (v : value) :
  f_class f = BooleanField ->
  (hashable v = true ->
   exists b,
     to_representation f v = Ok (VBool b) /\
     (forall b', BooleanField_to_internal_value f v = Ok (VBool b') ->
                 b' = b) /\
     ((forall w, BooleanField_to_internal_value f v <> Ok w) ->
      b = truthy v))
  /\ (hashable v = false -> to_representation f v = Raise TypeError)
  /\ (forall b, to_representation f (VBool b) = Ok (VBool b))
  /\ to_representation f (VStr "false") = Ok (VBool false).
Proof.
  intros Hclass.
  unfold to_representation, BooleanField_to_internal_value, set_contains.
  rewrite Hclass.
  split; [| split; [| split]].
  - intros ->. cbn [rbind].
    destruct (existsb (py_eq v) TRUE_VALUES); cbn [rbind].
    + exists true. split; [reflexivity |].
      split; [intros b' [= <-]; reflexivity |].
      intros Hnone. exfalso. apply (Hnone (VBool true)). reflexivity.
    + destruct (existsb (py_eq v) FALSE_VALUES); cbn [rbind].
      * exists false. split; [reflexivity |].
        split; [intros b' [= <-]; reflexivity |].
        intros Hnone. exfalso. apply (Hnone (VBool false)). reflexivity.
      * exists (truthy v). split; [reflexivity |].
        split; [| reflexivity].
        intros b'. unfold Field_fail.
        destruct (str_get (error_messages f) "invalid"); discriminate.
  - intros ->. reflexivity.
  - intros [|]; reflexivity.
  - reflexivity.
Qed.

(** X13. Representing an object that has none of the attributes never
    fails: for a serializer whose fields are bound and are no method
    fields, and a dict without any of the field names as key, every field
    comes out as [None], in the order of the fields, whatever the classes
    of the fields. *)
Theorem to_representation_of_missing_attributes (st : store) (self : loc)
  (s : serializer) (d : list (value * value)) :
  serializer_objects st !! self = Some s ->
  NoDup (map fst (fields s)) ->
  (forall nm ofl, In (nm, ofl) (fields s) ->
     exists fl f, ofl = Some fl /\ field_objects st !! fl = Some f /\
                  name f = VStr nm /\
                  (forall meth, f_class f <> SerializerMethodField meth)) ->
  (forall nm, In nm (map fst (fields s)) -> assoc_get d (VStr nm) = VNone) ->
  Serializer_to_representation self (VDict d) st =
    (Ok (VDict (map (fun kv => (VStr (fst kv), VNone)) (fields s))), st).
Proof.
  intros Hs Hnodup Hbound Hmissing.
  unfold Serializer_to_representation, mbind, M_bind, read_serializer,
    reading.
  rewrite Hs.
  assert (Hloop : to_representation_loop st (fields s) (VDict d) []
                  = Ok (map (fun kv => (VStr (fst kv), VNone)) (fields s))).
  { apply to_representation_loop_emits.
    - intros nm ofl Hin.
      destruct (Hbound nm ofl Hin) as (fl & f & ? & ? & ? & _). eauto.
    - exact Hnodup.
    - intros k v [].
    - eexists. split; [reflexivity |].
      clear Hnodup Hs.
      induction (fields s) as [| [nm ofl] rest IH]; [constructor |].
      cbn [map fst]. constructor.
      + destruct (Hbound nm ofl) as (fl & f & -> & Hf & Hname & Hclass);
          [left; reflexivity |].
        rewrite <- Hname.
        apply emits_falsy; [exact Hf | | reflexivity].
        unfold get_attribute.
        destruct (f_class f) eqn:Hc;
          try (unfold Field_get_attribute, dict_get; rewrite Hname;
               cbn [hashable]; rewrite Hmissing by (left; reflexivity);
               reflexivity).
        exfalso. eapply Hclass. reflexivity.
      + apply IH.
        * intros nm' ofl' Hin. apply Hbound. right. exact Hin.
        * intros nm' Hin. apply Hmissing. right. exact Hin. }
  rewrite Hloop. reflexivity.
Qed.

(** ** Serializers: validation *)

Lemma put_serializer_lookup (st : store) (self : loc) (s s' : serializer) :
  serializer_objects st !! self = Some s ->
  serializer_objects (put_serializer st self s') !! self = Some s'.
Proof.
  intros Hs. unfold put_serializer; simpl.
  apply list_lookup_insert_eq. eapply lookup_lt_Some; eauto.
Qed.

Lemma put_serializer_twice (st : store) (self : loc) (a b : serializer) :
  put_serializer (put_serializer st self a) self b = put_serializer st self b.
Proof.
  unfold put_serializer; simpl. rewrite list_insert_insert_eq. reflexivity.
Qed.

Lemma put_serializer_same (st : store) (self : loc) (s : serializer) :
  serializer_objects st !! self = Some s -> put_serializer st self s = st.
Proof.
  intros Hs. unfold put_serializer. rewrite list_insert_id by exact Hs.
  destruct st; reflexivity.
Qed.

Lemma update_serializer_put (st : store) (self : loc) (s : serializer)
  (upd : serializer -> serializer) :
  serializer_objects st !! self = Some s ->
  update_serializer self upd st = (Ok tt, put_serializer st self (upd s)).
Proof.
  intros Hs.
  unfold update_serializer, mbind, M_bind, read_serializer, write_serializer.
  rewrite Hs. reflexivity.
Qed.

(** [BaseSerializer.run_validation] as one step on the store. *)
Lemma Serializer_run_validation_step (self : loc) (data : value)
  (st : store) (s : serializer) :
  serializer_objects st !! self = Some s ->
  Serializer_run_validation self data st =
    match run_validation_loop st (writable_fields s) (dict_or_empty data)
            [] [] with
    | Raise e => (Raise e, st)
    | Ok (ret, errs) =>
        (if truthy (VDict errs) then Raise (ValidationError (VDict errs))
         else Ok (VDict ret),
         put_serializer st self (set_errors s (VDict errs)))
    end.
Proof.
  intros Hs.
  unfold Serializer_run_validation.
  unfold mbind at 1, M_bind at 1, read_serializer at 1. rewrite Hs.
  unfold mbind at 1, M_bind at 1, reading.
  fold (dict_or_empty data).
  destruct (run_validation_loop st (writable_fields s) (dict_or_empty data)
              [] []) as [[ret errs] | e]; [| reflexivity].
  unfold mbind at 1, M_bind at 1.
  rewrite (update_serializer_put st self s) by exact Hs.
  unfold mbind, M_bind, read_serializer.
  rewrite (put_serializer_lookup st self s) by exact Hs.
  cbn [_errors set_errors snd fst].
  destruct (truthy (VDict errs)); reflexivity.
Qed.

(** The loop of [run_validation] catches every [ValidationError]. *)
Lemma run_validation_loop_raises (st : store) (items : list (value * loc))
  (d : list (value * value)) :
  forall ret errs e,
    run_validation_loop st items d ret errs = Raise e ->
    forall detail, e <> ValidationError detail.
Proof.
  induction items as [| [nm fl] items IH]; intros ret errs e; simpl;
    [discriminate |].
  destruct (field_objects st !! fl) as [f |]; [| intros [= <-]; discriminate].
  unfold dict_get.
  destruct (hashable nm); simpl; [| intros [= <-]; discriminate].
  destruct (run_validation st f (assoc_get d nm)) as [v | [] ];
    try (intros [= <-]; discriminate); apply IH.
Qed.

(** [BaseSerializer.is_valid] as one step on the store. *)
Lemma is_valid_step (self : loc) (raise_exception : bool) (st : store)
  (s : serializer) :
  serializer_objects st !! self = Some s ->
  is_valid self raise_exception st =
    if truthy (validated_data s) then is_valid_result raise_exception s st
    else
      match run_validation_loop st (writable_fields s)
              (dict_or_empty (initial_data s)) [] [] with
      | Raise e => (Raise e, st)
      | Ok (ret, errs) =>
          let s' :=
            if truthy (VDict errs) then set_errors s (VDict errs)
            else set_validated_data (set_errors s (VDict errs)) (VDict ret) in
          is_valid_result raise_exception s' (put_serializer st self s')
      end.
Proof.
  intros Hs. unfold is_valid.
  unfold mbind at 1, M_bind at 1, read_serializer at 1. rewrite Hs.
  destruct (truthy (validated_data s)); cbn [negb].
  - unfold mbind, M_bind, mret, M_ret, read_serializer. rewrite Hs.
    unfold is_valid_result. destruct (truthy (_errors s) && raise_exception);
      reflexivity.
  - unfold mbind at 1, M_bind at 1, try_except_ValidationError.
    unfold mbind at 1, M_bind at 1.
    rewrite (Serializer_run_validation_step self _ st s) by exact Hs.
    pose proof (run_validation_loop_raises st (writable_fields s)
                  (dict_or_empty (initial_data s)) [] []) as Hraises.
    destruct (run_validation_loop st (writable_fields s)
                (dict_or_empty (initial_data s)) [] [])
      as [[ret errs] | e];
      [| destruct e; try reflexivity;
         exfalso; eapply Hraises; reflexivity].
    pose proof (put_serializer_lookup st self s (set_errors s (VDict errs)) Hs)
      as Hs1.
    destruct (truthy (VDict errs)) eqn:Herrs; cbv zeta.
    + rewrite (update_serializer_put _ self _ _ Hs1).
      rewrite put_serializer_twice.
      unfold mbind, M_bind, read_serializer.
      rewrite (put_serializer_lookup st self s) by exact Hs.
      unfold is_valid_result. cbn [_errors set_errors].
      destruct (truthy (VDict errs) && raise_exception); reflexivity.
    + rewrite (update_serializer_put _ self _ _ Hs1).
      rewrite put_serializer_twice.
      unfold mbind, M_bind, read_serializer.
      rewrite (put_serializer_lookup st self s) by exact Hs.
      unfold is_valid_result.
      destruct (truthy (_errors _) && raise_exception); reflexivity.
Qed.

Lemma dict_set_keys {A} (d : list (value * A)) (k : value) (v : A) :
  forall x, In x (map fst (dict_set d k v)) -> x = k \/ In x (map fst d).
Proof.
  induction d as [| [k' v'] d IH]; simpl; intros x Hin.
  - destruct Hin as [<- | []]. auto.
  - destruct (py_eq k' k); simpl in Hin.
    + auto.
    + destruct Hin as [<- | Hin]; [auto |].
      destruct (IH x Hin); auto.
Qed.

Lemma run_validation_loop_error_keys (st : store)
  (items : list (value * loc)) (d : list (value * value)) :
  forall ret errs ret' errs',
    run_validation_loop st items d ret errs = Ok (ret', errs') ->
    forall k, In k (map fst errs') ->
              In k (map fst errs) \/ In k (map fst items).
Proof.
  induction items as [| [nm fl] items IH]; intros ret errs ret' errs'; simpl.
  - intros [= <- <-] k Hin. auto.
  - destruct (field_objects st !! fl) as [f |]; [| discriminate].
    unfold dict_get. destruct (hashable nm); simpl; [| discriminate].
    destruct (run_validation st f (assoc_get d nm)) as [w | [] ];
      try discriminate; intros Hloop k Hin;
      destruct (IH _ _ _ _ Hloop k Hin) as [Hold | Hitem]; auto.
    destruct (dict_set_keys _ _ _ _ Hold); auto.
Qed.

(** X14. [run_validation] of a serializer keeps [_errors] in step with
    its outcome and touches nothing else: when it returns, [_errors] is the
    empty mapping; when it raises [ValidationError], the detail is a
    non-empty mapping, it is what [_errors] now holds, and each of its keys
    is the name of a writable field; any other exception leaves the store
    as it was.  The [Field] objects and [validated_data] are never
    changed. *)
Theorem run_validation_records_errors (self : loc) (data : value)
  (st st' : store) (s : serializer) (r : result value) :
  serializer_objects st !! self = Some s ->
  Serializer_run_validation self data st = (r, st') ->
  field_objects st' = field_objects st /\
  match r with
  | Ok _ =>
      st' = put_serializer st self (set_errors s (VDict []))
  | Raise (ValidationError detail) =>
      st' = put_serializer st self (set_errors s detail) /\
      truthy detail = true /\
      exists errs,
        detail = VDict errs /\
        forall k, In k (map fst errs) -> In k (map fst (writable_fields s))
  | Raise _ => st' = st
  end.
Proof.
  intros Hs. rewrite (Serializer_run_validation_step self data st s Hs).
  pose proof (run_validation_loop_raises st (writable_fields s)
                (dict_or_empty data) [] []) as Hraises.
  pose proof (run_validation_loop_error_keys st (writable_fields s)
                (dict_or_empty data) [] []) as Hkeys.
  destruct (run_validation_loop st (writable_fields s) (dict_or_empty data)
              [] []) as [[ret errs] | e].
  - destruct (truthy (VDict errs)) eqn:Herrs; intros [= <- <-].
    + split; [reflexivity |]. split; [reflexivity |].
      split; [exact Herrs |]. exists errs. split; [reflexivity |].
      intros k Hin.
      destruct (Hkeys _ _ eq_refl k Hin) as [[] | Hitem]. exact Hitem.
    + split; [reflexivity |].
      destruct errs; [reflexivity | discriminate].
  - intros [= <- <-]. split; [reflexivity |].
    destruct e; try reflexivity.
    exfalso. eapply Hraises; reflexivity.
Qed.

(** X15. The two modes of [is_valid] agree: whenever
    [is_valid()] returns, its answer is "no errors are recorded", and
    [is_valid(raise_exception=True)] reaches the same store and returns
    [True] when the answer is [True], and raises a [ValidationError]
    carrying the recorded errors when it is [False]. *)
Theorem is_valid_raise_exception (self : loc) (st st' : store)
  (s : serializer) (b : bool) :
  serializer_objects st !! self = Some s ->
  is_valid self false st = (Ok b, st') ->
  exists s',
    serializer_objects st' !! self = Some s' /\
    b = negb (truthy (_errors s')) /\
    is_valid self true st =
      (if b then Ok true else Raise (ValidationError (_errors s')), st').
Proof.
  intros Hs.
  rewrite !(is_valid_step self _ st s Hs).
  assert (Hend : forall s1 st1,
    serializer_objects st1 !! self = Some s1 ->
    is_valid_result false s1 st1 = (Ok b, st') ->
    exists s',
      serializer_objects st' !! self = Some s' /\
      b = negb (truthy (_errors s')) /\
      is_valid_result true s1 st1 =
        (if b then Ok true else Raise (ValidationError (_errors s')), st')).
  { intros s1 st1 Hs1. unfold is_valid_result.
    rewrite andb_false_r, andb_true_r. intros [= <- <-].
    exists s1. split; [exact Hs1 |]. split; [reflexivity |].
    destruct (truthy (_errors s1)); reflexivity. }
  destruct (truthy (validated_data s)); [apply Hend; exact Hs |].
  destruct (run_validation_loop st (writable_fields s)
              (dict_or_empty (initial_data s)) [] [])
    as [[ret errs] | e]; [| discriminate].
  cbv zeta. apply Hend. eapply put_serializer_lookup; eauto.
Qed.

Lemma get_attribute_put (st : store) (self : loc) (s s' : serializer)
  (f : field) (inst : value) :
  serializer_objects st !! self = Some s -> s_class s' = s_class s ->
  get_attribute (put_serializer st self s') f inst = get_attribute st f inst.
Proof.
  intros Hs Hclass. unfold get_attribute.
  destruct (f_class f); try reflexivity.
  unfold SerializerMethodField_get_attribute.
  destruct (parent f) as [p |]; [| reflexivity].
  unfold put_serializer; cbn [serializer_objects].
  destruct (decide (self = p)) as [<- | Hne].
  - rewrite list_lookup_insert_eq by (eapply lookup_lt_Some; eauto).
    rewrite Hs, Hclass. reflexivity.
  - rewrite list_lookup_insert_ne by exact Hne. reflexivity.
Qed.

Lemma run_validation_put (st : store) (self : loc) (s s' : serializer)
  (f : field) (v : value) :
  serializer_objects st !! self = Some s ->
  s_class s' = s_class s -> instance s' = instance s ->
  run_validation (put_serializer st self s') f v = run_validation st f v.
Proof.
  intros Hs Hclass Hinst. unfold run_validation.
  destruct (negb (truthy v) && required f
            && negb match parent f with Some _ => true | None => false end);
    [reflexivity |].
  destruct (negb (truthy v) && partial f); [| reflexivity].
  destruct (parent f) as [p |]; [| reflexivity].
  unfold put_serializer at 1; cbn [serializer_objects].
  destruct (decide (self = p)) as [<- | Hne].
  - rewrite list_lookup_insert_eq by (eapply lookup_lt_Some; eauto).
    rewrite Hs, Hinst. apply (get_attribute_put st self s s'); assumption.
  - rewrite list_lookup_insert_ne by exact Hne.
    unfold loc in *.
    destruct (serializer_objects st !! p); [| reflexivity].
    apply (get_attribute_put st self s s'); assumption.
Qed.

Lemma run_validation_loop_put (st : store) (self : loc) (s s' : serializer)
  (items : list (value * loc)) (d : list (value * value)) :
  serializer_objects st !! self = Some s ->
  s_class s' = s_class s -> instance s' = instance s ->
  forall ret errs,
    run_validation_loop (put_serializer st self s') items d ret errs
    = run_validation_loop st items d ret errs.
Proof.
  intros Hs Hclass Hinst.
  induction items as [| [nm fl] items IH]; intros ret errs; simpl;
    [reflexivity |].
  destruct (field_objects st !! fl) as [f |]; [| reflexivity].
  destruct (dict_get d nm) as [v | e]; simpl; [| reflexivity].
  rewrite (run_validation_put st self s s') by assumption.
  destruct (run_validation st f v) as [w | [] ]; try reflexivity; apply IH.
Qed.

(** X16. [is_valid] is idempotent: when it returns, calling it again on
    the store it left returns the same answer and leaves that store
    unchanged, whether the first call validated successfully, recorded
    errors, or found validated data already there. *)
Theorem is_valid_idempotent (self : loc) (st st' : store) (s : serializer)
  (b : bool) :
  serializer_objects st !! self = Some s ->
  is_valid self false st = (Ok b, st') ->
  is_valid self false st' = (Ok b, st').
Proof.
  intros Hs Hfirst.
  pose proof Hfirst as Hrun.
  rewrite (is_valid_step self false st s Hs) in Hrun.
  destruct (truthy (validated_data s)) eqn:Hvd.
  { unfold is_valid_result in Hrun. rewrite andb_false_r in Hrun.
    injection Hrun as _ <-. exact Hfirst. }
  destruct (run_validation_loop st (writable_fields s)
              (dict_or_empty (initial_data s)) [] [])
    as [[ret errs] | e] eqn:Hloop; [| discriminate].
  cbv zeta in Hrun.
  set (s1 := if truthy (VDict errs) then set_errors s (VDict errs)
             else set_validated_data (set_errors s (VDict errs)) (VDict ret))
    in *.
  unfold is_valid_result in Hrun. rewrite andb_false_r in Hrun.
  injection Hrun as <- <-.
  assert (Hs1 : serializer_objects (put_serializer st self s1) !! self
                = Some s1) by (eapply put_serializer_lookup; eauto).
  assert (Hsame : s_class s1 = s_class s /\ instance s1 = instance s /\
                  writable_fields s1 = writable_fields s /\
                  initial_data s1 = initial_data s).
  { subst s1. destruct (truthy (VDict errs)); repeat split. }
  destruct Hsame as (Hclass & Hinst & Hw & Hinit).
  rewrite (is_valid_step self false _ s1 Hs1).
  destruct (truthy (validated_data s1)) eqn:Hvd1.
  { unfold is_valid_result. rewrite andb_false_r. reflexivity. }
  rewrite Hw, Hinit.
  rewrite (run_validation_loop_put st self s s1) by assumption.
  rewrite Hloop. cbv zeta.
  assert (Hfix : (if truthy (VDict errs) then set_errors s1 (VDict errs)
                  else set_validated_data (set_errors s1 (VDict errs))
                         (VDict ret)) = s1).
  { subst s1. destruct (truthy (VDict errs)); destruct s; reflexivity. }
  rewrite Hfix, put_serializer_twice.
  unfold is_valid_result. rewrite andb_false_r. reflexivity.
Qed.

(** ** Serializers: save and the list serializer *)

(** X17. [save] of the base serializer never returns an instance.  With
    recorded errors it fails its first assertion and changes nothing.
    Without errors it merges the keyword arguments into [validated_data]
    and then fails with [TypeError], because [create] and [update] are
    called without their [validated_data] argument; [instance] is left as
    it was. *)
Theorem save_never_returns (self : loc) (kwargs : list (string * value))
  (st : store) (s : serializer) :
  serializer_objects st !! self = Some s ->
  (truthy (_errors s) = true ->
   save self kwargs st = (Raise AssertionError, st))
  /\ (truthy (_errors s) = false ->
      forall d, validated_data s = VDict d ->
        save self kwargs st =
          (Raise TypeError,
           put_serializer st self
             (set_validated_data s (VDict (dict_update_kwargs d kwargs)))))
  /\ (forall v, fst (save self kwargs st) <> Ok v).
Proof.
  intros Hs.
  assert (Herr : truthy (_errors s) = true ->
                 save self kwargs st = (Raise AssertionError, st)).
  { intros He. unfold save, mbind, M_bind, read_serializer.
    rewrite Hs, He. reflexivity. }
  assert (Hok : truthy (_errors s) = false ->
                forall d, validated_data s = VDict d ->
                save self kwargs st =
                  (Raise TypeError,
                   put_serializer st self
                     (set_validated_data s
                        (VDict (dict_update_kwargs d kwargs))))).
  { intros He d Hd. unfold save.
    unfold mbind at 1, M_bind at 1, read_serializer at 1.
    rewrite Hs, He, Hd.
    unfold mbind at 1, M_bind at 1.
    rewrite (update_serializer_put st self s) by exact Hs.
    unfold mbind at 1, M_bind at 1.
    destruct (is_None (instance s)); reflexivity. }
  split; [exact Herr |]. split; [exact Hok |].
  intros v.
  destruct (truthy (_errors s)) eqn:He.
  - rewrite Herr by reflexivity. discriminate.
  - destruct (validated_data s) as [| | | | | d | | |] eqn:Hd;
      try (unfold save, mbind, M_bind, read_serializer;
           rewrite Hs, He, Hd; discriminate).
    rewrite (Hok eq_refl d eq_refl). discriminate.
Qed.

(** X18. [is_valid] can never succeed on a [ListSerializer]: a list
    serializer needs a child to be built, and once built, [is_valid] fails
    with [TypeError] whatever the initial data (a list, a mapping, text, or
    a value that cannot be iterated), and leaves the object as it was. *)
Theorem ListSerializer_is_valid_fails (child_arg : option loc)
  (allow : bool) (inst init : value) (raise_exception : bool) :
  match ListSerializer_init child_arg allow inst init with
  | Raise e => child_arg = None /\ e = AssertionError
  | Ok self =>
      ListSerializer_is_valid self raise_exception = (Raise TypeError, self)
  end.
Proof.
  destruct child_arg as [c |]; simpl; [| auto].
  unfold ListSerializer_is_valid. cbn [ls_validated_data truthy negb].
  unfold ListSerializer_run_validation.
  cbn [ls_initial_data ls_self].
  destruct (py_iter (py_or init (VDict []))) as [items | e] eqn:Hiter;
    cbn [rbind].
  - rewrite ListSerializer_loop_appends. cbn [rbind snd fst app].
    rewrite py_any_placeholders. reflexivity.
  - destruct (py_or init (VDict [])); simpl in Hiter;
      try discriminate; injection Hiter as <-; reflexivity.
Qed.

Lemma Serializer_to_representation_reads (self : loc) (inst : value)
  (st : store) :
  snd (Serializer_to_representation self inst st) = st.
Proof.
  unfold Serializer_to_representation, mbind, M_bind, read_serializer,
    reading.
  destruct (serializer_objects st !! self); reflexivity.
Qed.

Lemma ListSerializer_to_representation_loop_spec (child_loc : loc)
  (st : store) (items : list value) :
  forall ret,
    snd (ListSerializer_to_representation_loop child_loc items ret st) = st /\
    forall out,
      fst (ListSerializer_to_representation_loop child_loc items ret st)
        = Ok out <->
      exists outs,
        out = (ret ++ outs)%list /\
        Forall2 (fun item shown =>
                   fst (Serializer_to_representation child_loc item st)
                   = Ok shown) items outs.
Proof.
  induction items as [| item items IH]; intros ret; simpl.
  - split; [reflexivity |]. intros out. split.
    + intros [= <-]. exists []. rewrite app_nil_r.
      split; [reflexivity | constructor].
    + intros (outs & -> & Hall). inversion Hall. rewrite app_nil_r.
      reflexivity.
  - unfold mbind, M_bind.
    pose proof (Serializer_to_representation_reads child_loc item st) as Hst.
    destruct (Serializer_to_representation child_loc item st)
      as [[shown | e] st1] eqn:Hitem; simpl in Hst; subst st1.
    + destruct (IH (ret ++ [shown])%list) as [IHst IHout].
      split; [exact IHst |]. intros out. rewrite IHout. split.
      * intros (outs & -> & Hall). exists (shown :: outs).
        rewrite <- app_assoc. split; [reflexivity |].
        constructor; [rewrite Hitem; reflexivity | exact Hall].
      * intros (outs & -> & Hall).
        inversion Hall as [| ? shown' ? outs' Hhead Htail]; subst.
        rewrite Hitem in Hhead. simpl in Hhead. injection Hhead as <-.
        exists outs'. rewrite <- app_assoc. split; [reflexivity | exact Htail].
    + split; [reflexivity |]. intros out. split; [discriminate |].
      intros (outs & -> & Hall).
      inversion Hall as [| ? shown' ? outs' Hhead Htail]; subst.
      rewrite Hitem in Hhead. simpl in Hhead. discriminate.
Qed.

(** X19. [ListSerializer.to_representation] of a list is the list of the
    child's representations, one per item and in the order of the items:
    it returns exactly when the child represents every item, it never
    changes the store, and its result has as many entries as there are
    items. *)
Theorem ListSerializer_to_representation_maps_child
  (self : list_serializer) (items : list value) (st : store) :
  snd (ListSerializer_to_representation self (VList items) st) = st
  /\ (forall outs,
        fst (ListSerializer_to_representation self (VList items) st)
          = Ok (VList outs) <->
        Forall2 (fun item shown =>
                   fst (Serializer_to_representation (child self) item st)
                   = Ok shown) items outs)
  /\ (forall outs,
        fst (ListSerializer_to_representation self (VList items) st)
          = Ok (VList outs) -> length outs = length items).
Proof.
  unfold ListSerializer_to_representation. cbn [py_iter].
  unfold mbind, M_bind.
  destruct (ListSerializer_to_representation_loop_spec (child self) st items [])
    as [Hst Hout].
  destruct (ListSerializer_to_representation_loop (child self) items [] st)
    as [[ret | e] st1]; simpl in Hst; subst st1.
  - assert (Hiff : forall outs,
      Ok (VList ret) = Ok (VList outs) <->
      Forall2 (fun item shown =>
                 fst (Serializer_to_representation (child self) item st)
                 = Ok shown) items outs).
    { intros outs. split.
      - intros [= <-]. destruct (proj1 (Hout ret) eq_refl) as (o & -> & Hall).
        exact Hall.
      - intros Hall.
        assert (Heq : Ok ret = Ok outs) by (apply Hout; exists outs; auto).
        simpl in Heq. injection Heq as <-. reflexivity. }
    split; [reflexivity |]. split; [exact Hiff |].
    intros outs Houts. apply Hiff in Houts.
    symmetry. eapply Forall2_length; eauto.
  - split; [reflexivity |]. split.
    + intros outs. split; [discriminate |]. intros Hall.
      assert (Heq : Raise e = Ok outs) by (apply Hout; exists outs; auto).
      discriminate.
    + discriminate.
Qed.

(** ** The metaclass: order and inheritance of declared fields *)

Lemma insert_by_key_perm {A} (key : A -> nat) (x : A) (l : list A) :
  Permutation (insert_by_key key x l) (x :: l).
Proof.
  induction l as [| y l IH]; simpl; [reflexivity |].
  destruct (key x <=? key y)%nat; [reflexivity |].
  rewrite IH. apply perm_swap.
Qed.

Lemma sort_by_key_perm {A} (key : A -> nat) (l : list A) :
  Permutation (sort_by_key key l) l.
Proof.
  induction l as [| x l IH]; simpl; [reflexivity |].
  rewrite insert_by_key_perm, IH. reflexivity.
Qed.

Lemma insert_by_key_sorted {A} (key : A -> nat) (x : A) (l : list A) :
  StronglySorted (fun a b => (key a <= key b)%nat) l ->
  StronglySorted (fun a b => (key a <= key b)%nat) (insert_by_key key x l).
Proof.
  induction l as [| y l IH]; intros Hsorted; simpl.
  - constructor; constructor.
  - inversion Hsorted as [| ? ? Hl Hy]; subst.
    destruct (Nat.leb_spec (key x) (key y)) as [Hle | Hgt].
    + constructor; [exact Hsorted |].
      constructor; [exact Hle |].
      eapply Forall_impl; [exact Hy |]. simpl. intros z Hz. lia.
    + constructor; [apply IH; exact Hl |].
      eapply Permutation_Forall; [symmetry; apply insert_by_key_perm |].
      constructor; [lia | exact Hy].
Qed.

Lemma sort_by_key_sorted {A} (key : A -> nat) (l : list A) :
  StronglySorted (fun a b => (key a <= key b)%nat) (sort_by_key key l).
Proof.
  induction l as [| x l IH]; simpl; [constructor |].
  apply insert_by_key_sorted, IH.
Qed.

Lemma str_get_In {A} (d : list (string * A)) (k : string) (v : A) :
  str_get d k = Some v -> In (k, v) d.
Proof.
  induction d as [| [k' v'] d IH]; simpl; [discriminate |].
  destruct (String.eqb_spec k' k) as [-> | Hne].
  - intros [= <-]. left. reflexivity.
  - intros Hget. right. apply IH, Hget.
Qed.

Lemma str_get_None {A} (d : list (string * A)) (k : string) :
  str_get d k = None <-> ~ In k (map fst d).
Proof.
  induction d as [| [k' v'] d IH]; simpl; [tauto |].
  destruct (String.eqb_spec k' k) as [-> | Hne].
  - split; [discriminate | intros Hn; exfalso; apply Hn; auto].
  - rewrite IH. tauto.
Qed.

Lemma str_get_NoDup_In {A} (d : list (string * A)) (k : string) (v : A) :
  NoDup (map fst d) -> In (k, v) d -> str_get d k = Some v.
Proof.
  induction d as [| [k' v'] d IH]; simpl; intros Hnd Hin; [contradiction |].
  apply NoDup_cons in Hnd as [Hfresh Hnd].
  destruct Hin as [[= -> ->] | Hin].
  - rewrite String.eqb_refl. reflexivity.
  - destruct (String.eqb_spec k' k) as [-> | Hne]; [| apply IH; assumption].
    exfalso. apply Hfresh. apply list_elem_of_In.
    apply (in_map fst) in Hin. exact Hin.
Qed.

Lemma str_get_perm {A} (d d' : list (string * A)) (k : string) :
  Permutation d d' -> NoDup (map fst d) -> str_get d' k = str_get d k.
Proof.
  intros Hperm Hnd.
  assert (Hnd' : NoDup (map fst d')).
  { rewrite <- Hperm. exact Hnd. }
  destruct (str_get d k) as [v |] eqn:Hget.
  - apply str_get_NoDup_In; [exact Hnd' |].
    eapply Permutation_in; [exact Hperm |]. apply str_get_In, Hget.
  - apply str_get_None. apply str_get_None in Hget.
    intros Hin. apply Hget.
    eapply Permutation_in; [symmetry; apply Permutation_map, Hperm |].
    exact Hin.
Qed.

Lemma str_set_keys {A} (d : list (string * A)) (k : string) (v : A) :
  map fst (str_set d k v) =
    if existsb (String.eqb k) (map fst d) then map fst d
    else (map fst d ++ [k])%list.
Proof.
  induction d as [| [k' v'] d IH]; simpl; [reflexivity |].
  rewrite (String.eqb_sym k k').
  destruct (String.eqb k' k); simpl; [reflexivity |].
  rewrite IH. destruct (existsb (String.eqb k) (map fst d)); reflexivity.
Qed.

Lemma str_get_str_set {A} (d : list (string * A)) (k nm : string) (v : A) :
  str_get (str_set d k v) nm =
    if String.eqb k nm then Some v else str_get d nm.
Proof.
  induction d as [| [k' v'] d IH]; simpl.
  - reflexivity.
  - destruct (String.eqb_spec k' k) as [-> | Hne]; simpl.
    + destruct (String.eqb k nm); reflexivity.
    + rewrite IH.
      destruct (String.eqb_spec k' nm) as [-> | Hne'];
        destruct (String.eqb_spec k nm) as [-> | Hne'']; try reflexivity.
      contradiction.
Qed.

Lemma existsb_eqb_In (k : string) (l : list string) :
  existsb (String.eqb k) l = true <-> In k l.
Proof.
  rewrite existsb_exists. split.
  - intros (x & Hin & Heq). apply String.eqb_eq in Heq. subst. exact Hin.
  - intros Hin. exists k. split; [exact Hin | apply String.eqb_refl].
Qed.

(** Adding pairs with distinct keys to an ordered mapping: old keys keep
    their place, new keys follow in order, the added values win. *)
Lemma ordered_dict_extend {A} (pairs : list (string * A)) :
  NoDup (map fst pairs) ->
  forall acc,
    let r := fold_left (fun acc kv => str_set acc (fst kv) (snd kv))
               pairs acc in
    map fst r =
      (map fst acc ++
       List.filter (fun k => negb (existsb (String.eqb k) (map fst acc)))
         (map fst pairs))%list
    /\ forall nm, str_get r nm =
                  match str_get pairs nm with
                  | Some v => Some v
                  | None => str_get acc nm
                  end.
Proof.
  induction pairs as [| [k v] pairs IH]; intros Hnd acc; simpl.
  - rewrite app_nil_r. split; [reflexivity | intros nm; reflexivity].
  - cbn [map fst] in Hnd. apply NoDup_cons in Hnd as [Hfresh Hnd].
    rewrite list_elem_of_In in Hfresh.
    destruct (IH Hnd (str_set acc k v)) as [Hkeys Hget].
    split.
    + rewrite Hkeys, str_set_keys.
      destruct (existsb (String.eqb k) (map fst acc)) eqn:Hin; simpl;
        rewrite ?Hin; simpl.
      * reflexivity.
      * rewrite <- app_assoc. simpl. f_equal. f_equal.
        apply List.filter_ext_in. intros k' Hk'.
        rewrite existsb_app. simpl.
        destruct (String.eqb_spec k' k) as [-> | Hne]; [contradiction |].
        rewrite !orb_false_r. reflexivity.
    + intros nm. rewrite Hget, str_get_str_set.
      destruct (str_get pairs nm) as [v' |] eqn:Hp.
      * destruct (String.eqb_spec k nm) as [-> | Hne]; [| reflexivity].
        exfalso. apply Hfresh. apply str_get_In in Hp.
        apply (in_map fst) in Hp. exact Hp.
      * destruct (String.eqb k nm); reflexivity.
Qed.

Lemma ordered_dict_NoDup {A} (pairs : list (string * A)) :
  NoDup (map fst pairs) -> ordered_dict pairs = pairs.
Proof.
  unfold ordered_dict.
  assert (Hgen : forall acc,
    NoDup (map fst pairs) ->
    (forall k, In k (map fst pairs) -> ~ In k (map fst acc)) ->
    fold_left (fun acc kv => str_set acc (fst kv) (snd kv)) pairs acc
    = (acc ++ pairs)%list).
  { induction pairs as [| [k v] pairs IH]; intros acc Hnd Hdisj; simpl.
    - rewrite app_nil_r. reflexivity.
    - cbn [map fst] in Hnd. apply NoDup_cons in Hnd as [Hfresh Hnd].
      rewrite list_elem_of_In in Hfresh.
      assert (Hset : str_set acc k v = (acc ++ [(k, v)])%list).
      { assert (Hk : ~ In k (map fst acc)) by (apply Hdisj; left; reflexivity).
        clear -Hk. induction acc as [| [k' v'] acc IHa]; simpl;
          [reflexivity |].
        destruct (String.eqb_spec k' k) as [-> | Hne].
        - exfalso. apply Hk. left. reflexivity.
        - rewrite IHa; [reflexivity |]. intros Hin. apply Hk. right. exact Hin. }
      rewrite Hset, IH; [rewrite <- app_assoc; reflexivity | exact Hnd |].
      intros k' Hk'. rewrite map_app, in_app_iff. simpl.
      intros [Hacc | [<- | []]].
      + eapply Hdisj; [right; exact Hk' | exact Hacc].
      + contradiction. }
  intros Hnd. apply (Hgen [] Hnd). intros k _ [].
Qed.

Lemma field_attrs_keys (attrs : list (string * class_attr)) (k : string) :
  In k (map fst (field_attrs attrs)) -> In k (map fst attrs).
Proof.
  induction attrs as [| [nm [fl | v]] attrs IH]; simpl; [tauto | |].
  - intros [<- | Hin]; auto.
  - intros Hin. auto.
Qed.

Lemma field_attrs_NoDup (attrs : list (string * class_attr)) :
  NoDup (map fst attrs) -> NoDup (map fst (field_attrs attrs)).
Proof.
  induction attrs as [| [nm [fl | v]] attrs IH]; simpl; intros Hnd;
    [exact Hnd | |]; apply NoDup_cons in Hnd as [Hfresh Hnd].
  - apply NoDup_cons. split; [| apply IH, Hnd].
    rewrite list_elem_of_In in *. intros Hin. apply Hfresh.
    apply field_attrs_keys, Hin.
  - apply IH, Hnd.
Qed.

Lemma no_declaring_base (bases : list (option (list (string * loc))))
  (declared : list (string * loc)) :
  Forall (fun base => base = None \/ base = Some []) bases ->
  fold_left
    (fun declared base =>
       match base with
       | Some base_fields => (base_fields ++ declared)%list
       | None => declared
       end) (rev bases) declared = declared.
Proof.
  intros Hnone.
  assert (Hrev : Forall (fun base => base = None \/ base = Some [])
                   (rev bases)).
  { apply Forall_forall. intros b Hb.
    apply list_elem_of_In, in_rev, list_elem_of_In in Hb.
    eapply Forall_forall in Hnone; [exact Hnone | exact Hb]. }
  clear Hnone. revert declared.
  induction (rev bases) as [| b l IH]; intros declared; simpl; [reflexivity |].
  inversion Hrev as [| ? ? Hb Hl]; subst.
  destruct Hb as [-> | ->]; apply IH, Hl.
Qed.

(** X20. A serializer class that inherits no field declares its [Field]
    attributes in the order in which the [Field] objects were created,
    whatever the order of the attributes in the class body: when every
    base has an empty [_declared_fields], as [Serializer] itself has, or
    none at all, the declared fields are the [Field] attributes of the
    body, each under its name, sorted by creation counter. *)
Theorem declared_fields_in_creation_order (creation_counter : loc -> nat)
  (bases : list (option (list (string * loc))))
  (attrs : list (string * class_attr)) :
  NoDup (map fst attrs) ->
  Forall (fun base => base = None \/ base = Some []) bases ->
  let declared := _get_declared_fields creation_counter bases attrs in
  Permutation declared (field_attrs attrs)
  /\ StronglySorted
       (fun a b => (creation_counter (snd a) <= creation_counter (snd b))%nat)
       declared
  /\ (forall nm, str_get declared nm = str_get (field_attrs attrs) nm).
Proof.
  intros Hnd Hbases declared. subst declared.
  unfold _get_declared_fields.
  rewrite no_declaring_base by exact Hbases.
  pose proof (sort_by_key_perm (fun x : string * loc => creation_counter (snd x))
                (field_attrs attrs)) as Hperm.
  assert (Hkeys : NoDup (map fst (sort_by_key
                    (fun x : string * loc => creation_counter (snd x))
                    (field_attrs attrs)))).
  { rewrite Hperm. apply field_attrs_NoDup, Hnd. }
  rewrite ordered_dict_NoDup by exact Hkeys.
  split; [exact Hperm |].
  split; [apply (sort_by_key_sorted
                   (fun x : string * loc => creation_counter (snd x))) |].
  intros nm. apply str_get_perm; [symmetry; exact Hperm |].
  apply field_attrs_NoDup, Hnd.
Qed.

(** X21. A serializer class with one base that declares fields inherits
    them in front: the names of the base come first, in the order of the
    base, followed by the new names of the class in creation order; a name
    declared again in the class keeps the place it has in the base and
    refers to the [Field] object of the class. *)
Theorem declared_fields_inherit (creation_counter : loc -> nat)
  (base : list (string * loc)) (attrs : list (string * class_attr)) :
  NoDup (map fst base) -> NoDup (map fst attrs) ->
  let own :=
    sort_by_key (fun x => creation_counter (snd x)) (field_attrs attrs) in
  let declared := _get_declared_fields creation_counter [Some base] attrs in
  map fst declared =
    (map fst base ++
     List.filter (fun k => negb (existsb (String.eqb k) (map fst base)))
       (map fst own))%list
  /\ (forall nm,
        str_get declared nm =
          match str_get (field_attrs attrs) nm with
          | Some fl => Some fl
          | None => str_get base nm
          end).
Proof.
  intros Hbase Hattrs own declared. subst declared.
  unfold _get_declared_fields, ordered_dict. fold own. cbn [rev app fold_left].
  rewrite fold_left_app.
  change (fold_left (fun acc kv => str_set acc (fst kv) (snd kv)) base [])
    with (ordered_dict base).
  rewrite ordered_dict_NoDup by exact Hbase.
  pose proof (sort_by_key_perm (fun x : string * loc => creation_counter (snd x))
                (field_attrs attrs)) as Hperm.
  fold own in Hperm.
  assert (Hown : NoDup (map fst own)).
  { rewrite Hperm. apply field_attrs_NoDup, Hattrs. }
  destruct (ordered_dict_extend own Hown base) as [Hkeys Hget].
  split; [exact Hkeys |].
  intros nm. rewrite Hget.
  rewrite (str_get_perm (field_attrs attrs) own nm);
    [reflexivity | symmetry; exact Hperm | apply field_attrs_NoDup, Hattrs].
Qed.

(** ** settings.py *)

(** X22. A setting that was read once is cached on the settings object: a
    second read returns the same value and leaves the object as it is, so
    the import is not repeated; the cached values of other names and the
    three dictionaries of the object are untouched.  A read that fails
    caches nothing. *)
Theorem read_setting_caches
  (import_attribute : string -> string -> import_outcome)
  (self self' : APISettings) (attr : string) (r : setting_result) :
  read_setting import_attribute self attr = (r, self') ->
  match r with
  | Setting v =>
      read_setting import_attribute self' attr = (Setting v, self')
      /\ (forall other, other <> attr ->
            str_get (cached self') other = str_get (cached self) other)
      /\ _user_settings self' = _user_settings self
      /\ defaults self' = defaults self
      /\ import_strings self' = import_strings self
  | _ => self' = self
  end.
Proof.
  unfold read_setting, APISettings_getattr.
  destruct (str_get (cached self) attr) as [c |] eqn:Hc.
  - intros [= <- <-]. rewrite Hc. repeat split; reflexivity.
  - destruct (str_get (defaults self) attr) as [d |]; [| intros [= <- <-]; reflexivity].
    match goal with
    | |- context [if ?b then ?x else ?y] => destruct (if b then x else y) as [v | | |]
    end; intros [= <- <-]; try reflexivity.
    cbn [cached _user_settings defaults import_strings].
    rewrite str_get_str_set, String.eqb_refl.
    repeat split; try reflexivity.
    intros other Hother. rewrite str_get_str_set.
    destruct (String.eqb_spec attr other) as [-> |]; [contradiction | reflexivity].
Qed.

(** X23. How a setting that has not been read yet is resolved: a name
    that is not in the defaults is an [AttributeError], also when the user
    settings give it a value; a name of the defaults that is no import
    string takes the value of the user settings when they have it and the
    default otherwise; an import string whose value is [None] stays
    [None] and nothing is imported. *)
Theorem read_setting_resolution
  (import_attribute : string -> string -> import_outcome)
  (self : APISettings) (attr : string) :
  str_get (cached self) attr = None ->
  (str_get (defaults self) attr = None ->
   read_setting import_attribute self attr = (SettingAttributeError, self))
  /\ (forall default_val,
        str_get (defaults self) attr = Some default_val ->
        existsb (String.eqb attr) (import_strings self) = false ->
        fst (read_setting import_attribute self attr) =
          Setting (match str_get (_user_settings self) attr with
                   | Some v => v
                   | None => default_val
                   end))
  /\ (forall default_val,
        str_get (defaults self) attr = Some default_val ->
        match str_get (_user_settings self) attr with
        | Some v => v
        | None => default_val
        end = VNone ->
        fst (read_setting import_attribute self attr) = Setting VNone).
Proof.
  intros Hc. unfold read_setting, APISettings_getattr. rewrite Hc.
  split; [intros ->; reflexivity |].
  split.
  - intros d -> ->. reflexivity.
  - intros d -> ->.
    destruct (existsb (String.eqb attr) (import_strings self)); reflexivity.
Qed.

(** X24. A list of import paths is imported item by item: the import
    succeeds exactly when every item is imported, and gives the imported
    objects in the order of the paths. *)
Theorem perform_import_of_list
  (import_attribute : string -> string -> import_outcome)
  (items : list value) (r : value) :
  perform_import import_attribute (VList items) = Setting r <->
  exists vs,
    r = VList vs
    /\ Forall2 (fun item v => import_from_string import_attribute item = Setting v)
         items vs.
Proof.
  cbn [perform_import]. revert r.
  induction items as [| item rest IH]; intros r; simpl.
  - split.
    + intros [= <-]. exists []. split; [reflexivity | constructor].
    + intros (vs & -> & Hall). inversion Hall. reflexivity.
  - destruct (import_from_string import_attribute item) as [v | | |] eqn:Hitem.
    + destruct (import_each import_attribute rest) as [tl | | |] eqn:Hrest.
      * destruct (proj1 (IH tl) eq_refl) as (vs & -> & Hall).
        split.
        -- intros [= <-]. exists (v :: vs). split; [reflexivity |].
           constructor; assumption.
        -- intros (ws & -> & Hws).
           inversion Hws as [| ? w ? ws' Hw Hws']; subst.
           assert (Htl : Setting (VList vs) = Setting (VList ws')).
           { apply IH. exists ws'. split; [reflexivity | exact Hws']. }
           congruence.
      * split; [discriminate |].
        intros (ws & -> & Hws). inversion Hws as [| ? w ? ws' Hw Hws']; subst.
        assert (Htl : SettingAttributeError = Setting (VList ws')).
        { apply IH. exists ws'. split; [reflexivity | exact Hws']. }
        discriminate.
      * split; [discriminate |].
        intros (ws & -> & Hws). inversion Hws as [| ? w ? ws' Hw Hws']; subst.
        assert (Htl : SettingImportError = Setting (VList ws')).
        { apply IH. exists ws'. split; [reflexivity | exact Hws']. }
        discriminate.
      * split; [discriminate |].
        intros (ws & -> & Hws). inversion Hws as [| ? w ? ws' Hw Hws']; subst.
        assert (Htl : SettingRaised e = Setting (VList ws')).
        { apply IH. exists ws'. split; [reflexivity | exact Hws']. }
        discriminate.
    + split; [discriminate |].
      intros (ws & -> & Hws). inversion Hws; subst. congruence.
    + split; [discriminate |].
      intros (ws & -> & Hws). inversion Hws; subst. congruence.
    + split; [discriminate |].
      intros (ws & -> & Hws). inversion Hws; subst. congruence.
Qed.

(** ** Serializer construction with an undeclared name *)

Lemma build_fields_pairs (self : loc) (cls : serializer_class)
  (names : list string) (st st' : store)
  (r : result (list (string * option loc))) :
  build_fields self names st = (r, st') ->
  holds_at self (fun s => s_class s = cls) st ->
  r = Ok (map (fun n => (n, str_get (_declared_fields cls) n)) names)
  \/ r = Raise AttributeError.
Proof.
  revert st st' r.
  induction names as [| nm names IH]; intros st st' r; simpl.
  - intros [= <- _] _. left. reflexivity.
  - intros Hrun Hst. unfold mbind at 1, M_bind at 1 in Hrun.
    destruct (build_field self nm st) as [[fl | e] st1] eqn:Hfield.
    + pose proof (keeps_build_field self _ self nm _ _ _ Hfield Hst) as Hst1.
      assert (Hfl : fl = str_get (_declared_fields cls) nm).
      { destruct Hst as (s & Hs & Hcls).
        unfold build_field, mbind, M_bind, read_serializer in Hfield.
        rewrite Hs, Hcls in Hfield.
        destruct (str_get (_declared_fields cls) nm) as [f |].
        - destruct (Field_bind f self nm st) as [[[] | ?] ?];
            [| discriminate].
          injection Hfield as <- _. reflexivity.
        - injection Hfield as <- _. reflexivity. }
      unfold mbind at 1, M_bind at 1 in Hrun.
      destruct (build_fields self names st1) as [[tl | e] st2] eqn:Hrest.
      * injection Hrun as <- _.
        destruct (IH _ _ _ Hrest Hst1) as [[= ->] | ?]; [| discriminate].
        left. subst fl. reflexivity.
      * injection Hrun as <- _.
        destruct (IH _ _ _ Hrest Hst1) as [? | [= ->]]; [discriminate |].
        right. reflexivity.
    + injection Hrun as <- _. right.
      destruct Hst as (s & Hs & Hcls).
      unfold build_field, mbind, M_bind, read_serializer in Hfield.
      rewrite Hs, Hcls in Hfield.
      destruct (str_get (_declared_fields cls) nm) as [f |];
        [| discriminate].
      unfold Field_bind, mbind, M_bind, read_field, read_serializer,
        write_field in Hfield.
      destruct (field_objects st !! f).
      * rewrite Hs in Hfield. discriminate.
      * injection Hfield as <- _. reflexivity.
Qed.

Lemma ordered_pairs_lookup {A} (g : string -> A) (names : list string)
  (acc : list (string * A)) (k : string) :
  str_get
    (fold_left (fun acc kv => str_set acc (fst kv) (snd kv))
       (map (fun n => (n, g n)) names) acc) k =
    if existsb (String.eqb k) names then Some (g k) else str_get acc k.
Proof.
  revert acc. induction names as [| n names IH]; intros acc; simpl.
  - reflexivity.
  - rewrite IH, str_get_str_set.
    destruct (existsb (String.eqb k) names).
    + rewrite orb_true_r. reflexivity.
    + rewrite orb_false_r, (String.eqb_sym k n).
      destruct (String.eqb_spec n k) as [-> |]; reflexivity.
Qed.

Lemma writable_of_missing_field (st : store) (fs : list (string * option loc))
  (acc : list (value * loc)) (k : string) :
  In (k, None) fs -> writable_of st fs acc = Raise AttributeError.
Proof.
  revert acc. induction fs as [| [k' [fl |]] fs IH]; intros acc Hin; simpl.
  - destruct Hin.
  - destruct Hin as [[=] | Hin].
    destruct (field_objects st !! fl) as [f |]; [| reflexivity].
    destruct (negb (read_only f) || truthy (default f)); apply IH, Hin.
  - reflexivity.
Qed.

(** X25. A serializer class whose [Meta.fields] lists a name that the
    class does not declare cannot be instantiated: [build_field] gives
    [None] for the name, and [get_writable_fields] reads [read_only] of it,
    so [__init__] ends with an [AttributeError]. *)
Theorem Serializer_init_undeclared_name (cls : serializer_class)
  (meta : options) (inst init : value) (part : bool) (st : store)
  (nm : string) :
  _meta cls = Some meta ->
  In nm (meta_fields meta) ->
  str_get (_declared_fields cls) nm = None ->
  fst (Serializer_init cls inst init part st) = Raise AttributeError.
Proof.
  intros Hmeta Hin Hnone.
  unfold Serializer_init.
  unfold mbind at 1, M_bind at 1. unfold new_serializer at 1.
  set (self := length (serializer_objects st)).
  set (s0 := {| s_class := cls; fields := [] |}).
  set (st0 := {| field_objects := field_objects st;
                 serializer_objects := _ |}).
  assert (Hs0 : serializer_objects st0 !! self = Some s0).
  { subst st0 self. simpl. apply list_lookup_middle. reflexivity. }
  assert (H0 : holds_at self (fun s => s_class s = cls) st0).
  { exists s0. split; [exact Hs0 | reflexivity]. }
  unfold mbind at 1, M_bind at 1.
  assert (Hfields :
    get_fields self st0 =
      match build_fields self (meta_fields meta) st0 with
      | (Ok pairs, st1) =>
          (Ok (fold_left (fun acc kv => str_set acc (fst kv) (snd kv))
                 pairs []), st1)
      | (Raise e, st1) => (Raise e, st1)
      end).
  { unfold get_fields, mbind, M_bind, read_serializer. unfold loc in *.
    rewrite Hs0. cbn [s_class s0]. rewrite Hmeta. reflexivity. }
  rewrite Hfields. clear Hfields.
  destruct (build_fields self (meta_fields meta) st0) as [r st1] eqn:Hbuild.
  pose proof (keeps_build_fields self _ self _ _ _ _ Hbuild H0) as H1.
  destruct (build_fields_pairs _ _ _ _ _ _ Hbuild H0) as [-> | ->];
    [| reflexivity].
  destruct H1 as (s1 & Hs1 & Hcls1).
  unfold mbind at 1, M_bind at 1.
  rewrite (update_serializer_put st1 self s1) by exact Hs1.
  unfold mbind at 1, M_bind at 1.
  assert (Hwritable :
    forall fs, get_writable_fields self (put_serializer st1 self (set_fields s1 fs)) =
      (writable_of (put_serializer st1 self (set_fields s1 fs)) fs [],
       put_serializer st1 self (set_fields s1 fs))).
  { intros fs. unfold get_writable_fields, mbind, M_bind, read_serializer.
    unfold loc in *. rewrite (put_serializer_lookup st1 self s1) by exact Hs1. reflexivity. }
  rewrite Hwritable. clear Hwritable.
  rewrite (writable_of_missing_field _ _ _ nm); [reflexivity |].
  apply str_get_In. rewrite ordered_pairs_lookup.
  replace (existsb (String.eqb nm) (meta_fields meta)) with true.
  - rewrite Hnone. reflexivity.
  - symmetry. apply existsb_exists. exists nm. split; [exact Hin |].
    apply String.eqb_refl.
Qed.

End Properties.

(** * The properties at concrete inputs, on the plain runtime *)

#[local] Existing Instance plain_builtins.

Lemma data_before_is_valid_witness :
  truthy (VDict [(VStr "x", VInt 1)]) = true /\
  fst (data 0%nat
         (snd (Serializer_init one_field_class VNone
                 (VDict [(VStr "x", VInt 1)]) false one_field_store)))
  = Ok (VDict [(VStr "x", VInt 1)]).
Proof.
  split; [reflexivity |].
  refine (proj1 (data_before_is_valid_returns_initial_data
                   one_field_class (VDict [(VStr "x", VInt 1)]) false
                   one_field_store _ 0%nat _ _));
    reflexivity.
Defined.

Lemma page_slice_and_num_pages_witness :
  exists p',
    Paginator_page (mkPaginator (py_range 23) 10 5 true 0 None None) (VInt 2)
    = (Ok {| page_object_list := firstn 13 (skipn 10 (py_range 23));
             number := 2 |}, p') /\
    count p' = 23 /\
    num_pages p' = (Ok 2, p') /\
    object_list p' = py_range 23 /\
    memo_consistent p'.
Proof.
  refine (proj1 (page_slice_and_num_pages
                   (mkPaginator (py_range 23) 10 5 true 0 None None)
                   (VInt 2) 2 _ _ _ _ _ _)).
  - split; reflexivity.
  - discriminate.
  - reflexivity.
  - split; left; reflexivity.
  - reflexivity.
  - discriminate.
Defined.

(** Outside the bounds of C6.  A [per_page] that [float] refuses makes
    [page] fail with [OverflowError]; and on a new paginator over 23
    objects [num_pages], read before any [page], is 1 and not 2. *)
Lemma page_of_huge_per_page_overflows :
  (exists p,
     Paginator_init (py_range 23) (VInt (10 ^ 309)) (VInt 5) true = Ok p /\
     0 < per_page p /\ 0 <= orphans p /\
     fst (Paginator_page p (VInt 1)) = Raise OverflowError)
  /\ (exists p,
        Paginator_init (py_range 23) (VInt 10) (VInt 5) true = Ok p /\
        fst (num_pages p) = Ok 1).
Proof.
  split.
  - eexists. split; [reflexivity |].
    split; [reflexivity |]. split; [discriminate |].
    vm_compute. reflexivity.
  - eexists. split; [reflexivity |]. vm_compute. reflexivity.
Qed.



Lemma to_representation_emits_falsy_unrendered_witness :
  fst (Serializer_to_representation 0%nat falsy_instance
         (snd (Serializer_init four_field_class VNone VNone false
                 four_field_store)))
  = Ok (VDict [(VStr "when", VNone); (VStr "n", VInt 0); (VStr "s", VStr "");
               (VStr "b", VBool false)])
  <->
  Forall2
    (emits (snd (Serializer_init four_field_class VNone VNone false
                   four_field_store)) falsy_instance)
    [("when", Some 0%nat); ("n", Some 1%nat); ("s", Some 2%nat);
     ("b", Some 3%nat)]
    [(VStr "when", VNone); (VStr "n", VInt 0); (VStr "s", VStr "");
     (VStr "b", VBool false)].
Proof.
  refine (proj1 (to_representation_emits_falsy_unrendered
                   (snd (Serializer_init four_field_class VNone VNone false
                           four_field_store))
                   0%nat
                   {| s_class := four_field_class;
                      instance := VNone;
                      initial_data := VDict [];
                      validated_data := VDict [];
                      _errors := VDict [];
                      s_partial := false;
                      _data := None;
                      fields := [("when", Some 0%nat); ("n", Some 1%nat);
                                 ("s", Some 2%nat); ("b", Some 3%nat)];
                      writable_fields :=
                        [(VStr "when", 0%nat); (VStr "n", 1%nat);
                         (VStr "s", 2%nat); (VStr "b", 3%nat)] |}
                   falsy_instance _ _ _) _).
  - reflexivity.
  - simpl.
    repeat (apply NoDup_cons_2;
            [rewrite list_elem_of_In; simpl; intuition discriminate |]).
    apply NoDup_nil_2.
  - intros nm ofl Hin. simpl in Hin.
    destruct Hin as [[= <- <-] | [[= <- <-] | [[= <- <-] | [[= <- <-] | []]]]];
      eexists; eexists; (split; [reflexivity |]); split; reflexivity.
Defined.

Lemma ChoiceField_accepts_iff_lookup_truthy_witness :
  exists od aliases,
    f_class (Field_init
               (ChoiceField [(VInt 1, VStr "one"); (VInt 2, VStr "two")]
                  [(VStr "1", VInt 1); (VStr "2", VInt 2)] false)
               VNone VNone true false VNone false)
    = ChoiceField od aliases false /\
    forall data,
      py_eq data (VStr "") && false = false ->
      (hashable data = true ->
       (truthy (assoc_get aliases data) || truthy (assoc_get od data) = true
        <-> to_python
              (Field_init
                 (ChoiceField [(VInt 1, VStr "one"); (VInt 2, VStr "two")]
                    [(VStr "1", VInt 1); (VStr "2", VInt 2)] false)
                 VNone VNone true false VNone false) data = Ok data) /\
       (truthy (assoc_get aliases data) || truthy (assoc_get od data) = false
        <-> to_python
              (Field_init
                 (ChoiceField [(VInt 1, VStr "one"); (VInt 2, VStr "two")]
                    [(VStr "1", VInt 1); (VStr "2", VInt 2)] false)
                 VNone VNone true false VNone false) data =
              Raise (ValidationError
                       (VStr (str_format invalid_choice_template
                                [("input", data)]))))) /\
      (hashable data = false ->
       to_python
         (Field_init
            (ChoiceField [(VInt 1, VStr "one"); (VInt 2, VStr "two")]
               [(VStr "1", VInt 1); (VStr "2", VInt 2)] false)
            VNone VNone true false VNone false) data = Raise TypeError).
Proof.
  refine (proj1 (ChoiceField_accepts_iff_lookup_truthy
                   [(VInt 1, VStr "one"); (VInt 2, VStr "two")] false
                   VNone VNone true false VNone false _ _)).
  reflexivity.
Defined.

(** ** Pagination *)

Lemma page_sizes_witness :
  (exists pg,
     Paginator_page paginator_of_23 (VInt 1)
     = (Ok pg, counted paginator_of_23)
     /\ number pg = 1
     /\ (1 < 2 -> Page_len pg = 10)
     /\ (1 = 2 ->
         Page_len pg = 23 - (2 - 1) * 10 /\
         Page_len pg <= 10 + 5 /\
         (5 < 23 -> 5 < Page_len pg)))
  /\ (exists pg,
        Paginator_page paginator_of_23 (VInt 2)
        = (Ok pg, counted paginator_of_23)
        /\ number pg = 2
        /\ (2 < 2 -> Page_len pg = 10)
        /\ (2 = 2 ->
            Page_len pg = 23 - (2 - 1) * 10 /\
            Page_len pg <= 10 + 5 /\
            (5 < 23 -> 5 < Page_len pg))).
Proof.
  split.
  - refine (page_sizes paginator_of_23 1 _ _ _ _ _);
      first [reflexivity | discriminate | split; reflexivity
            | split; discriminate | split; left; reflexivity].
  - refine (page_sizes paginator_of_23 2 _ _ _ _ _);
      first [reflexivity | discriminate | split; reflexivity
            | split; discriminate | split; left; reflexivity].
Defined.

Lemma page_indices_match_contents_witness :
  exists pg first last,
    Paginator_page paginator_of_23 (VInt 2) = (Ok pg, counted paginator_of_23)
    /\ start_index pg (counted paginator_of_23) = first
    /\ end_index pg (counted paginator_of_23)
       = (Ok last, counted paginator_of_23)
    /\ first = (2 - 1) * 10 + 1
    /\ last = 23
    /\ 1 <= first <= last /\ last <= 23
    /\ Page_len pg = last - first + 1
    /\ page_object_list pg =
         firstn (Z.to_nat (last - first + 1))
           (skipn (Z.to_nat (first - 1)) (py_range 23)).
Proof.
  refine (page_indices_match_contents paginator_of_23 2 _ _ _ _ _ _);
    first [reflexivity | discriminate | split; reflexivity
          | split; discriminate | split; left; reflexivity].
Defined.

Lemma pages_partition_collection_witness :
  exists pgs p',
    pages_in_turn paginator_of_23 [1; 2] = (Ok pgs, p') /\
    map number pgs = [1; 2] /\
    concat (map page_object_list pgs) = py_range 23.
Proof.
  refine (pages_partition_collection paginator_of_23 _ _ _ _);
    first [reflexivity | discriminate | split; reflexivity
          | split; left; reflexivity].
Defined.

Lemma page_navigation_witness :
  exists pg,
    Paginator_page paginator_of_23 (VInt 2) = (Ok pg, counted paginator_of_23)
    /\ has_next pg (counted paginator_of_23)
       = (Ok false, counted paginator_of_23)
    /\ next_page_number pg (counted paginator_of_23)
       = (Raise (EmptyPage "That page contains no results"),
          counted paginator_of_23)
    /\ has_previous pg = true
    /\ previous_page_number pg (counted paginator_of_23)
       = (Ok 1, counted paginator_of_23)
    /\ has_other_pages pg (counted paginator_of_23)
       = (Ok true, counted paginator_of_23).
Proof.
  refine (page_navigation paginator_of_23 2 _ _ _ _ _);
    first [reflexivity | discriminate | split; reflexivity
          | split; discriminate | split; left; reflexivity].
Defined.

Lemma paginate_object_list_failures_witness :
  snd (paginate_object_list PageNumberPagination (py_range 23)
         ninth_page_request) = PageNumberPagination
  /\ ((exists msg, NotFound no_ninth_page = NotFound msg)
      \/ NotFound no_ninth_page = TypeError
      \/ NotFound no_ninth_page = ValueError
      \/ NotFound no_ninth_page = ZeroDivisionError
      \/ NotFound no_ninth_page = OverflowError
      \/ exists page_number message,
           py_format (invalid_page_message PageNumberPagination)
             [("page_number", page_number); ("message", VStr message)]
           = Raise (NotFound no_ninth_page))
  /\ (invalid_page_message PageNumberPagination
      = invalid_page_message PageNumberPagination ->
      (exists msg, NotFound no_ninth_page = NotFound msg)
      \/ NotFound no_ninth_page = TypeError
      \/ NotFound no_ninth_page = ValueError
      \/ NotFound no_ninth_page = ZeroDivisionError
      \/ NotFound no_ninth_page = OverflowError).
Proof.
  refine (paginate_object_list_failures PageNumberPagination (py_range 23)
            ninth_page_request _ _).
  vm_compute. reflexivity.
Defined.

Lemma paginate_then_response_witness :
  (exists self' pg,
     Paginator_page (mkPaginator (py_range 23) 5 0 true 0 None None)
       (VStr "2")
     = (Ok pg, counted (mkPaginator (py_range 23) 5 0 true 0 None None)) /\
     paginate_object_list sized_pagination (py_range 23) second_page_request
     = (Ok (Some (page_object_list pg)), self') /\
     forall data,
       fst (get_paginated_response self' data)
       = Ok (VDict [(VStr "count", VInt 23);
                    (VStr "has_next", VBool true);
                    (VStr "has_previous", VBool true);
                    (VStr "results", data)]))
  /\ paginate_object_list PageNumberPagination (py_range 23)
       ninth_page_request
     = (Raise (NotFound no_ninth_page), PageNumberPagination).
Proof.
  split.
  - refine (proj1 (paginate_then_response sized_pagination (py_range 23)
                     second_page_request 5 2 _ _ _ _ _) _);
      first [reflexivity | split; reflexivity | split; discriminate].
  - refine (proj2 (paginate_then_response PageNumberPagination (py_range 23)
                     ninth_page_request 10 9 _ _ _ _ _) _);
      first [reflexivity | split; reflexivity | right; reflexivity].
Defined.

(** ** Fields *)

Lemma IntegerField_round_trip_witness :
  (forall w, to_python integer_field (VStr "42") = Ok w <->
             exists n, py_int (VStr "42") = Ok n /\ w = VInt n)
  /\ ((exists e, py_int (VStr "42") = Raise e) ->
      to_python integer_field (VStr "42")
      = Raise (ValidationError (VStr "неверные данные")))
  /\ (forall w, to_python integer_field (VStr "42") = Ok w ->
                to_representation integer_field w = Ok w /\
                to_python integer_field w = Ok w).
Proof.
  refine (IntegerField_round_trip integer_field (VStr "42")
            "неверные данные" (or_introl eq_refl) eq_refl).
Defined.

Lemma unbound_required_field_refuses_falsy_witness :
  run_validation empty_store integer_field (VInt 0)
  = Raise (ValidationError (VStr "обязательное поле")).
Proof.
  refine (unbound_required_field_refuses_falsy empty_store integer_field
            (VInt 0) "обязательное поле" _ _ _ _);
    reflexivity.
Defined.

Lemma bound_field_with_missing_value_witness :
  (partial bound_integer_field = true ->
   run_validation (four_field_bound VNone) bound_integer_field VNone
   = get_attribute (four_field_bound VNone) bound_integer_field VNone)
  /\ (partial bound_integer_field = false ->
      required bound_integer_field = false ->
      run_validation (four_field_bound VNone) bound_integer_field VNone
      = Ok VNone)
  /\ (partial bound_integer_field = false ->
      False ->
      run_validation (four_field_bound VNone) bound_integer_field VNone
      = Ok VNone)
  /\ (partial bound_integer_field = false ->
      required bound_integer_field = true ->
      f_class bound_integer_field = IntegerField \/
      f_class bound_integer_field = SmallIntegerField ->
      forall m,
        str_get (error_messages bound_integer_field) "to_python" = Some m ->
        run_validation (four_field_bound VNone) bound_integer_field VNone
        = Raise (ValidationError (VStr m))).
Proof.
  refine (bound_field_with_missing_value (four_field_bound VNone)
            bound_integer_field 0%nat (four_field_object (VDict [])) VNone
            _ _ _);
    reflexivity.
Defined.

Lemma CharField_max_length_witness :
  (Z.of_nat (code_points "hello") <= 5 ->
   run_validation empty_store
     (CharField_init (VInt 5) VNone VNone true false VNone false)
     (VStr "hello") = Ok (VStr "hello"))
  /\ (5 < Z.of_nat (code_points "hello") ->
      run_validation empty_store
        (CharField_init (VInt 5) VNone VNone true false VNone false)
        (VStr "hello") =
        Raise (ValidationError
                 (VStr (str_format (class_message MaxLengthValidator)
                          [("limit_value", VInt 5)])))).
Proof.
  refine (CharField_max_length empty_store 5 VNone VNone true false VNone
            false None "hello" _ _);
    [reflexivity | discriminate].
Defined.

Lemma BooleanField_to_representation_is_boolean_witness :
  (hashable (VStr "false") = true ->
   exists b,
     to_representation
       (Field_init BooleanField VNone VNone true false VNone false)
       (VStr "false") = Ok (VBool b) /\
     (forall b',
        BooleanField_to_internal_value
          (Field_init BooleanField VNone VNone true false VNone false)
          (VStr "false") = Ok (VBool b') -> b' = b) /\
     ((forall w,
         BooleanField_to_internal_value
           (Field_init BooleanField VNone VNone true false VNone false)
           (VStr "false") <> Ok w) ->
      b = truthy (VStr "false")))
  /\ (hashable (VStr "false") = false ->
      to_representation
        (Field_init BooleanField VNone VNone true false VNone false)
        (VStr "false") = Raise TypeError)
  /\ (forall b,
        to_representation
          (Field_init BooleanField VNone VNone true false VNone false)
          (VBool b) = Ok (VBool b))
  /\ to_representation
       (Field_init BooleanField VNone VNone true false VNone false)
       (VStr "false") = Ok (VBool false).
Proof.
  refine (BooleanField_to_representation_is_boolean
            (Field_init BooleanField VNone VNone true false VNone false)
            (VStr "false") _).
  reflexivity.
Defined.

Lemma to_representation_of_missing_attributes_witness :
  Serializer_to_representation 0%nat (VDict []) (four_field_bound VNone)
  = (Ok (VDict [(VStr "when", VNone); (VStr "n", VNone); (VStr "s", VNone);
                (VStr "b", VNone)]),
     four_field_bound VNone).
Proof.
  refine (to_representation_of_missing_attributes (four_field_bound VNone)
            0%nat (four_field_object (VDict [])) [] _ _ _ _).
  - reflexivity.
  - simpl.
    repeat (apply NoDup_cons_2;
            [rewrite list_elem_of_In; simpl; intuition discriminate |]).
    apply NoDup_nil_2.
  - intros nm ofl Hin. simpl in Hin.
    destruct Hin as [[= <- <-] | [[= <- <-] | [[= <- <-] | [[= <- <-] | []]]]];
      eexists; eexists; (split; [reflexivity |]);
      (split; [reflexivity |]); (split; [reflexivity |]);
      intros meth; discriminate.
  - intros nm _. reflexivity.
Defined.

(** ** Serializers *)

Lemma run_validation_records_errors_witness :
  field_objects
    (put_serializer (four_field_bound invalid_input) 0%nat
       (set_errors (four_field_object invalid_input) recorded_errors))
  = field_objects (four_field_bound invalid_input)
  /\ (put_serializer (four_field_bound invalid_input) 0%nat
        (set_errors (four_field_object invalid_input) recorded_errors)
      = put_serializer (four_field_bound invalid_input) 0%nat
          (set_errors (four_field_object invalid_input) recorded_errors)
      /\ truthy recorded_errors = true
      /\ exists errs,
           recorded_errors = VDict errs /\
           forall k, In k (map fst errs) ->
                     In k (map fst
                             (writable_fields
                                (four_field_object invalid_input)))).
Proof.
  refine (run_validation_records_errors 0%nat invalid_input
            (four_field_bound invalid_input)
            (put_serializer (four_field_bound invalid_input) 0%nat
               (set_errors (four_field_object invalid_input) recorded_errors))
            (four_field_object invalid_input)
            (Raise (ValidationError recorded_errors)) _ _);
    reflexivity.
Defined.

Lemma is_valid_raise_exception_witness :
  exists s',
    serializer_objects
      (put_serializer (four_field_bound invalid_input) 0%nat
         (set_errors (four_field_object invalid_input) recorded_errors))
      !! 0%nat = Some s' /\
    false = negb (truthy (_errors s')) /\
    is_valid 0%nat true (four_field_bound invalid_input) =
      (Raise (ValidationError (_errors s')),
       put_serializer (four_field_bound invalid_input) 0%nat
         (set_errors (four_field_object invalid_input) recorded_errors)).
Proof.
  refine (is_valid_raise_exception 0%nat (four_field_bound invalid_input)
            (put_serializer (four_field_bound invalid_input) 0%nat
               (set_errors (four_field_object invalid_input) recorded_errors))
            (four_field_object invalid_input) false _ _);
    reflexivity.
Defined.

Lemma is_valid_idempotent_witness :
  is_valid 0%nat false
    (put_serializer (four_field_bound invalid_input) 0%nat
       (set_errors (four_field_object invalid_input) recorded_errors))
  = (Ok false,
     put_serializer (four_field_bound invalid_input) 0%nat
       (set_errors (four_field_object invalid_input) recorded_errors)).
Proof.
  refine (is_valid_idempotent 0%nat (four_field_bound invalid_input)
            (put_serializer (four_field_bound invalid_input) 0%nat
               (set_errors (four_field_object invalid_input) recorded_errors))
            (four_field_object invalid_input) false _ _);
    reflexivity.
Defined.

Lemma save_never_returns_witness :
  (truthy (_errors (four_field_object (VDict []))) = true ->
   save 0%nat [("owner", VInt 1)] (four_field_bound VNone)
   = (Raise AssertionError, four_field_bound VNone))
  /\ (truthy (_errors (four_field_object (VDict []))) = false ->
      forall d, validated_data (four_field_object (VDict [])) = VDict d ->
        save 0%nat [("owner", VInt 1)] (four_field_bound VNone) =
          (Raise TypeError,
           put_serializer (four_field_bound VNone) 0%nat
             (set_validated_data (four_field_object (VDict []))
                (VDict (dict_update_kwargs d [("owner", VInt 1)])))))
  /\ (forall v,
        fst (save 0%nat [("owner", VInt 1)] (four_field_bound VNone))
        <> Ok v).
Proof.
  refine (save_never_returns 0%nat [("owner", VInt 1)]
            (four_field_bound VNone) (four_field_object (VDict [])) _).
  reflexivity.
Defined.

Lemma Serializer_init_undeclared_name_witness :
  fst (Serializer_init undeclared_name_class VNone VNone false
         one_field_store) = Raise AttributeError.
Proof.
  refine (Serializer_init_undeclared_name undeclared_name_class
            {| model := VNone; meta_fields := ["x"; "y"];
               meta_validators := [] |}
            VNone VNone false one_field_store "y" _
            (or_intror (or_introl eq_refl)) _);
    reflexivity.
Defined.

(** ** The metaclass *)

Lemma declared_fields_in_creation_order_witness :
  Permutation (_get_declared_fields (fun fl => fl) [Some []] class_body)
    (field_attrs class_body)
  /\ StronglySorted (fun a b => (snd a <= snd b)%nat)
       (_get_declared_fields (fun fl => fl) [Some []] class_body)
  /\ (forall nm,
        str_get (_get_declared_fields (fun fl => fl) [Some []] class_body) nm
        = str_get (field_attrs class_body) nm).
Proof.
  refine (declared_fields_in_creation_order (fun fl => fl) [Some []]
            class_body _ _).
  - simpl.
    repeat (apply NoDup_cons_2;
            [rewrite list_elem_of_In; simpl; intuition discriminate |]).
    apply NoDup_nil_2.
  - constructor; [right; reflexivity | constructor].
Defined.

Lemma declared_fields_inherit_witness :
  map fst
    (_get_declared_fields (fun fl => fl)
       [Some [("a", 0%nat); ("b", 1%nat)]] subclass_body)
  = ["a"; "b"; "c"]
  /\ (forall nm,
        str_get
          (_get_declared_fields (fun fl => fl)
             [Some [("a", 0%nat); ("b", 1%nat)]] subclass_body) nm =
          match str_get (field_attrs subclass_body) nm with
          | Some fl => Some fl
          | None => str_get [("a", 0%nat); ("b", 1%nat)] nm
          end).
Proof.
  refine (declared_fields_inherit (fun fl => fl)
            [("a", 0%nat); ("b", 1%nat)] subclass_body _ _);
    simpl;
    repeat (apply NoDup_cons_2;
            [rewrite list_elem_of_In; simpl; intuition discriminate |]);
    apply NoDup_nil_2.
Defined.

(** ** Settings *)

Lemma read_setting_caches_witness :
  read_setting no_imports
    (snd (read_setting no_imports user_api_settings "PAGE_SIZE")) "PAGE_SIZE"
  = (Setting (VInt 25),
     snd (read_setting no_imports user_api_settings "PAGE_SIZE"))
  /\ (forall other, other <> "PAGE_SIZE" ->
        str_get
          (cached (snd (read_setting no_imports user_api_settings
                          "PAGE_SIZE"))) other
        = str_get (cached user_api_settings) other)
  /\ _user_settings
       (snd (read_setting no_imports user_api_settings "PAGE_SIZE"))
     = _user_settings user_api_settings
  /\ defaults (snd (read_setting no_imports user_api_settings "PAGE_SIZE"))
     = defaults user_api_settings
  /\ import_strings
       (snd (read_setting no_imports user_api_settings "PAGE_SIZE"))
     = import_strings user_api_settings.
Proof.
  refine (read_setting_caches no_imports user_api_settings
            (snd (read_setting no_imports user_api_settings "PAGE_SIZE"))
            "PAGE_SIZE" (Setting (VInt 25)) _).
  reflexivity.
Defined.

Lemma read_setting_resolution_witness :
  (str_get (defaults user_api_settings) "PAGE_SIZE" = None ->
   read_setting no_imports user_api_settings "PAGE_SIZE"
   = (SettingAttributeError, user_api_settings))
  /\ (forall default_val,
        str_get (defaults user_api_settings) "PAGE_SIZE" = Some default_val ->
        existsb (String.eqb "PAGE_SIZE") (import_strings user_api_settings)
        = false ->
        fst (read_setting no_imports user_api_settings "PAGE_SIZE") =
          Setting (match str_get (_user_settings user_api_settings)
                           "PAGE_SIZE" with
                   | Some v => v
                   | None => default_val
                   end))
  /\ (forall default_val,
        str_get (defaults user_api_settings) "PAGE_SIZE" = Some default_val ->
        match str_get (_user_settings user_api_settings) "PAGE_SIZE" with
        | Some v => v
        | None => default_val
        end = VNone ->
        fst (read_setting no_imports user_api_settings "PAGE_SIZE")
        = Setting VNone).
Proof.
  refine (read_setting_resolution no_imports user_api_settings "PAGE_SIZE" _).
  reflexivity.
Defined.
